(** * PolarMqtt: the session layer and its C bridge

    A shallow embedding of [cpp/impl/PolarMqtt.cpp] (the domain model:
    [ConnectionConfig], [Session], [APIFactory]) and of the C bridge
    [bridge/src/mqtt_c.cpp], followed by the properties proved about them.

    Conventions.
    - Fixed-width integers are [Z]; every C++ conversion or increment that can
      leave the range is passed through [wrap_signed].
    - A nullable pointer is an [option]; [None] is [nullptr].
    - The native engine (Paho [MQTTClient_*]) is external.  Every call to it
      is recorded in the trace, and the value it answers is an argument of
      the embedded function, so a statement quantifies over every answer the
      engine can give.
    - A call on a handler object ([onStateChange], [onError], [onMessage])
      is recorded in the trace as well; the trace is in program order.
    - The mutexes are not modelled: the embedding is sequential. *)

From Stdlib Require Import ZArith List String Bool Lia.
From stdpp Require Import base option gmap strings list list_numbers sorting pretty.
Import ListNotations.

Local Open Scope string_scope.
Local Open Scope list_scope.
Local Open Scope Z_scope.

(** ** Machine integers *)

(** Two's-complement reduction of [z] to [w] bits. *)
Definition wrap_signed (w : Z) (z : Z) : Z :=
  (z + 2 ^ (w - 1)) mod 2 ^ w - 2 ^ (w - 1).

Definition to_int (z : Z) : Z := wrap_signed 32 z.
Definition to_int64 (z : Z) : Z := wrap_signed 64 z.

Definition INT64_MAX : Z := 2 ^ 63 - 1.
Definition INT64_MIN : Z := - 2 ^ 63.

Definition in_int64 (z : Z) : Prop := INT64_MIN <= z <= INT64_MAX.

(** [x ? x : ""] on a [const char *]. *)
Definition or_empty (p : option string) : string :=
  match p with
  | Some s => s
  | None => ""
  end.

(** [std::string::empty]. *)
Definition string_empty (s : string) : bool :=
  match s with
  | EmptyString => true
  | String _ _ => false
  end.

(** [bool] to [int]. *)
Definition of_bool (b : bool) : Z := if b then 1 else 0.

(** ** Message *)

Module Message.

Inductive QoS : Set :=
| AT_MOST_ONCE
| AT_LEAST_ONCE
| EXACTLY_ONCE.

(** [static_cast<int>(qos)]. *)
Definition QoS_to_int (q : QoS) : Z :=
  match q with
  | AT_MOST_ONCE => 0
  | AT_LEAST_ONCE => 1
  | EXACTLY_ONCE => 2
  end.

(** [Message::Impl].  [qos] keeps the underlying [int32_t] of the enum: the
    inbound path casts whatever integer the engine delivers. *)
Record Impl : Type := mkImpl {
  topic : string;
  payload : list Byte.byte;
  qos : Z;
  retained : bool;
  messageId : Z
}.

Definition getTopic (m : Impl) : string := topic m.
Definition getPayload (m : Impl) : list Byte.byte := payload m.
Definition getPayloadLength (m : Impl) : Z := Z.of_nat (length (payload m)).
Definition getQoS (m : Impl) : Z := qos m.
Definition isRetained (m : Impl) : bool := retained m.
Definition getMessageId (m : Impl) : Z := messageId m.

End Message.

(** ** ConnectionConfig *)

Module ConnectionConfig.

(** [enum class Parameter]; the name [Parameter] is reserved in Rocq. *)
Inductive Param : Set :=
| KEEP_ALIVE_INTERVAL
| CLEAN_SESSION
| CONNECTION_TIMEOUT
| MAX_INFLIGHT
| MAX_QUEUED_MESSAGES
| RECONNECT_DELAY
| TLS_ENABLED.

Definition Param_to_int (p : Param) : Z :=
  match p with
  | KEEP_ALIVE_INTERVAL => 0
  | CLEAN_SESSION => 1
  | CONNECTION_TIMEOUT => 2
  | MAX_INFLIGHT => 3
  | MAX_QUEUED_MESSAGES => 4
  | RECONNECT_DELAY => 5
  | TLS_ENABLED => 6
  end.

(** [ConnectionConfig::Impl]. *)
Record Impl : Type := mkImpl {
  broker : string;
  port : Z;
  username : string;
  password : string;
  caFile : string;
  certFile : string;
  keyFile : string;
  keepAliveInterval : Z;
  cleanSession : bool;
  connectionTimeout : Z;
  maxInflight : Z;
  maxQueuedMessages : Z;
  reconnectDelay : Z;
  tlsEnabled : bool
}.

(** [new Impl()]: the default member initialisers; the other members are
    value-initialised. *)
Definition new : Impl :=
  {| broker := ""; port := 0; username := ""; password := "";
     caFile := ""; certFile := ""; keyFile := "";
     keepAliveInterval := 60; cleanSession := true; connectionTimeout := 30;
     maxInflight := 10; maxQueuedMessages := 100; reconnectDelay := 5;
     tlsEnabled := false |}.

(** [ConnectionConfig::set(Parameter, int32_t)]. *)
Definition set_int32 (param : Param) (value : Z) (c : Impl) : Impl :=
  match param with
  | KEEP_ALIVE_INTERVAL =>
      mkImpl (broker c) (port c) (username c) (password c) (caFile c)
        (certFile c) (keyFile c) value (cleanSession c)
        (connectionTimeout c) (maxInflight c) (maxQueuedMessages c)
        (reconnectDelay c) (tlsEnabled c)
  | CONNECTION_TIMEOUT =>
      mkImpl (broker c) (port c) (username c) (password c) (caFile c)
        (certFile c) (keyFile c) (keepAliveInterval c) (cleanSession c)
        value (maxInflight c) (maxQueuedMessages c)
        (reconnectDelay c) (tlsEnabled c)
  | MAX_INFLIGHT =>
      mkImpl (broker c) (port c) (username c) (password c) (caFile c)
        (certFile c) (keyFile c) (keepAliveInterval c) (cleanSession c)
        (connectionTimeout c) value (maxQueuedMessages c)
        (reconnectDelay c) (tlsEnabled c)
  | MAX_QUEUED_MESSAGES =>
      mkImpl (broker c) (port c) (username c) (password c) (caFile c)
        (certFile c) (keyFile c) (keepAliveInterval c) (cleanSession c)
        (connectionTimeout c) (maxInflight c) value
        (reconnectDelay c) (tlsEnabled c)
  | RECONNECT_DELAY =>
      mkImpl (broker c) (port c) (username c) (password c) (caFile c)
        (certFile c) (keyFile c) (keepAliveInterval c) (cleanSession c)
        (connectionTimeout c) (maxInflight c) (maxQueuedMessages c)
        value (tlsEnabled c)
  | _ => c
  end.

(** [ConnectionConfig::set(Parameter, bool)]. *)
Definition set_bool (param : Param) (value : bool) (c : Impl) : Impl :=
  match param with
  | CLEAN_SESSION =>
      mkImpl (broker c) (port c) (username c) (password c) (caFile c)
        (certFile c) (keyFile c) (keepAliveInterval c) value
        (connectionTimeout c) (maxInflight c) (maxQueuedMessages c)
        (reconnectDelay c) (tlsEnabled c)
  | TLS_ENABLED =>
      mkImpl (broker c) (port c) (username c) (password c) (caFile c)
        (certFile c) (keyFile c) (keepAliveInterval c) (cleanSession c)
        (connectionTimeout c) (maxInflight c) (maxQueuedMessages c)
        (reconnectDelay c) value
  | _ => c
  end.

(** [ConnectionConfig::setBroker]. *)
Definition setBroker (url : option string) (port' : Z) (c : Impl) : Impl :=
  mkImpl (or_empty url) port' (username c) (password c) (caFile c)
    (certFile c) (keyFile c) (keepAliveInterval c) (cleanSession c)
    (connectionTimeout c) (maxInflight c) (maxQueuedMessages c)
    (reconnectDelay c) (tlsEnabled c).

(** [ConnectionConfig::setCredentials]. *)
Definition setCredentials (username' password' : option string) (c : Impl)
  : Impl :=
  mkImpl (broker c) (port c) (or_empty username') (or_empty password')
    (caFile c) (certFile c) (keyFile c) (keepAliveInterval c)
    (cleanSession c) (connectionTimeout c) (maxInflight c)
    (maxQueuedMessages c) (reconnectDelay c) (tlsEnabled c).

(** [ConnectionConfig::setTlsCertificates]. *)
Definition setTlsCertificates (caFile' certFile' keyFile' : option string)
  (c : Impl) : Impl :=
  mkImpl (broker c) (port c) (username c) (password c) (or_empty caFile')
    (or_empty certFile') (or_empty keyFile') (keepAliveInterval c)
    (cleanSession c) (connectionTimeout c) (maxInflight c)
    (maxQueuedMessages c) (reconnectDelay c) true.

(** The codes that only the boolean overload of [set] handles, and those that
    only the integer overload handles. *)
Definition bool_only (p : Param) : bool :=
  match p with
  | CLEAN_SESSION | TLS_ENABLED => true
  | _ => false
  end.

Definition int_only (p : Param) : bool :=
  match p with
  | KEEP_ALIVE_INTERVAL | CONNECTION_TIMEOUT | MAX_INFLIGHT
  | MAX_QUEUED_MESSAGES | RECONNECT_DELAY => true
  | _ => false
  end.

End ConnectionConfig.

(** ** The native engine, as the session layer sees it *)

(** [enum class SessionState] of [SessionHandler.hpp]. *)
Inductive SessionState : Set :=
| DISCONNECTED
| CONNECTING
| CONNECTED
| RECONNECTING.

Definition SessionState_to_int (s : SessionState) : Z :=
  match s with
  | DISCONNECTED => 0
  | CONNECTING => 1
  | CONNECTED => 2
  | RECONNECTING => 3
  end.

(** The address of an object behind a pointer. *)
Abbreviation addr := positive.

(** [MQTTClient] is [void *]. *)
Definition MQTTClient : Set := option addr.

Definition MQTTCLIENT_SUCCESS : Z := 0.

Module Paho.

(** The members of [MQTTClient_SSLOptions] that [Session::start] assigns. *)
Record SSLOptions : Type := mkSSLOptions {
  trustStore : string;
  keyStore : string;
  privateKey : string
}.

(** The members of [MQTTClient_connectOptions] that [Session::start] assigns
    or leaves null. *)
Record connectOptions : Type := mkConnectOptions {
  keepAliveInterval : Z;
  cleansession : Z;
  retryInterval : Z;
  reliable : Z;
  username : option string;
  password : option string;
  ssl : option SSLOptions
}.

(** The members of [MQTTClient_message] that the session layer reads or
    assigns. *)
Record message : Type := mkMessage {
  payload : list Byte.byte;
  payloadlen : Z;
  qos : Z;
  retained : Z;
  msgid : Z
}.

End Paho.

(** What a session does that is visible outside it, in program order: a line
    on [std::cerr], a call into the engine, a call on a handler object. *)
Inductive event : Type :=
| cerr (line : string)
| MQTTClient_create (serverURI clientId : string)
| MQTTClient_setCallbacks (c : MQTTClient)
| MQTTClient_connect (c : MQTTClient) (opts : Paho.connectOptions)
| MQTTClient_disconnect (c : MQTTClient) (timeout : Z)
| MQTTClient_destroy (c : MQTTClient)
| MQTTClient_subscribe (c : MQTTClient) (topic : string) (qos : Z)
| MQTTClient_unsubscribe (c : MQTTClient) (topic : string)
| MQTTClient_publishMessage (c : MQTTClient) (topic : string)
    (pubmsg : Paho.message)
| MQTTClient_freeMessage
| MQTTClient_free
| onStateChange (h : addr) (newState : SessionState)
| onError (h : addr) (errorCode : Z) (message : string)
| onMessage (h : addr) (msg : Message.Impl).

(** The handler calls of a trace. *)
Definition state_changes (t : list event) : list SessionState :=
  omap (fun e => match e with onStateChange _ s => Some s | _ => None end) t.

Definition errors (t : list event) : list (Z * string) :=
  omap (fun e => match e with onError _ c m => Some (c, m) | _ => None end) t.

Definition is_callback (e : event) : bool :=
  match e with
  | onStateChange _ _ | onError _ _ _ | onMessage _ _ => true
  | _ => false
  end.

(** ** Session *)

Module Session.

(** [Session::Impl].  [sessionHandler] and [msgHandler] hold the address of a
    handler object, or null. *)
Record Impl : Type := mkImpl {
  client : MQTTClient;
  clientId : string;
  config : ConnectionConfig.Impl;
  msgHandler : option addr;
  sessionHandler : option addr;
  currentState : SessionState;
  subscriptions : gmap Z string;
  nextSubHandle : Z;
  nextMessageId : Z
}.

Definition set_client (v : MQTTClient) (s : Impl) : Impl :=
  mkImpl v (clientId s) (config s) (msgHandler s) (sessionHandler s)
    (currentState s) (subscriptions s) (nextSubHandle s) (nextMessageId s).

Definition set_config (v : ConnectionConfig.Impl) (s : Impl) : Impl :=
  mkImpl (client s) (clientId s) v (msgHandler s) (sessionHandler s)
    (currentState s) (subscriptions s) (nextSubHandle s) (nextMessageId s).

Definition set_msgHandler (v : option addr) (s : Impl) : Impl :=
  mkImpl (client s) (clientId s) (config s) v (sessionHandler s)
    (currentState s) (subscriptions s) (nextSubHandle s) (nextMessageId s).

Definition set_sessionHandler (v : option addr) (s : Impl) : Impl :=
  mkImpl (client s) (clientId s) (config s) (msgHandler s) v
    (currentState s) (subscriptions s) (nextSubHandle s) (nextMessageId s).

Definition set_currentState (v : SessionState) (s : Impl) : Impl :=
  mkImpl (client s) (clientId s) (config s) (msgHandler s) (sessionHandler s)
    v (subscriptions s) (nextSubHandle s) (nextMessageId s).

Definition set_subscriptions (v : gmap Z string) (s : Impl) : Impl :=
  mkImpl (client s) (clientId s) (config s) (msgHandler s) (sessionHandler s)
    (currentState s) v (nextSubHandle s) (nextMessageId s).

Definition set_nextSubHandle (v : Z) (s : Impl) : Impl :=
  mkImpl (client s) (clientId s) (config s) (msgHandler s) (sessionHandler s)
    (currentState s) (subscriptions s) v (nextMessageId s).

Definition set_nextMessageId (v : Z) (s : Impl) : Impl :=
  mkImpl (client s) (clientId s) (config s) (msgHandler s) (sessionHandler s)
    (currentState s) (subscriptions s) (nextSubHandle s) v.

(** *** The monad of the member functions

    A member function reads and writes [*impl_] and appends to the trace. *)
Definition M (A : Type) : Type := Impl -> A * Impl * list event.

#[export] Instance M_ret : MRet M := fun A x s => (x, s, []).

#[export] Instance M_bind : MBind M := fun A B f m s =>
  let r1 := m s in
  let r2 := f (fst (fst r1)) (snd (fst r1)) in
  (fst (fst r2), snd (fst r2), snd r1 ++ snd r2).

#[export] Instance M_fmap : FMap M := fun A B f m s =>
  let r := m s in
  (f (fst (fst r)), snd (fst r), snd r).

Definition gets {A : Type} (f : Impl -> A) : M A := fun s => (f s, s, []).
Definition modify (f : Impl -> Impl) : M unit := fun s => (tt, f s, []).
Definition emit (e : event) : M unit := fun s => (tt, s, [e]).

Definition result {A : Type} (r : A * Impl * list event) : A := fst (fst r).
Definition after {A : Type} (r : A * Impl * list event) : Impl := snd (fst r).
Definition trace {A : Type} (r : A * Impl * list event) : list event := snd r.

(** [if (impl_->sessionHandler) impl_->sessionHandler->onError(rc, msg);] *)
Definition report_error (rc : Z) (msg : string) : M unit :=
  h ← gets sessionHandler;
  match h with
  | Some h => emit (onError h rc msg)
  | None => mret tt
  end.

(** [if (impl_->sessionHandler) impl_->sessionHandler->onStateChange(st);] *)
Definition report_state (st : SessionState) : M unit :=
  h ← gets sessionHandler;
  match h with
  | Some h => emit (onStateChange h st)
  | None => mret tt
  end.

(** [Session::Session(clientId, handler)]: [new Impl()] value-initialises
    [client] to null and runs the default member initialisers. *)
Definition new (clientId : string) (handler : addr) : Impl :=
  {| client := None; clientId := clientId; config := ConnectionConfig.new;
     msgHandler := None; sessionHandler := Some handler;
     currentState := DISCONNECTED; subscriptions := ∅;
     nextSubHandle := 1; nextMessageId := 1 |}.

(** [Session::getState]. *)
Definition getState : M SessionState := gets currentState.

(** [Session::getConfig] returns a reference; [with_config f] is a call of
    the setter [f] through that reference. *)
Definition with_config (f : ConnectionConfig.Impl -> ConnectionConfig.Impl)
  : M unit :=
  modify (fun s => set_config (f (config s)) s).

(** The connect options [Session::start] builds from the configuration.  The
    source points [conn_opts.ssl] at an [ssl_opts] local to the [if] block;
    the embedding passes the three paths by value. *)
Definition conn_opts_of (cfg : ConnectionConfig.Impl) : Paho.connectOptions :=
  let with_user := negb (string_empty (ConnectionConfig.username cfg)) in
  {| Paho.keepAliveInterval := ConnectionConfig.keepAliveInterval cfg;
     Paho.cleansession := of_bool (ConnectionConfig.cleanSession cfg);
     Paho.retryInterval := ConnectionConfig.reconnectDelay cfg;
     Paho.reliable := 1;
     Paho.username :=
       if with_user then Some (ConnectionConfig.username cfg) else None;
     Paho.password :=
       if with_user then Some (ConnectionConfig.password cfg) else None;
     Paho.ssl :=
       if ConnectionConfig.tlsEnabled cfg
       then Some {| Paho.trustStore := ConnectionConfig.caFile cfg;
                    Paho.keyStore := ConnectionConfig.certFile cfg;
                    Paho.privateKey := ConnectionConfig.keyFile cfg |}
       else None |}.

Definition serverURI_of (cfg : ConnectionConfig.Impl) : string :=
  String.append (if ConnectionConfig.tlsEnabled cfg then "ssl://" else "tcp://")
    (String.append (ConnectionConfig.broker cfg)
       (String.append ":" (pretty (ConnectionConfig.port cfg)))).

(** [Session::start].  [created] is the answer of [MQTTClient_create]: its
    return code and the handle of the new client, which the engine stores
    in [impl_->client] when it succeeds; when it fails [impl_->client] is
    left as it was.  [connected] is the return code of [MQTTClient_connect].
    The first guard of the source ([!impl_ || !impl_->config.impl_]) is
    false for every constructed session and has no counterpart here. *)
Definition start (created : Z * addr) (connected : Z) : M bool :=
  cfg ← gets config;
  if string_empty (ConnectionConfig.broker cfg) then
    emit (cerr "Broker URL not set");;
    mret false
  else
    cid ← gets clientId;
    emit (MQTTClient_create (serverURI_of cfg) cid);;
    modify (fun s =>
      if fst created =? MQTTCLIENT_SUCCESS
      then set_client (Some (snd created)) s
      else s);;
    if negb (fst created =? MQTTCLIENT_SUCCESS) then
      report_error (fst created) "Failed to create client";;
      mret false
    else
      c ← gets client;
      emit (MQTTClient_setCallbacks c);;
      modify (set_currentState CONNECTING);;
      emit (MQTTClient_connect c (conn_opts_of cfg));;
      if negb (connected =? MQTTCLIENT_SUCCESS) then
        report_error connected "Connection failed";;
        modify (set_currentState DISCONNECTED);;
        mret false
      else
        modify (set_currentState CONNECTED);;
        report_state CONNECTED;;
        mret true.

(** [Session::stop].  [MQTTClient_destroy(&impl_->client)] leaves
    [impl_->client] null. *)
Definition stop : M bool :=
  c ← gets client;
  match c with
  | Some _ =>
      emit (MQTTClient_disconnect c 10000);;
      emit (MQTTClient_destroy c);;
      modify (set_client None);;
      modify (set_currentState DISCONNECTED);;
      report_state DISCONNECTED
  | None => mret tt
  end;;
  mret true.

(** [Session::subscribe]; [rc] is the return code of [MQTTClient_subscribe]. *)
Definition subscribe (topic : string) (qos : Message.QoS) (rc : Z) : M Z :=
  c ← gets client;
  emit (MQTTClient_subscribe c topic (Message.QoS_to_int qos));;
  if negb (rc =? MQTTCLIENT_SUCCESS) then
    report_error rc "Subscribe failed";;
    mret (-1)
  else
    handle ← gets nextSubHandle;
    modify (set_nextSubHandle (to_int64 (handle + 1)));;
    modify (fun s => set_subscriptions (<[handle := topic]> (subscriptions s)) s);;
    mret handle.

(** [Session::unsubscribe]; [rc] is the return code of
    [MQTTClient_unsubscribe], consulted only when the call is made. *)
Definition unsubscribe (handle : Z) (rc : Z) : M bool :=
  subs ← gets subscriptions;
  match subs !! handle with
  | None => mret false
  | Some topic =>
      c ← gets client;
      emit (MQTTClient_unsubscribe c topic);;
      if negb (rc =? MQTTCLIENT_SUCCESS) then
        report_error rc "Unsubscribe failed";;
        mret false
      else
        modify (fun s => set_subscriptions (delete handle (subscriptions s)) s);;
        mret true
  end.

(** [Session::publish]; [rc] is the return code of
    [MQTTClient_publishMessage]. *)
Definition publish (topic : string) (payload : list Byte.byte) (length : Z)
  (qos : Message.QoS) (retain : bool) (rc : Z) : M Z :=
  messageId ← gets nextMessageId;
  modify (set_nextMessageId (to_int64 (messageId + 1)));;
  let pubmsg :=
    {| Paho.payload := payload;
       Paho.payloadlen := to_int length;
       Paho.qos := Message.QoS_to_int qos;
       Paho.retained := of_bool retain;
       Paho.msgid := to_int messageId |} in
  c ← gets client;
  emit (MQTTClient_publishMessage c topic pubmsg);;
  if negb (rc =? MQTTCLIENT_SUCCESS) then
    report_error rc "Publish failed";;
    mret (-1)
  else
    mret messageId.

(** [Session::setMessageHandler], [Session::setSessionHandler]. *)
Definition setMessageHandler (handler : option addr) : M unit :=
  modify (set_msgHandler handler).

Definition setSessionHandler (handler : option addr) : M unit :=
  modify (set_sessionHandler handler).

(** [Session::Impl::onMessageCallback], run by the engine. *)
Definition onMessageCallback (topicName : option string) (topicLen : Z)
  (message : Paho.message) : M Z :=
  h ← gets msgHandler;
  match h with
  | Some h =>
      let msg :=
        {| Message.topic := or_empty topicName;
           Message.payload :=
             take (Z.to_nat (Paho.payloadlen message)) (Paho.payload message);
           Message.qos := Paho.qos message;
           Message.retained := negb (Paho.retained message =? 0);
           Message.messageId := Paho.msgid message |} in
      emit (onMessage h msg)
  | None => mret tt
  end;;
  emit MQTTClient_freeMessage;;
  emit MQTTClient_free;;
  mret 1.

(** [Session::Impl::onConnectionLost], run by the engine. *)
Definition onConnectionLost (cause : option string) : M unit :=
  modify (set_currentState RECONNECTING);;
  h ← gets sessionHandler;
  match h with
  | Some h =>
      emit (onStateChange h RECONNECTING);;
      emit (onError h (-1)
              (match cause with Some c => c | None => "Connection lost" end))
  | None => mret tt
  end.

End Session.

(** ** Call sequences on one session *)

Module Calls.
Import Session.

(** A call of one of the [ConnectionConfig] setters. *)
Inductive setter : Type :=
| set_int32 (param : ConnectionConfig.Param) (value : Z)
| set_bool (param : ConnectionConfig.Param) (value : bool)
| setBroker (url : option string) (port : Z)
| setCredentials (username password : option string)
| setTlsCertificates (caFile certFile keyFile : option string).

Definition apply_setter (f : setter) (c : ConnectionConfig.Impl)
  : ConnectionConfig.Impl :=
  match f with
  | set_int32 p v => ConnectionConfig.set_int32 p v c
  | set_bool p v => ConnectionConfig.set_bool p v c
  | setBroker u p => ConnectionConfig.setBroker u p c
  | setCredentials u p => ConnectionConfig.setCredentials u p c
  | setTlsCertificates a b k => ConnectionConfig.setTlsCertificates a b k c
  end.

(** What can happen to a session: a call of a public member function (with
    the answers of the engine calls it makes), or a callback of the engine.
    The engine runs a callback only for a client it has: a session whose
    [client] is null receives none. *)
Inductive input : Type :=
| start (created : Z * addr) (connected : Z)
| stop
| subscribe (topic : string) (qos : Message.QoS) (rc : Z)
| unsubscribe (handle : Z) (rc : Z)
| publish (topic : string) (payload : list Byte.byte) (length : Z)
    (qos : Message.QoS) (retain : bool) (rc : Z)
| getState
| configure (f : setter)
| setMessageHandler (handler : option addr)
| setSessionHandler (handler : option addr)
| connectionLost (cause : option string)
| messageArrived (topicName : option string) (topicLen : Z)
    (message : Paho.message).

(** The value a call returns. *)
Inductive output : Type :=
| returned_bool (b : bool)
| returned_int (z : Z)
| returned_state (s : SessionState)
| returned_void.

Definition step (i : input) : M output :=
  match i with
  | start created connected => returned_bool <$> Session.start created connected
  | stop => returned_bool <$> Session.stop
  | subscribe topic qos rc => returned_int <$> Session.subscribe topic qos rc
  | unsubscribe handle rc => returned_bool <$> Session.unsubscribe handle rc
  | publish topic payload length qos retain rc =>
      returned_int <$> Session.publish topic payload length qos retain rc
  | getState => returned_state <$> Session.getState
  | configure f => Session.with_config (apply_setter f);; mret returned_void
  | setMessageHandler h => Session.setMessageHandler h;; mret returned_void
  | setSessionHandler h => Session.setSessionHandler h;; mret returned_void
  | connectionLost cause =>
      c ← gets client;
      match c with
      | Some _ => Session.onConnectionLost cause
      | None => mret tt
      end;;
      mret returned_void
  | messageArrived topicName topicLen message =>
      c ← gets client;
      match c with
      | Some _ =>
          returned_int <$> Session.onMessageCallback topicName topicLen message
      | None => mret returned_void
      end
  end.

(** Run the inputs in order; the result pairs each input with what it
    returned. *)
Fixpoint run (inputs : list input) : M (list (input * output)) :=
  match inputs with
  | [] => mret []
  | i :: inputs =>
      o ← step i;
      rest ← run inputs;
      mret ((i, o) :: rest)
  end.

(** The handles returned by the successful [subscribe] calls of a run and the
    ids returned by its successful [publish] calls, in call order. *)
Definition subscribe_handle (io : input * output) : option Z :=
  match io with
  | (subscribe _ _ _, returned_int z) => if z =? -1 then None else Some z
  | _ => None
  end.

Definition publish_id (io : input * output) : option Z :=
  match io with
  | (publish _ _ _ _ _ _, returned_int z) => if z =? -1 then None else Some z
  | _ => None
  end.

Definition handles (ios : list (input * output)) : list Z :=
  omap subscribe_handle ios.

Definition message_ids (ios : list (input * output)) : list Z :=
  omap publish_id ios.

(** What each [publish] call of a run returned, the failures included. *)
Definition publish_return (io : input * output) : option Z :=
  match io with
  | (publish _ _ _ _ _ _, returned_int z) => Some z
  | _ => None
  end.

Definition publish_returns (ios : list (input * output)) : list Z :=
  omap publish_return ios.



End Calls.

(** ** The process: factory statics, bridge globals and the heap *)

(** [struct mqtt_session_t].  A callback is a function pointer, [user_context]
    a [void *]. *)
Record mqtt_session_t : Type := mk_mqtt_session_t {
  session : option addr;
  message_cb : option addr;
  state_cb : option addr;
  error_cb : option addr;
  user_context : option addr
}.

(** [struct mqtt_message_data_t]. *)
Record mqtt_message_data_t : Type := mk_mqtt_message_data_t {
  topic : string;
  payload : list Byte.byte;
  payload_length : Z;
  qos : Z;
  retained : Z;
  message_id : Z
}.

(** The two adapter classes of the bridge. *)
Record SessionCallbackHandler : Type := mkSessionCallbackHandler {
  state_cb_ : option addr;
  error_cb_ : option addr;
  context_ : option addr
}.

Record MessageCallbackHandler : Type := mkMessageCallbackHandler {
  cb_ : option addr;
  message_context_ : option addr
}.

(** What the process does that is visible outside it: what one of its
    sessions does, a call through one of the C function pointers, a virtual
    call on an adapter that has been released, and the releases. *)
Inductive action : Type :=
| in_session (s : addr) (e : event)
| call_state_cb (f : addr) (new_state : Z) (ctx : option addr)
| call_error_cb (f : addr) (error_code : Z) (message : string)
    (ctx : option addr)
| call_message_cb (f : addr) (message : mqtt_message_data_t)
    (ctx : option addr)
| call_on_released (a : addr)
| delete_message_handler (a : addr)
| delete_session_handler (a : addr)
| delete_session (s : addr)
| delete_handle (h : addr).

(** [SessionCallbackHandler::onStateChange], [::onError] and
    [MessageCallbackHandler::onMessage]. *)
Definition SessionCallbackHandler_onStateChange (this : SessionCallbackHandler)
  (newState : SessionState) : list action :=
  match state_cb_ this with
  | Some f => [call_state_cb f (SessionState_to_int newState) (context_ this)]
  | None => []
  end.

Definition SessionCallbackHandler_onError (this : SessionCallbackHandler)
  (errorCode : Z) (message : string) : list action :=
  match error_cb_ this with
  | Some f => [call_error_cb f errorCode message (context_ this)]
  | None => []
  end.

Definition MessageCallbackHandler_onMessage (this : MessageCallbackHandler)
  (message : Message.Impl) : list action :=
  match cb_ this with
  | Some f =>
      let msg_data :=
        {| topic := Message.getTopic message;
           payload := Message.getPayload message;
           payload_length := Message.getPayloadLength message;
           qos := Message.getQoS message;
           retained := of_bool (Message.isRetained message);
           message_id := Message.getMessageId message |} in
      [call_message_cb f msg_data (message_context_ this)]
  | None => []
  end.

(** The process state.  [g_message_handlers] and [g_session_handlers] map a
    session handle to the [unique_ptr] of its adapter; [message_handlers]
    and [session_handlers] are the adapter objects alive at their addresses;
    [sessions] and [handles] are the [mqtt::Session] objects and the
    [mqtt_session_t] records alive at their addresses.  [brk] is the next
    address [new] returns. *)
Record process : Type := mkProcess {
  instance_ : option addr;
  refCount_ : Z;
  g_factory : option addr;
  g_message_handlers : gmap addr addr;
  g_session_handlers : gmap addr addr;
  message_handlers : gmap addr MessageCallbackHandler;
  session_handlers : gmap addr SessionCallbackHandler;
  sessions : gmap addr Session.Impl;
  handles : gmap addr mqtt_session_t;
  brk : addr
}.

Definition set_instance_ (v : option addr) (p : process) : process :=
  mkProcess v (refCount_ p) (g_factory p) (g_message_handlers p)
    (g_session_handlers p) (message_handlers p) (session_handlers p)
    (sessions p) (handles p) (brk p).

Definition set_refCount_ (v : Z) (p : process) : process :=
  mkProcess (instance_ p) v (g_factory p) (g_message_handlers p)
    (g_session_handlers p) (message_handlers p) (session_handlers p)
    (sessions p) (handles p) (brk p).

Definition set_g_factory (v : option addr) (p : process) : process :=
  mkProcess (instance_ p) (refCount_ p) v (g_message_handlers p)
    (g_session_handlers p) (message_handlers p) (session_handlers p)
    (sessions p) (handles p) (brk p).

Definition set_g_message_handlers (v : gmap addr addr) (p : process)
  : process :=
  mkProcess (instance_ p) (refCount_ p) (g_factory p) v
    (g_session_handlers p) (message_handlers p) (session_handlers p)
    (sessions p) (handles p) (brk p).

Definition set_g_session_handlers (v : gmap addr addr) (p : process)
  : process :=
  mkProcess (instance_ p) (refCount_ p) (g_factory p) (g_message_handlers p)
    v (message_handlers p) (session_handlers p)
    (sessions p) (handles p) (brk p).

Definition set_message_handlers (v : gmap addr MessageCallbackHandler)
  (p : process) : process :=
  mkProcess (instance_ p) (refCount_ p) (g_factory p) (g_message_handlers p)
    (g_session_handlers p) v (session_handlers p)
    (sessions p) (handles p) (brk p).

Definition set_session_handlers (v : gmap addr SessionCallbackHandler)
  (p : process) : process :=
  mkProcess (instance_ p) (refCount_ p) (g_factory p) (g_message_handlers p)
    (g_session_handlers p) (message_handlers p) v
    (sessions p) (handles p) (brk p).

Definition set_sessions (v : gmap addr Session.Impl) (p : process)
  : process :=
  mkProcess (instance_ p) (refCount_ p) (g_factory p) (g_message_handlers p)
    (g_session_handlers p) (message_handlers p) (session_handlers p)
    v (handles p) (brk p).

Definition set_handles (v : gmap addr mqtt_session_t) (p : process)
  : process :=
  mkProcess (instance_ p) (refCount_ p) (g_factory p) (g_message_handlers p)
    (g_session_handlers p) (message_handlers p) (session_handlers p)
    (sessions p) v (brk p).

Definition set_brk (v : addr) (p : process) : process :=
  mkProcess (instance_ p) (refCount_ p) (g_factory p) (g_message_handlers p)
    (g_session_handlers p) (message_handlers p) (session_handlers p)
    (sessions p) (handles p) v.

(** The process at load time: the statics are null or zero, nothing is
    allocated. *)
Definition process_start : process :=
  {| instance_ := None; refCount_ := 0; g_factory := None;
     g_message_handlers := ∅; g_session_handlers := ∅;
     message_handlers := ∅; session_handlers := ∅;
     sessions := ∅; handles := ∅; brk := 1%positive |}.

(** *** The monad of the free functions

    [None] is undefined behaviour: a pointer that is not null and not alive
    is dereferenced, or a null string reaches [std::string]. *)
Definition P (A : Type) : Type :=
  process -> option (A * process * list action).

#[export] Instance P_ret : MRet P := fun A x p => Some (x, p, []).

#[export] Instance P_bind : MBind P := fun A B f m p =>
  match m p with
  | Some (a, p1, l1) =>
      match f a p1 with
      | Some (b, p2, l2) => Some (b, p2, l1 ++ l2)
      | None => None
      end
  | None => None
  end.

#[export] Instance P_fmap : FMap P := fun A B f m p =>
  match m p with
  | Some (a, p1, l1) => Some (f a, p1, l1)
  | None => None
  end.

Definition pgets {A : Type} (f : process -> A) : P A :=
  fun p => Some (f p, p, []).
Definition pmodify (f : process -> process) : P unit :=
  fun p => Some (tt, f p, []).
Definition plog (l : list action) : P unit := fun p => Some (tt, p, l).
Definition undefined {A : Type} : P A := fun _ => None.

(** [new]. *)
Definition alloc : P addr :=
  fun p => Some (brk p, set_brk (Pos.succ (brk p)) p, []).

(** [*h] for a session handle. *)
Definition deref_handle (h : addr) : P mqtt_session_t :=
  fun p =>
    match handles p !! h with
    | Some r => Some (r, p, [])
    | None => None
    end.

(** The calls a session event makes through the adapters: the virtual call on
    the handler at address [a] runs the adapter alive there. *)
Definition forward (p : process) (e : event) : list action :=
  match e with
  | onStateChange a st =>
      match session_handlers p !! a with
      | Some this => SessionCallbackHandler_onStateChange this st
      | None => [call_on_released a]
      end
  | onError a c m =>
      match session_handlers p !! a with
      | Some this => SessionCallbackHandler_onError this c m
      | None => [call_on_released a]
      end
  | onMessage a msg =>
      match message_handlers p !! a with
      | Some this => MessageCallbackHandler_onMessage this msg
      | None => [call_on_released a]
      end
  | _ => []
  end.

Definition observe (p : process) (s : addr) (t : list event) : list action :=
  t ≫= (fun e => in_session s e :: forward p e).

(** Run a member function on the session at [s]. *)
Definition on_session {A : Type} (s : addr) (m : Session.M A) : P A :=
  fun p =>
    match sessions p !! s with
    | Some impl =>
        let r := m impl in
        Some (Session.result r,
              set_sessions (<[s := Session.after r]> (sessions p)) p,
              observe p s (Session.trace r))
    | None => None
    end.

(** ** APIFactory *)

Module APIFactory.

(** [APIFactory::getInstance]. *)
Definition getInstance : P (option addr) :=
  i ← pgets instance_;
  match i with
  | None => a ← alloc; pmodify (set_instance_ (Some a))
  | Some _ => mret tt
  end;;
  pmodify (fun p => set_refCount_ (to_int (refCount_ p + 1)) p);;
  pgets instance_.

(** [APIFactory::initialize]. *)
Definition initialize (appName appVersion : option string) (debug : bool)
  (logFile : option string) : P Z :=
  mret 0.

(** [APIFactory::uninitialize]. *)
Definition uninitialize : P Z :=
  pmodify (fun p => set_refCount_ (to_int (refCount_ p - 1)) p);;
  n ← pgets refCount_;
  i ← pgets instance_;
  (if (n =? 0) && bool_decide (is_Some i)
   then pmodify (set_instance_ None)
   else mret tt);;
  mret 0.

(** [APIFactory::createSession]: [new Session(clientId, handler)].  A null
    [clientId] is assigned to a [std::string]. *)
Definition createSession (clientId : option string) (handler : addr)
  : P addr :=
  match clientId with
  | None => undefined
  | Some cid =>
      s ← alloc;
      pmodify (fun p =>
        set_sessions (<[s := Session.new cid handler]> (sessions p)) p);;
      mret s
  end.

(** [APIFactory::destroySession]: [delete &session] runs
    [Session::~Session], which calls [stop()] and deletes [impl_]. *)
Definition destroySession (s : addr) : P unit :=
  on_session s Session.stop;;
  pmodify (fun p => set_sessions (delete s (sessions p)) p);;
  plog [delete_session s].

End APIFactory.

(** ** The C bridge *)

Module Bridge.

Definition MQTT_STATE_DISCONNECTED : Z := 0.

Definition MQTT_PARAM_KEEP_ALIVE_INTERVAL : Z := 0.
Definition MQTT_PARAM_CLEAN_SESSION : Z := 1.
Definition MQTT_PARAM_CONNECTION_TIMEOUT : Z := 2.
Definition MQTT_PARAM_MAX_INFLIGHT : Z := 3.
Definition MQTT_PARAM_MAX_QUEUED_MESSAGES : Z := 4.
Definition MQTT_PARAM_RECONNECT_DELAY : Z := 5.
Definition MQTT_PARAM_TLS_ENABLED : Z := 6.

(** [static_cast<mqtt::ConnectionConfig::Parameter>(param)]: [None] is a
    value that names no enumerator, which every [switch] sends to
    [default]. *)
Definition cast_Parameter (param : Z) : option ConnectionConfig.Param :=
  if param =? 0 then Some ConnectionConfig.KEEP_ALIVE_INTERVAL
  else if param =? 1 then Some ConnectionConfig.CLEAN_SESSION
  else if param =? 2 then Some ConnectionConfig.CONNECTION_TIMEOUT
  else if param =? 3 then Some ConnectionConfig.MAX_INFLIGHT
  else if param =? 4 then Some ConnectionConfig.MAX_QUEUED_MESSAGES
  else if param =? 5 then Some ConnectionConfig.RECONNECT_DELAY
  else if param =? 6 then Some ConnectionConfig.TLS_ENABLED
  else None.

(** [if (!session || !session->session) return invalid;] and then [body] on
    the session. *)
Definition checked {A : Type} (h : option addr) (invalid : A)
  (body : addr -> P A) : P A :=
  match h with
  | None => mret invalid
  | Some h =>
      r ← deref_handle h;
      match session r with
      | None => mret invalid
      | Some s => body s
      end
  end.

Definition mqtt_set_int_parameter (h : option addr) (param : Z) (value : Z)
  : P Z :=
  checked h (-1) (fun s =>
    on_session s (Session.with_config (fun c =>
      match cast_Parameter param with
      | Some p => ConnectionConfig.set_int32 p value c
      | None => c
      end));;
    mret 0).

Definition mqtt_set_bool_parameter (h : option addr) (param : Z) (value : Z)
  : P Z :=
  checked h (-1) (fun s =>
    on_session s (Session.with_config (fun c =>
      match cast_Parameter param with
      | Some p => ConnectionConfig.set_bool p (negb (value =? 0)) c
      | None => c
      end));;
    mret 0).

Definition mqtt_set_broker (h : option addr) (url : option string) (port : Z)
  : P Z :=
  checked h (-1) (fun s =>
    on_session s (Session.with_config (ConnectionConfig.setBroker url port));;
    mret 0).

Definition mqtt_set_credentials (h : option addr)
  (username password : option string) : P Z :=
  checked h (-1) (fun s =>
    on_session s
      (Session.with_config (ConnectionConfig.setCredentials username password));;
    mret 0).

Definition mqtt_set_tls_certificates (h : option addr)
  (ca_file cert_file key_file : option string) : P Z :=
  checked h (-1) (fun s =>
    on_session s
      (Session.with_config
         (ConnectionConfig.setTlsCertificates ca_file cert_file key_file));;
    mret 0).

Definition mqtt_initialize (app_name app_version : option string) (debug : Z)
  (log_file : option string) : P Z :=
  f ← pgets g_factory;
  match f with
  | None =>
      i ← APIFactory.getInstance;
      pmodify (set_g_factory i);;
      APIFactory.initialize app_name app_version (negb (debug =? 0)) log_file
  | Some _ => mret 0
  end.

Definition mqtt_uninitialize : P Z :=
  f ← pgets g_factory;
  match f with
  | Some _ =>
      result ← APIFactory.uninitialize;
      pmodify (set_g_factory None);;
      mret result
  | None => mret 0
  end.

(** [registry[h] = std::move(ptr)]: an adapter already stored under [h] is
    deleted by the assignment. *)
Definition store_message_handler (h a : addr) : P unit :=
  old ← pgets (fun p => g_message_handlers p !! h);
  match old with
  | Some o =>
      pmodify (fun p => set_message_handlers (delete o (message_handlers p)) p);;
      plog [delete_message_handler o]
  | None => mret tt
  end;;
  pmodify (fun p => set_g_message_handlers (<[h := a]> (g_message_handlers p)) p).

Definition store_session_handler (h a : addr) : P unit :=
  old ← pgets (fun p => g_session_handlers p !! h);
  match old with
  | Some o =>
      pmodify (fun p => set_session_handlers (delete o (session_handlers p)) p);;
      plog [delete_session_handler o]
  | None => mret tt
  end;;
  pmodify (fun p => set_g_session_handlers (<[h := a]> (g_session_handlers p)) p).

(** [registry.erase(h)]: the entry goes and its adapter is deleted. *)
Definition erase_message_handler (h : addr) : P unit :=
  old ← pgets (fun p => g_message_handlers p !! h);
  match old with
  | Some o =>
      pmodify (fun p => set_message_handlers (delete o (message_handlers p)) p);;
      pmodify (fun p => set_g_message_handlers (delete h (g_message_handlers p)) p);;
      plog [delete_message_handler o]
  | None => mret tt
  end.

Definition erase_session_handler (h : addr) : P unit :=
  old ← pgets (fun p => g_session_handlers p !! h);
  match old with
  | Some o =>
      pmodify (fun p => set_session_handlers (delete o (session_handlers p)) p);;
      pmodify (fun p => set_g_session_handlers (delete h (g_session_handlers p)) p);;
      plog [delete_session_handler o]
  | None => mret tt
  end.

Definition mqtt_create_session (client_id : option string)
  (message_cb state_cb error_cb user_context : option addr)
  : P (option addr) :=
  f ← pgets g_factory;
  match f with
  | None => mret None
  | Some _ =>
      session_handler ← alloc;
      pmodify (fun p =>
        set_session_handlers
          (<[session_handler :=
               mkSessionCallbackHandler state_cb error_cb user_context]>
             (session_handlers p)) p);;
      s ← APIFactory.createSession client_id session_handler;
      h ← alloc;
      pmodify (fun p =>
        set_handles
          (<[h := mk_mqtt_session_t (Some s) message_cb state_cb error_cb
                    user_context]> (handles p)) p);;
      match message_cb with
      | Some _ =>
          message_handler ← alloc;
          pmodify (fun p =>
            set_message_handlers
              (<[message_handler :=
                   mkMessageCallbackHandler message_cb user_context]>
                 (message_handlers p)) p);;
          on_session s (Session.setMessageHandler (Some message_handler));;
          store_message_handler h message_handler
      | None => mret tt
      end;;
      store_session_handler h session_handler;;
      mret (Some h)
  end.

Definition mqtt_destroy_session (h : option addr) : P unit :=
  match h with
  | None => mret tt
  | Some h =>
      r ← deref_handle h;
      match session r with
      | Some s => on_session s Session.stop;; mret tt
      | None => mret tt
      end;;
      erase_message_handler h;;
      erase_session_handler h;;
      f ← pgets g_factory;
      match f, session r with
      | Some _, Some s => APIFactory.destroySession s
      | _, _ => mret tt
      end;;
      pmodify (fun p => set_handles (delete h (handles p)) p);;
      plog [delete_handle h]
  end.

Definition mqtt_session_get_state (h : option addr) : P Z :=
  checked h MQTT_STATE_DISCONNECTED (fun s =>
    SessionState_to_int <$> on_session s Session.getState).

Definition mqtt_session_start (h : option addr) (created : Z * addr)
  (connected : Z) : P Z :=
  checked h (-1) (fun s =>
    ok ← on_session s (Session.start created connected);
    mret (if ok : bool then 0 else -1)).

Definition mqtt_session_stop (h : option addr) : P Z :=
  checked h (-1) (fun s =>
    ok ← on_session s Session.stop;
    mret (if ok : bool then 0 else -1)).

Definition mqtt_subscribe (h : option addr) (topic : string) (qos : Message.QoS)
  (rc : Z) : P Z :=
  checked h (-1) (fun s => on_session s (Session.subscribe topic qos rc)).

Definition mqtt_unsubscribe (h : option addr) (handle : Z) (rc : Z) : P Z :=
  checked h (-1) (fun s =>
    ok ← on_session s (Session.unsubscribe handle rc);
    mret (if ok : bool then 0 else -1)).

Definition mqtt_publish (h : option addr) (topic : string)
  (payload : list Byte.byte) (length : Z) (qos : Message.QoS) (retain : Z)
  (rc : Z) : P Z :=
  checked h (-1) (fun s =>
    on_session s
      (Session.publish topic payload length qos (negb (retain =? 0)) rc)).

(** A call of the bridge, and a sequence of them.  A [mqtt_qos_t] argument
    is one of the three enumerators, which [static_cast] maps to the
    enumerator of [Message::QoS] with the same value. *)
Inductive call : Type :=
| set_int_parameter (h : option addr) (param value : Z)
| set_bool_parameter (h : option addr) (param value : Z)
| set_broker (h : option addr) (url : option string) (port : Z)
| set_credentials (h : option addr) (username password : option string)
| set_tls_certificates (h : option addr)
    (ca_file cert_file key_file : option string)
| initialize (app_name app_version : option string) (debug : Z)
    (log_file : option string)
| uninitialize
| create_session (client_id : option string)
    (message_cb state_cb error_cb user_context : option addr)
| destroy_session (h : option addr)
| session_get_state (h : option addr)
| session_start (h : option addr) (created : Z * addr) (connected : Z)
| session_stop (h : option addr)
| subscribe (h : option addr) (topic : string) (qos : Message.QoS) (rc : Z)
| unsubscribe (h : option addr) (handle : Z) (rc : Z)
| publish (h : option addr) (topic : string) (payload : list Byte.byte)
    (length : Z) (qos : Message.QoS) (retain : Z) (rc : Z).

Inductive returned : Type :=
| returned_int (z : Z)
| returned_handle (h : option addr)
| returned_void.

Definition step (c : call) : P returned :=
  match c with
  | set_int_parameter h p v => returned_int <$> mqtt_set_int_parameter h p v
  | set_bool_parameter h p v => returned_int <$> mqtt_set_bool_parameter h p v
  | set_broker h u p => returned_int <$> mqtt_set_broker h u p
  | set_credentials h u p => returned_int <$> mqtt_set_credentials h u p
  | set_tls_certificates h a b k =>
      returned_int <$> mqtt_set_tls_certificates h a b k
  | initialize n v d l => returned_int <$> mqtt_initialize n v d l
  | uninitialize => returned_int <$> mqtt_uninitialize
  | create_session cid m s e u =>
      returned_handle <$> mqtt_create_session cid m s e u
  | destroy_session h => mqtt_destroy_session h;; mret returned_void
  | session_get_state h => returned_int <$> mqtt_session_get_state h
  | session_start h c r => returned_int <$> mqtt_session_start h c r
  | session_stop h => returned_int <$> mqtt_session_stop h
  | subscribe h t q rc => returned_int <$> mqtt_subscribe h t q rc
  | unsubscribe h i rc => returned_int <$> mqtt_unsubscribe h i rc
  | publish h t pl n q r rc => returned_int <$> mqtt_publish h t pl n q r rc
  end.

Fixpoint run (calls : list call) : P (list returned) :=
  match calls with
  | [] => mret []
  | c :: calls =>
      r ← step c;
      rest ← run calls;
      mret (r :: rest)
  end.

Definition is_initialize (c : call) : bool :=
  match c with
  | initialize _ _ _ _ => true
  | _ => false
  end.

End Bridge.

(** ** Observers of the bridge *)

(** The adapters [mqtt_destroy_session] releases for the handle [h]. *)
Definition releases (p : process) (h : addr) : list action :=
  match g_message_handlers p !! h with
  | Some a => [delete_message_handler a]
  | None => []
  end ++
  match g_session_handlers p !! h with
  | Some a => [delete_session_handler a]
  | None => []
  end.

(** An action in which a session or a callback runs. *)
Definition is_activity (a : action) : bool :=
  match a with
  | in_session _ _ | call_state_cb _ _ _ | call_error_cb _ _ _ _
  | call_message_cb _ _ _ | call_on_released _ => true
  | _ => false
  end.

Definition is_call_on_released (a : action) : bool :=
  match a with
  | call_on_released _ => true
  | _ => false
  end.

(** A computation that never assigns [g_factory]. *)
Definition keeps_factory {A : Type} (m : P A) : Prop :=
  forall (p p' : process) (a : A) (l : list action),
    m p = Some (a, p', l) -> g_factory p' = g_factory p.

(** A computation that, when it changes the process at all, replaces one
    live session by a session with the same session handler. *)
Definition updates_one_session {A : Type} (m : P A) : Prop :=
  forall (p p' : process) (a : A) (l : list action),
    m p = Some (a, p', l) ->
    p' = p \/
    exists (s : addr) (impl impl' : Session.Impl),
      sessions p !! s = Some impl /\
      Session.sessionHandler impl' = Session.sessionHandler impl /\
      p' = set_sessions (<[s := impl']> (sessions p)) p.

(** The shape of the heap the bridge maintains: every live handle record
    points to a live session, whose session handler is a live adapter, the
    one the registry holds for the handle; no two handles share a session
    or an adapter; and every address in use is below [brk]. *)
Record well_formed (p : process) : Prop := mk_well_formed {
  wf_handle :
    forall (h : addr) (r : mqtt_session_t),
      handles p !! h = Some r ->
      exists (s : addr) (impl : Session.Impl) (a : addr),
        session r = Some s /\
        sessions p !! s = Some impl /\
        Session.sessionHandler impl = Some a /\
        g_session_handlers p !! h = Some a /\
        is_Some (session_handlers p !! a);
  wf_session_owner :
    forall (h h' : addr) (r r' : mqtt_session_t) (s : addr),
      handles p !! h = Some r -> handles p !! h' = Some r' ->
      session r = Some s -> session r' = Some s -> h = h';
  wf_adapter_owner :
    forall (h h' a : addr),
      g_session_handlers p !! h = Some a ->
      g_session_handlers p !! h' = Some a -> h = h';
  wf_handles_below :
    forall h : addr, is_Some (handles p !! h) -> (h < brk p)%positive;
  wf_sessions_below :
    forall s : addr, is_Some (sessions p !! s) -> (s < brk p)%positive;
  wf_adapters_below :
    forall a : addr, is_Some (session_handlers p !! a) -> (a < brk p)%positive;
  wf_registry_below :
    forall h a : addr,
      g_session_handlers p !! h = Some a ->
      (h < brk p)%positive /\ (a < brk p)%positive
}.

(** ** Sample sessions *)

(** The session the end-to-end scenario of the specification starts:
    handler at address 1, broker [test.broker:1883]. *)
Definition scenario : Session.Impl :=
  Session.after
    (Session.with_config (ConnectionConfig.setBroker (Some "test.broker") 1883)
       (Session.new "client" 1%positive)).

(** The scenario session once connected, with one subscription. *)
Definition scenario_subscribed : Session.Impl :=
  Session.after
    (Calls.run [Calls.start (0, 2%positive) 0;
                Calls.subscribe "t/1" Message.AT_LEAST_ONCE 0] scenario).

(** A process in which the library was initialised, one session was created
    with the three callbacks, configured and connected. *)
Definition connected_process : process :=
  match
    Bridge.run
      [Bridge.initialize (Some "app") (Some "1.0") 0 None;
       Bridge.create_session (Some "client") (Some 100%positive)
         (Some 101%positive) (Some 102%positive) None;
       Bridge.set_broker (Some 4%positive) (Some "test.broker") 1883;
       Bridge.session_start (Some 4%positive) (0, 9%positive) 0]
      process_start
  with
  | Some (_, p, _) => p
  | None => process_start
  end.


(** ** Observers of the native calls *)

(** The options of the [MQTTClient_connect] calls of a trace, the URIs of its
    [MQTTClient_create] calls, the clients of its [MQTTClient_destroy]
    calls. *)
Definition connect_options (t : list event) : list Paho.connectOptions :=
  omap (fun e => match e with MQTTClient_connect _ o => Some o | _ => None end)
    t.

Definition created_uris (t : list event) : list string :=
  omap (fun e => match e with MQTTClient_create u _ => Some u | _ => None end)
    t.

Definition destroyed (t : list event) : list MQTTClient :=
  omap (fun e => match e with MQTTClient_destroy c => Some c | _ => None end) t.

(** A native call that takes a connection down. *)
Definition is_teardown (e : event) : bool :=
  match e with
  | MQTTClient_disconnect _ _ | MQTTClient_destroy _ => true
  | _ => false
  end.

(** The inputs that move the state machine: [start], [stop] and the
    connection-lost callback. *)
Definition is_lifecycle (i : Calls.input) : bool :=
  match i with
  | Calls.start _ _ | Calls.stop | Calls.connectionLost _ => true
  | _ => false
  end.


(** The three configuration parameters that no member function reads. *)
Definition is_unread (p : ConnectionConfig.Param) : bool :=
  match p with
  | ConnectionConfig.CONNECTION_TIMEOUT | ConnectionConfig.MAX_INFLIGHT
  | ConnectionConfig.MAX_QUEUED_MESSAGES => true
  | _ => false
  end.

(** The message ids the [MQTTClient_publishMessage] calls of a trace carry,
    and their payload lengths. *)
Definition published_tags (t : list event) : list Z :=
  omap (fun e => match e with
                 | MQTTClient_publishMessage _ _ m => Some (Paho.msgid m)
                 | _ => None
                 end) t.

Definition published_lengths (t : list event) : list Z :=
  omap (fun e => match e with
                 | MQTTClient_publishMessage _ _ m => Some (Paho.payloadlen m)
                 | _ => None
                 end) t.

Definition INT_MAX : Z := 2 ^ 31 - 1.


(** ** Further observers of the bridge *)

(** The calls through the C function pointers in a list of actions. *)
Definition is_c_callback (a : action) : bool :=
  match a with
  | call_state_cb _ _ _ | call_error_cb _ _ _ _ | call_message_cb _ _ _ => true
  | _ => false
  end.

Definition c_callbacks (l : list action) : list action :=
  filter (fun a => is_c_callback a = true) l.

(** The handle argument of the bridge functions that begin with the check
    [if (!session || !session->session)], and the value they return when it
    fails. *)
Definition checked_handle (c : Bridge.call) : option (option addr) :=
  match c with
  | Bridge.set_int_parameter h _ _ | Bridge.set_bool_parameter h _ _
  | Bridge.set_broker h _ _ | Bridge.set_credentials h _ _
  | Bridge.set_tls_certificates h _ _ _ | Bridge.session_get_state h
  | Bridge.session_start h _ _ | Bridge.session_stop h
  | Bridge.subscribe h _ _ _ | Bridge.unsubscribe h _ _
  | Bridge.publish h _ _ _ _ _ _ => Some h
  | _ => None
  end.

Definition rejected (c : Bridge.call) : Bridge.returned :=
  match c with
  | Bridge.session_get_state _ =>
      Bridge.returned_int Bridge.MQTT_STATE_DISCONNECTED
  | _ => Bridge.returned_int (-1)
  end.

(** A handle the check refuses: null, or a record whose session is null. *)
Definition refused (p : process) (h : option addr) : Prop :=
  match h with
  | None => True
  | Some a => exists r : mqtt_session_t, handles p !! a = Some r /\ session r = None
  end.

(** A computation that, when it changes the process at all, replaces one
    live session by a session with the same two handlers. *)
Definition amends_one_session {A : Type} (m : P A) : Prop :=
  forall (p p' : process) (a : A) (l : list action),
    m p = Some (a, p', l) ->
    p' = p \/
    exists (s : addr) (impl impl' : Session.Impl),
      sessions p !! s = Some impl /\
      Session.sessionHandler impl' = Session.sessionHandler impl /\
      Session.msgHandler impl' = Session.msgHandler impl /\
      p' = set_sessions (<[s := impl']> (sessions p)) p.

(** What the bridge maintains besides [well_formed]: [g_factory] is the
    instance of the factory and counts once, or both are null and the count
    is zero; the message registry and the message adapters lie below [brk]
    and no two handles share a message adapter; the session adapter of a
    handle carries the state callback, the error callback and the user
    context of the handle record; and the session of a handle has a message
    handler exactly when the record has a message callback, the adapter the
    registry holds for the handle, which carries that callback and the user
    context. *)
Record coherent (p : process) : Prop := mk_coherent {
  co_statics :
    g_factory p = None /\ instance_ p = None /\ refCount_ p = 0 \/
    exists a : addr,
      g_factory p = Some a /\ instance_ p = Some a /\ refCount_ p = 1;
  co_message_registry_below :
    forall h a : addr,
      g_message_handlers p !! h = Some a ->
      (h < brk p)%positive /\ (a < brk p)%positive;
  co_message_adapters_below :
    forall a : addr, is_Some (message_handlers p !! a) -> (a < brk p)%positive;
  co_message_owner :
    forall h h' a : addr,
      g_message_handlers p !! h = Some a ->
      g_message_handlers p !! h' = Some a -> h = h';
  co_adapter_forwards :
    forall (h : addr) (r : mqtt_session_t) (a : addr)
           (this : SessionCallbackHandler),
      handles p !! h = Some r ->
      g_session_handlers p !! h = Some a ->
      session_handlers p !! a = Some this ->
      this = mkSessionCallbackHandler (state_cb r) (error_cb r) (user_context r);
  co_message_forwards :
    forall (h : addr) (r : mqtt_session_t) (s : addr) (impl : Session.Impl),
      handles p !! h = Some r ->
      session r = Some s ->
      sessions p !! s = Some impl ->
      match message_cb r with
      | Some _ =>
          exists ma : addr,
            Session.msgHandler impl = Some ma /\
            g_message_handlers p !! h = Some ma /\
            message_handlers p !! ma
              = Some (mkMessageCallbackHandler (message_cb r) (user_context r))
      | None =>
          Session.msgHandler impl = None /\ g_message_handlers p !! h = None
      end
}.

(** The calls the adapters of a handle make through the function pointers of
    its record. *)
Definition state_callback (r : mqtt_session_t) (new_state : Z) : list action :=
  match state_cb r with
  | Some f => [call_state_cb f new_state (user_context r)]
  | None => []
  end.

Definition error_callback (r : mqtt_session_t) (error_code : Z)
  (message : string) : list action :=
  match error_cb r with
  | Some f => [call_error_cb f error_code message (user_context r)]
  | None => []
  end.

Definition message_callback (r : mqtt_session_t) (m : mqtt_message_data_t)
  : list action :=
  match message_cb r with
  | Some f => [call_message_cb f m (user_context r)]
  | None => []
  end.

(** An event in which a session calls no handler but its session handler. *)
Definition calls_only (a : option addr) (e : event) : Prop :=
  match e with
  | onStateChange x _ | onError x _ _ => a = Some x
  | onMessage _ _ => False
  | _ => True
  end.

(** An action of the handle whose record is [r]: its session runs, or one of
    the callbacks of the record is called with the user context of the
    record, or something is released. *)
Definition belongs_to (r : mqtt_session_t) (a : action) : Prop :=
  match a with
  | in_session s _ => session r = Some s
  | call_state_cb f _ ctx => state_cb r = Some f /\ ctx = user_context r
  | call_error_cb f _ _ ctx => error_cb r = Some f /\ ctx = user_context r
  | call_message_cb f _ ctx => message_cb r = Some f /\ ctx = user_context r
  | call_on_released _ => False
  | _ => True
  end.

(** The handle a call of the bridge is made on. *)
Definition call_handle (c : Bridge.call) : option addr :=
  match c with
  | Bridge.destroy_session h => h
  | _ => match checked_handle c with
         | Some h => h
         | None => None
         end
  end.


(** * Properties *)

(** ** Machine integers *)

Lemma to_int64_id (z : Z) : in_int64 z -> to_int64 z = z.
Proof.
  unfold in_int64, INT64_MIN, INT64_MAX, to_int64, wrap_signed.
  intros Hz. rewrite Z.mod_small; lia.
Qed.

Lemma to_int64_succ (z : Z) :
  INT64_MIN <= z < INT64_MAX -> to_int64 (z + 1) = z + 1.
Proof.
  intros Hz. apply to_int64_id. unfold in_int64 in *. lia.
Qed.

(** ** ConnectionConfig *)

Lemma set_int32_bool_only (p : ConnectionConfig.Param) (v : Z)
  (c : ConnectionConfig.Impl) :
  ConnectionConfig.bool_only p = true -> ConnectionConfig.set_int32 p v c = c.
Proof. destruct p; simpl; congruence. Qed.

Lemma set_bool_int_only (p : ConnectionConfig.Param) (v : bool)
  (c : ConnectionConfig.Impl) :
  ConnectionConfig.int_only p = true -> ConnectionConfig.set_bool p v c = c.
Proof. destruct p; simpl; congruence. Qed.

Lemma setTlsCertificates_enables (a b k : option string)
  (c : ConnectionConfig.Impl) :
  ConnectionConfig.tlsEnabled (ConnectionConfig.setTlsCertificates a b k c)
  = true.
Proof. reflexivity. Qed.

(** The cast of the bridge inverts the numbering of the enumerators. *)
Lemma cast_Parameter_to_int (p : ConnectionConfig.Param) :
  Bridge.cast_Parameter (ConnectionConfig.Param_to_int p) = Some p.
Proof. destruct p; reflexivity. Qed.

(** ** Session: what each member function does *)

Section SessionFacts.
Import Session.

Lemma set_config_same (s : Impl) : set_config (config s) s = s.
Proof. destruct s; reflexivity. Qed.

Lemma set_subscriptions_same (s : Impl) :
  set_subscriptions (subscriptions s) s = s.
Proof. destruct s; reflexivity. Qed.

Lemma getState_spec (s : Impl) : getState s = (currentState s, s, []).
Proof. reflexivity. Qed.

Lemma start_empty_broker (created : Z * addr) (connected : Z) (s : Impl) :
  string_empty (ConnectionConfig.broker (config s)) = true ->
  start created connected s = (false, s, [cerr "Broker URL not set"]).
Proof.
  intros E. unfold start, mbind, M_bind, gets. simpl. rewrite E. reflexivity.
Qed.

Lemma start_create_failed (created : Z * addr) (connected : Z) (s : Impl) :
  string_empty (ConnectionConfig.broker (config s)) = false ->
  fst created <> MQTTCLIENT_SUCCESS ->
  start created connected s =
    (false, s,
     MQTTClient_create (serverURI_of (config s)) (clientId s)
       :: trace (report_error (fst created) "Failed to create client" s)).
Proof.
  intros E Hrc. apply Z.eqb_neq in Hrc.
  unfold start, mbind, M_bind, gets. simpl. rewrite E. simpl. rewrite Hrc. simpl.
  unfold report_error, mbind, M_bind, gets, trace. simpl.
  destruct (sessionHandler s); reflexivity.
Qed.

Lemma start_connect_failed (created : Z * addr) (connected : Z)
  (s : Impl) :
  string_empty (ConnectionConfig.broker (config s)) = false ->
  fst created = MQTTCLIENT_SUCCESS ->
  connected <> MQTTCLIENT_SUCCESS ->
  start created connected s =
    (false, set_currentState DISCONNECTED (set_client (Some (snd created)) s),
     [MQTTClient_create (serverURI_of (config s)) (clientId s);
      MQTTClient_setCallbacks (Some (snd created));
      MQTTClient_connect (Some (snd created)) (conn_opts_of (config s))]
     ++ trace (report_error connected "Connection failed" s)).
Proof.
  intros E Hc Hrc. apply Z.eqb_neq in Hrc. apply Z.eqb_eq in Hc.
  unfold start, mbind, M_bind, gets. simpl. rewrite E. simpl. rewrite Hc. simpl.
  rewrite Hrc. simpl.
  unfold report_error, mbind, M_bind, gets, trace. simpl.
  destruct (sessionHandler s); reflexivity.
Qed.

Lemma start_connected (created : Z * addr) (connected : Z) (s : Impl) :
  string_empty (ConnectionConfig.broker (config s)) = false ->
  fst created = MQTTCLIENT_SUCCESS ->
  connected = MQTTCLIENT_SUCCESS ->
  start created connected s =
    (true, set_currentState CONNECTED (set_client (Some (snd created)) s),
     [MQTTClient_create (serverURI_of (config s)) (clientId s);
      MQTTClient_setCallbacks (Some (snd created));
      MQTTClient_connect (Some (snd created)) (conn_opts_of (config s))]
     ++ trace (report_state CONNECTED s)).
Proof.
  intros E Hc Hrc. apply Z.eqb_eq in Hrc. apply Z.eqb_eq in Hc.
  unfold start, mbind, M_bind, gets. simpl. rewrite E. simpl. rewrite Hc. simpl.
  rewrite Hrc. simpl.
  unfold report_state, mbind, M_bind, gets, trace. simpl.
  destruct (sessionHandler s); reflexivity.
Qed.

Lemma stop_without_client (s : Impl) :
  client s = None -> stop s = (true, s, []).
Proof.
  intros E. unfold stop, mbind, M_bind, gets. simpl. rewrite E. reflexivity.
Qed.

Lemma stop_with_client (s : Impl) (c : addr) :
  client s = Some c ->
  stop s =
    (true, set_currentState DISCONNECTED (set_client None s),
     [MQTTClient_disconnect (Some c) 10000; MQTTClient_destroy (Some c)]
     ++ trace (report_state DISCONNECTED s)).
Proof.
  intros E. unfold stop, mbind, M_bind, gets. simpl. rewrite E. simpl.
  unfold report_state, mbind, M_bind, gets, trace. simpl.
  destruct (sessionHandler s); reflexivity.
Qed.

Lemma stop_leaves_idle (s : Impl) :
  client (after (stop s)) = None /\
  (currentState s = DISCONNECTED -> client s = None ->
   currentState (after (stop s)) = DISCONNECTED).
Proof.
  destruct (client s) as [c|] eqn:E.
  - rewrite (stop_with_client s c E). simpl. split; [reflexivity|congruence].
  - rewrite (stop_without_client s E). simpl. split; [assumption|tauto].
Qed.

End SessionFacts.

Section SessionCalls.
Import Session.

Lemma report_error_trace (rc : Z) (msg : string) (s : Impl) :
  report_error rc msg s =
    (tt, s, match sessionHandler s with
            | Some h => [onError h rc msg]
            | None => []
            end).
Proof.
  unfold report_error, mbind, M_bind, gets. simpl.
  destruct (sessionHandler s); reflexivity.
Qed.

Lemma report_state_trace (st : SessionState) (s : Impl) :
  report_state st s =
    (tt, s, match sessionHandler s with
            | Some h => [onStateChange h st]
            | None => []
            end).
Proof.
  unfold report_state, mbind, M_bind, gets. simpl.
  destruct (sessionHandler s); reflexivity.
Qed.

Lemma subscribe_failed (topic : string) (qos : Message.QoS) (rc : Z)
  (s : Impl) :
  rc <> MQTTCLIENT_SUCCESS ->
  subscribe topic qos rc s =
    (-1, s,
     MQTTClient_subscribe (client s) topic (Message.QoS_to_int qos)
       :: trace (report_error rc "Subscribe failed" s)).
Proof.
  intros Hrc. apply Z.eqb_neq in Hrc.
  unfold subscribe, mbind, M_bind, gets. simpl. rewrite Hrc. simpl.
  unfold report_error, mbind, M_bind, gets, trace. simpl.
  destruct (sessionHandler s); reflexivity.
Qed.

Lemma subscribe_succeeded (topic : string) (qos : Message.QoS) (rc : Z)
  (s : Impl) :
  rc = MQTTCLIENT_SUCCESS ->
  subscribe topic qos rc s =
    (nextSubHandle s,
     set_subscriptions (<[nextSubHandle s := topic]> (subscriptions s))
       (set_nextSubHandle (to_int64 (nextSubHandle s + 1)) s),
     [MQTTClient_subscribe (client s) topic (Message.QoS_to_int qos)]).
Proof.
  intros Hrc. apply Z.eqb_eq in Hrc.
  unfold subscribe, mbind, M_bind, gets. simpl. rewrite Hrc. reflexivity.
Qed.

Lemma unsubscribe_absent (handle rc : Z) (s : Impl) :
  subscriptions s !! handle = None ->
  unsubscribe handle rc s = (false, s, []).
Proof.
  intros E. unfold unsubscribe, mbind, M_bind, gets. simpl. rewrite E.
  reflexivity.
Qed.

Lemma unsubscribe_failed (handle rc : Z) (topic : string) (s : Impl) :
  subscriptions s !! handle = Some topic ->
  rc <> MQTTCLIENT_SUCCESS ->
  unsubscribe handle rc s =
    (false, s,
     MQTTClient_unsubscribe (client s) topic
       :: trace (report_error rc "Unsubscribe failed" s)).
Proof.
  intros E Hrc. apply Z.eqb_neq in Hrc.
  unfold unsubscribe, mbind, M_bind, gets. simpl. rewrite E. simpl.
  rewrite Hrc. simpl.
  unfold report_error, mbind, M_bind, gets, trace. simpl.
  destruct (sessionHandler s); reflexivity.
Qed.

Lemma unsubscribe_succeeded (handle rc : Z) (topic : string) (s : Impl) :
  subscriptions s !! handle = Some topic ->
  rc = MQTTCLIENT_SUCCESS ->
  unsubscribe handle rc s =
    (true, set_subscriptions (delete handle (subscriptions s)) s,
     [MQTTClient_unsubscribe (client s) topic]).
Proof.
  intros E Hrc. apply Z.eqb_eq in Hrc.
  unfold unsubscribe, mbind, M_bind, gets. simpl. rewrite E. simpl.
  rewrite Hrc. reflexivity.
Qed.

Lemma publish_spec (topic : string) (payload : list Byte.byte) (len : Z)
  (qos : Message.QoS) (retain : bool) (rc : Z) (s : Impl) :
  publish topic payload len qos retain rc s =
    (if rc =? MQTTCLIENT_SUCCESS then nextMessageId s else -1,
     set_nextMessageId (to_int64 (nextMessageId s + 1)) s,
     MQTTClient_publishMessage (client s) topic
       {| Paho.payload := payload;
          Paho.payloadlen := to_int len;
          Paho.qos := Message.QoS_to_int qos;
          Paho.retained := of_bool retain;
          Paho.msgid := to_int (nextMessageId s) |}
       :: (if rc =? MQTTCLIENT_SUCCESS then []
           else match sessionHandler s with
                | Some h => [onError h rc "Publish failed"]
                | None => []
                end)).
Proof.
  unfold publish, mbind, M_bind, gets. simpl.
  destruct (rc =? MQTTCLIENT_SUCCESS); simpl.
  - reflexivity.
  - unfold report_error, mbind, M_bind, gets. simpl.
    destruct (sessionHandler s); reflexivity.
Qed.

End SessionCalls.

(** ** Runs of a session *)

Section Runs.
Import Session.

Lemma run_cons (i : Calls.input) (inputs : list Calls.input) (s : Impl) :
  result (Calls.run (i :: inputs) s) =
    (i, result (Calls.step i s))
      :: result (Calls.run inputs (after (Calls.step i s))) /\
  after (Calls.run (i :: inputs) s) =
    after (Calls.run inputs (after (Calls.step i s))).
Proof. split; reflexivity. Qed.

(** What one input does to the two counters and what it returns. *)
Lemma step_counters (i : Calls.input) (s : Impl) :
  let r := Calls.step i s in
  match i with
  | Calls.subscribe _ _ rc =>
      if rc =? MQTTCLIENT_SUCCESS
      then result r = Calls.returned_int (nextSubHandle s) /\
           nextSubHandle (after r) = to_int64 (nextSubHandle s + 1) /\
           nextMessageId (after r) = nextMessageId s
      else result r = Calls.returned_int (-1) /\ after r = s
  | Calls.publish _ _ _ _ _ rc =>
      result r =
        Calls.returned_int
          (if rc =? MQTTCLIENT_SUCCESS then nextMessageId s else -1) /\
      nextSubHandle (after r) = nextSubHandle s /\
      nextMessageId (after r) = to_int64 (nextMessageId s + 1)
  | _ =>
      nextSubHandle (after r) = nextSubHandle s /\
      nextMessageId (after r) = nextMessageId s
  end.
Proof.
  destruct i as [created connected| |topic qos rc|handle rc
                |topic payload len qos retain rc| |f|h|h|cause|tn tl m];
    cbn zeta.
  - (* start *)
    unfold Calls.step, fmap, M_fmap. cbn zeta.
    destruct (string_empty (ConnectionConfig.broker (config s))) eqn:E.
    { rewrite start_empty_broker by assumption. split; reflexivity. }
    destruct (Z.eq_dec (fst created) MQTTCLIENT_SUCCESS) as [Hc|Hc].
    2:{ rewrite start_create_failed by assumption. split; reflexivity. }
    destruct (Z.eq_dec connected MQTTCLIENT_SUCCESS) as [Hk|Hk].
    + rewrite start_connected by assumption. split; reflexivity.
    + rewrite start_connect_failed by assumption. split; reflexivity.
  - (* stop *)
    unfold Calls.step, fmap, M_fmap. cbn zeta.
    destruct (client s) as [c|] eqn:E.
    + rewrite (stop_with_client s c E). split; reflexivity.
    + rewrite (stop_without_client s E). split; reflexivity.
  - (* subscribe *)
    unfold Calls.step, fmap, M_fmap. cbn zeta.
    destruct (rc =? MQTTCLIENT_SUCCESS) eqn:E.
    + apply Z.eqb_eq in E. rewrite subscribe_succeeded by assumption.
      repeat split; reflexivity.
    + apply Z.eqb_neq in E. rewrite subscribe_failed by assumption.
      split; reflexivity.
  - (* unsubscribe *)
    unfold Calls.step, fmap, M_fmap. cbn zeta.
    destruct (subscriptions s !! handle) as [topic|] eqn:E.
    + destruct (Z.eq_dec rc MQTTCLIENT_SUCCESS) as [Hk|Hk].
      * rewrite (unsubscribe_succeeded handle rc topic s E Hk).
        split; reflexivity.
      * rewrite (unsubscribe_failed handle rc topic s E Hk).
        split; reflexivity.
    + rewrite (unsubscribe_absent handle rc s E). split; reflexivity.
  - (* publish *)
    unfold Calls.step, fmap, M_fmap. cbn zeta.
    rewrite publish_spec. repeat split; reflexivity.
  - split; reflexivity.
  - split; reflexivity.
  - split; reflexivity.
  - split; reflexivity.
  - (* connectionLost *)
    unfold Calls.step, onConnectionLost, mbind, M_bind, gets, modify. simpl.
    destruct (client s); simpl; [|split; reflexivity].
    destruct (sessionHandler s); split; reflexivity.
  - (* messageArrived *)
    unfold Calls.step, onMessageCallback, fmap, M_fmap, mbind, M_bind, gets.
    simpl. destruct (client s); simpl; [|split; reflexivity].
    destruct (msgHandler s); split; reflexivity.
Qed.

(** The same, as seen by the observers of a run. *)
Lemma step_summary (i : Calls.input) (s : Impl) :
  1 <= nextSubHandle s < INT64_MAX ->
  1 <= nextMessageId s < INT64_MAX ->
  let io := (i, result (Calls.step i s)) in
  let s1 := after (Calls.step i s) in
  (Calls.subscribe_handle io = Some (nextSubHandle s) /\
   nextSubHandle s1 = nextSubHandle s + 1
   \/ Calls.subscribe_handle io = None /\ nextSubHandle s1 = nextSubHandle s)
  /\
  (Calls.publish_return io = None /\ Calls.publish_id io = None /\
   nextMessageId s1 = nextMessageId s
   \/ Calls.publish_return io = Some (nextMessageId s) /\
      Calls.publish_id io = Some (nextMessageId s) /\
      nextMessageId s1 = nextMessageId s + 1
   \/ Calls.publish_return io = Some (-1) /\ Calls.publish_id io = None /\
      nextMessageId s1 = nextMessageId s + 1).
Proof.
  intros Ha Hb. cbn zeta.
  assert (Ea : to_int64 (nextSubHandle s + 1) = nextSubHandle s + 1)
    by (apply to_int64_succ; unfold INT64_MIN; lia).
  assert (Eb : to_int64 (nextMessageId s + 1) = nextMessageId s + 1)
    by (apply to_int64_succ; unfold INT64_MIN; lia).
  pose proof (step_counters i s) as H. cbn zeta in H.
  destruct i; try (destruct H as [H1 H2]; rewrite H1, H2; simpl; tauto).
  - (* subscribe *)
    destruct (rc =? MQTTCLIENT_SUCCESS).
    + destruct H as (Hr & H1 & H2). rewrite Hr, H1, H2, Ea. simpl.
      destruct (nextSubHandle s =? -1) eqn:E; [apply Z.eqb_eq in E; lia|].
      tauto.
    + destruct H as (Hr & H1). rewrite Hr, H1. simpl. tauto.
  - (* publish *)
    destruct H as (Hr & H1 & H2). rewrite Hr, H1, H2, Eb.
    destruct (rc =? MQTTCLIENT_SUCCESS); simpl.
    + destruct (nextMessageId s =? -1) eqn:E; [apply Z.eqb_eq in E; lia|].
      tauto.
    + tauto.
Qed.

(** The counters along a run that stays in the range of [int64_t]: the
    handles handed out are consecutive from the first counter, the ids are
    increasing within the span the second counter has covered. *)
Lemma run_counters (inputs : list Calls.input) (s : Impl) :
  1 <= nextSubHandle s ->
  1 <= nextMessageId s ->
  nextSubHandle s + Z.of_nat (length inputs) <= INT64_MAX ->
  nextMessageId s + Z.of_nat (length inputs) <= INT64_MAX ->
  let r := Calls.run inputs s in
  let hs := Calls.handles (result r) in
  let ids := Calls.message_ids (result r) in
  let rets := Calls.publish_returns (result r) in
  hs = seqZ (nextSubHandle s) (Z.of_nat (length hs)) /\
  nextSubHandle (after r) = nextSubHandle s + Z.of_nat (length hs) /\
  (length hs <= length inputs)%nat /\
  nextMessageId (after r) = nextMessageId s + Z.of_nat (length rets) /\
  (length rets <= length inputs)%nat /\
  Forall (fun v => nextMessageId s <= v < nextMessageId (after r)) ids /\
  StronglySorted Z.lt ids /\
  (forall (k : nat) (v : Z),
     rets !! k = Some v -> v = -1 \/ v = nextMessageId s + Z.of_nat k).
Proof.
  revert s. induction inputs as [|i inputs IH]; intros s Ha Hb HA HB; cbn zeta.
  - simpl. rewrite !Z.add_0_r.
    split; [reflexivity|]. split; [reflexivity|]. split; [lia|].
    split; [reflexivity|]. split; [lia|]. split; [constructor|].
    split; [constructor|].
    intros k v Hk. rewrite lookup_nil in Hk. discriminate.
  - destruct (run_cons i inputs s) as [-> ->].
    cbn [length] in HA, HB.
    destruct (step_summary i s) as [Hsub Hpub]; [lia|lia|].
    cbn zeta in Hsub, Hpub.
    set (o := result (Calls.step i s)) in *.
    set (s1 := after (Calls.step i s)) in *.
    assert (Ha1 : 1 <= nextSubHandle s1) by (destruct Hsub as [[_ ->]|[_ ->]]; lia).
    assert (Hb1 : 1 <= nextMessageId s1)
      by (destruct Hpub as [(_ & _ & ->)|[(_ & _ & ->)|(_ & _ & ->)]]; lia).
    assert (HA1 : nextSubHandle s1 + Z.of_nat (length inputs) <= INT64_MAX)
      by (destruct Hsub as [[_ ->]|[_ ->]]; lia).
    assert (HB1 : nextMessageId s1 + Z.of_nat (length inputs) <= INT64_MAX)
      by (destruct Hpub as [(_ & _ & ->)|[(_ & _ & ->)|(_ & _ & ->)]]; lia).
    specialize (IH s1 Ha1 Hb1 HA1 HB1). cbn zeta in IH.
    destruct IH as (IHh & IHa & IHn & IHb & IHm & IHf & IHs & IHk).
    unfold Calls.handles, Calls.message_ids, Calls.publish_returns in *.
    cbn [omap list_omap].
    set (hs := omap Calls.subscribe_handle _) in *.
    set (ids := omap Calls.publish_id _) in *.
    set (rets := omap Calls.publish_return _) in *.
    rewrite IHa, IHb.
    assert (Hhandles :
      match Calls.subscribe_handle (i, o) with
      | Some x => x :: hs
      | None => hs
      end =
      seqZ (nextSubHandle s)
        (Z.of_nat (length match Calls.subscribe_handle (i, o) with
                          | Some x => x :: hs
                          | None => hs
                          end)) /\
      nextSubHandle s1 + Z.of_nat (length hs) =
      nextSubHandle s +
        Z.of_nat (length match Calls.subscribe_handle (i, o) with
                         | Some x => x :: hs
                         | None => hs
                         end) /\
      (length match Calls.subscribe_handle (i, o) with
              | Some x => x :: hs
              | None => hs
              end <= S (length inputs))%nat).
    { destruct Hsub as [[-> E]|[-> E]]; rewrite E in *.
      - cbn [length]. rewrite seqZ_cons by lia.
        replace (Z.pred (Z.of_nat (S (length hs)))) with (Z.of_nat (length hs))
          by lia.
        replace (Z.succ (nextSubHandle s)) with (nextSubHandle s + 1) by lia.
        rewrite <- IHh. repeat split; lia.
      - repeat split; [assumption|lia]. }
    destruct Hhandles as (H1 & H2 & H3).
    split; [exact H1|]. split; [exact H2|]. split; [exact H3|].
    rewrite IHb in IHf.
    destruct Hpub as [(-> & -> & E)|[(-> & -> & E)|(-> & -> & E)]];
      rewrite E in *; cbn [length].
    + split; [reflexivity|]. split; [lia|]. split; [exact IHf|].
      split; [exact IHs|exact IHk].
    + split; [lia|]. split; [lia|]. split.
      { constructor; [lia|].
        eapply Forall_impl; [exact IHf|]. intros v Hv. cbn beta in Hv. lia. }
      split.
      { constructor; [assumption|].
        eapply Forall_impl; [exact IHf|]. intros v Hv. cbn beta in Hv. lia. }
      intros [|k] v Hk; cbn in Hk.
      * right. inversion Hk. lia.
      * destruct (IHk k v Hk) as [->| ->]; [left; reflexivity|right; lia].
    + split; [lia|]. split; [lia|]. split.
      { eapply Forall_impl; [exact IHf|]. intros v Hv. cbn beta in Hv. lia. }
      split; [assumption|].
      intros [|k] v Hk; cbn in Hk.
      * left. inversion Hk. reflexivity.
      * destruct (IHk k v Hk) as [->| ->]; [left; reflexivity|right; lia].
Qed.

End Runs.

(** ** Starting a session *)

Section Start.
Import Session.

(** C1, as stated, fails: on the scenario session with an engine that accepts
    both native calls, [start] succeeds and the handler sees one state
    change, not the two of [Connecting, Connected]. *)
Lemma start_state_sequence_counterexample :
  let r := start (0, 2%positive) 0 scenario in
  string_empty (ConnectionConfig.broker (config scenario)) = false /\
  result r = true /\
  state_changes (trace r) = [CONNECTED] /\
  state_changes (trace r) <> [CONNECTING; CONNECTED].
Proof. vm_compute. repeat split; discriminate. Qed.

(** C1, amended: for a session with a handler installed, [start] succeeds
    exactly when the broker is non-empty and both native calls answer
    success; a successful [start] invokes [onStateChange] exactly once, with
    Connected, makes no other handler call, and leaves the state
    Connected. *)
Theorem start_success_notifies_connected_once (s : Impl)
  (created : Z * addr) (connected : Z) (h : addr) :
  sessionHandler s = Some h ->
  let r := start created connected s in
  (result r = true <->
   string_empty (ConnectionConfig.broker (config s)) = false /\
   fst created = MQTTCLIENT_SUCCESS /\ connected = MQTTCLIENT_SUCCESS) /\
  (result r = true ->
   state_changes (trace r) = [CONNECTED] /\
   filter (fun e => is_callback e = true) (trace r)
     = [onStateChange h CONNECTED] /\
   currentState (after r) = CONNECTED).
Proof.
  intros Hh. cbn zeta.
  destruct (string_empty (ConnectionConfig.broker (config s))) eqn:E.
  { rewrite start_empty_broker by assumption. simpl.
    split; [split; [discriminate|intros (? & _); discriminate]|discriminate]. }
  destruct (Z.eq_dec (fst created) MQTTCLIENT_SUCCESS) as [Hc|Hc].
  2:{ rewrite start_create_failed by assumption. simpl.
      split; [split; [discriminate|tauto]|discriminate]. }
  destruct (Z.eq_dec connected MQTTCLIENT_SUCCESS) as [Hk|Hk].
  - rewrite start_connected by assumption.
    rewrite report_state_trace, Hh. simpl. tauto.
  - rewrite start_connect_failed by assumption. simpl.
    split; [split; [discriminate|tauto]|discriminate].
Qed.

Lemma start_success_notifies_connected_once_witness :
  sessionHandler scenario = Some 1%positive /\
  let r := start (0, 2%positive) 0 scenario in
  (result r = true <->
   string_empty (ConnectionConfig.broker (config scenario)) = false /\
   fst (0, 2%positive) = MQTTCLIENT_SUCCESS /\ 0 = MQTTCLIENT_SUCCESS) /\
  (result r = true ->
   state_changes (trace r) = [CONNECTED] /\
   filter (fun e => is_callback e = true) (trace r)
     = [onStateChange 1%positive CONNECTED] /\
   currentState (after r) = CONNECTED).
Proof.
  split; [reflexivity|].
  apply (start_success_notifies_connected_once scenario (0, 2%positive) 0
           1%positive).
  reflexivity.
Defined.

(** C2, as stated, fails: a new session has an empty broker and a handler;
    [start] returns false and makes no handler call at all. *)
Lemma start_empty_broker_counterexample :
  let s := Session.new "client" 1%positive in
  let r := start (0, 2%positive) 0 s in
  sessionHandler s = Some 1%positive /\
  ConnectionConfig.broker (config s) = "" /\
  result r = false /\
  errors (trace r) = [] /\
  trace r = [cerr "Broker URL not set"].
Proof. vm_compute. repeat split. Qed.

(** C2, amended: with an empty broker [start] returns false, writes one line
    to the standard error stream, makes no native call and no handler call,
    and changes nothing.  The failures that are reported to the handler are
    those of the engine: when client creation or the connect answers a
    non-zero code, [start] returns false and [onError] is invoked exactly
    once, with that code. *)
Theorem start_failure_channels (s : Impl) (created : Z * addr)
  (connected : Z) (h : addr) :
  sessionHandler s = Some h ->
  let r := start created connected s in
  (string_empty (ConnectionConfig.broker (config s)) = true ->
   r = (false, s, [cerr "Broker URL not set"])) /\
  (string_empty (ConnectionConfig.broker (config s)) = false ->
   fst created <> MQTTCLIENT_SUCCESS ->
   result r = false /\
   errors (trace r) = [(fst created, "Failed to create client")] /\
   after r = s) /\
  (string_empty (ConnectionConfig.broker (config s)) = false ->
   fst created = MQTTCLIENT_SUCCESS ->
   connected <> MQTTCLIENT_SUCCESS ->
   result r = false /\
   errors (trace r) = [(connected, "Connection failed")] /\
   currentState (after r) = DISCONNECTED).
Proof.
  intros Hh. cbn zeta. split; [|split].
  - intros E. apply start_empty_broker. exact E.
  - intros E Hc. rewrite start_create_failed by assumption.
    rewrite report_error_trace, Hh. repeat split.
  - intros E Hc Hk. rewrite start_connect_failed by assumption.
    rewrite report_error_trace, Hh. repeat split.
Qed.

Lemma start_failure_channels_witness :
  let s := Session.new "client" 1%positive in
  sessionHandler s = Some 1%positive /\
  string_empty (ConnectionConfig.broker (config s)) = true /\
  start (0, 2%positive) 0 s = (false, s, [cerr "Broker URL not set"]).
Proof.
  cbn zeta. split; [reflexivity|]. split; [reflexivity|].
  apply (start_failure_channels (Session.new "client" 1%positive)
           (0, 2%positive) 0 1%positive); reflexivity.
Defined.

End Start.

(** ** Subscriptions and publications *)

Section SubscribePublish.
Import Session.

(** C4: [unsubscribe] with a handle that is not in the table returns false,
    makes no handler call and changes nothing.  With a handle that is in the
    table it calls the native unsubscribe on the recorded topic; when that
    succeeds it returns true and the table loses exactly that entry, nothing
    else changing; when that fails it returns false, invokes [onError] once
    with the engine's code, and changes nothing. *)
Theorem unsubscribe_cases (s : Impl) (handle rc : Z) (h : addr) :
  sessionHandler s = Some h ->
  let r := unsubscribe handle rc s in
  (subscriptions s !! handle = None -> r = (false, s, [])) /\
  (forall topic : string,
     subscriptions s !! handle = Some topic ->
     (rc = MQTTCLIENT_SUCCESS ->
      result r = true /\
      after r = set_subscriptions (delete handle (subscriptions s)) s /\
      subscriptions (after r) !! handle = None /\
      (forall k : Z,
         k <> handle -> subscriptions (after r) !! k = subscriptions s !! k) /\
      trace r = [MQTTClient_unsubscribe (client s) topic]) /\
     (rc <> MQTTCLIENT_SUCCESS ->
      result r = false /\
      after r = s /\
      trace r = [MQTTClient_unsubscribe (client s) topic;
                 onError h rc "Unsubscribe failed"])).
Proof.
  intros Hh. cbn zeta. split.
  - apply unsubscribe_absent.
  - intros topic E. split; intros Hrc.
    + rewrite (unsubscribe_succeeded handle rc topic s E Hrc). simpl.
      split; [reflexivity|]. split; [reflexivity|].
      split; [apply lookup_delete_eq|].
      split; [|reflexivity].
      intros k Hk. apply lookup_delete_ne. congruence.
    + rewrite (unsubscribe_failed handle rc topic s E Hrc).
      rewrite report_error_trace, Hh. repeat split.
Qed.

Lemma unsubscribe_cases_witness :
  sessionHandler scenario_subscribed = Some 1%positive /\
  subscriptions scenario_subscribed !! 1 = Some "t/1" /\
  result (unsubscribe 1 0 scenario_subscribed) = true /\
  subscriptions (after (unsubscribe 1 0 scenario_subscribed)) !! 1 = None /\
  unsubscribe 7 0 scenario_subscribed = (false, scenario_subscribed, []).
Proof.
  pose proof (unsubscribe_cases scenario_subscribed 1 0 1%positive eq_refl)
    as [_ Hpresent].
  pose proof (unsubscribe_cases scenario_subscribed 7 0 1%positive eq_refl)
    as [Habsent _].
  destruct (Hpresent "t/1" eq_refl) as [(H1 & _ & H2 & _) _]; [reflexivity|].
  split; [reflexivity|]. split; [reflexivity|].
  split; [exact H1|]. split; [exact H2|].
  apply Habsent. reflexivity.
Defined.



End SubscribePublish.

(** ** Handles and ids along every run *)

Section Counters.
Import Session.

Lemma seqZ_sorted (n : nat) (a : Z) :
  StronglySorted Z.lt (seqZ a (Z.of_nat n)).
Proof.
  revert a. induction n as [|n IH]; intros a.
  - rewrite seqZ_nil by lia. constructor.
  - rewrite seqZ_cons by lia.
    replace (Z.pred (Z.of_nat (S n))) with (Z.of_nat n) by lia.
    constructor; [apply IH|].
    apply Forall_seqZ. intros m Hm. lia.
Qed.

Lemma sorted_NoDup (l : list Z) : StronglySorted Z.lt l -> NoDup l.
Proof.
  induction 1 as [|x l _ IH Hx]; constructor; [|exact IH].
  intros Hin. rewrite Forall_forall in Hx. specialize (Hx x Hin). lia.
Qed.

(** C3: along every sequence of calls on a new session (short enough for
    the counters to stay in [int64_t]), the handles returned by the
    successful [subscribe] calls are 1, 2, 3, ... in call order; the
    [publish] call number [k] returns [k] or -1, so the ids returned by the
    successful ones are at least 1 and strictly increasing; and neither
    list has a repeated value, whatever [unsubscribe] calls lie between. *)
Theorem handles_and_ids_strictly_increasing (clientId : string)
  (handler : addr) (inputs : list Calls.input) :
  Z.of_nat (length inputs) < INT64_MAX ->
  let ios := result (Calls.run inputs (Session.new clientId handler)) in
  Calls.handles ios = seqZ 1 (Z.of_nat (length (Calls.handles ios))) /\
  StronglySorted Z.lt (Calls.handles ios) /\
  NoDup (Calls.handles ios) /\
  (forall (k : nat) (v : Z),
     Calls.publish_returns ios !! k = Some v ->
     v = -1 \/ v = 1 + Z.of_nat k) /\
  Forall (fun v => 1 <= v) (Calls.message_ids ios) /\
  StronglySorted Z.lt (Calls.message_ids ios) /\
  NoDup (Calls.message_ids ios).
Proof.
  intros Hlen. cbn zeta.
  destruct (run_counters inputs (Session.new clientId handler))
    as (Hh & _ & _ & _ & _ & Hf & Hs & Hk); simpl; try lia.
  split; [exact Hh|].
  split; [rewrite Hh; apply seqZ_sorted|].
  split; [apply sorted_NoDup; rewrite Hh; apply seqZ_sorted|].
  split; [exact Hk|].
  split; [|split; [exact Hs|apply sorted_NoDup; exact Hs]].
  eapply Forall_impl; [exact Hf|]. intros v Hv. cbn beta in Hv.
  simpl in Hv. lia.
Qed.

Lemma handles_and_ids_strictly_increasing_witness :
  let inputs :=
    [Calls.subscribe "a" Message.AT_MOST_ONCE 0;
     Calls.publish "a" [] 0 Message.AT_MOST_ONCE false 3;
     Calls.unsubscribe 1 0;
     Calls.subscribe "a" Message.AT_MOST_ONCE 0;
     Calls.publish "a" [] 0 Message.AT_MOST_ONCE false 0] in
  let ios := result (Calls.run inputs (Session.new "client" 1%positive)) in
  Z.of_nat (length inputs) < INT64_MAX /\
  Calls.handles ios = [1; 2] /\
  Calls.message_ids ios = [2] /\
  NoDup (Calls.handles ios) /\
  NoDup (Calls.message_ids ios).
Proof.
  cbn zeta.
  split; [reflexivity|]. split; [reflexivity|]. split; [reflexivity|].
  match goal with
  | |- NoDup (Calls.handles (result (Calls.run ?i (Session.new ?c ?h)))) /\ _ =>
      destruct (handles_and_ids_strictly_increasing c h i eq_refl)
        as (_ & _ & H1 & _ & _ & _ & H2)
  end.
  split; [exact H1|exact H2].
Defined.

(** C9: on a session reached by any sequence of calls and holding a handler,
    a [publish] the engine accepts returns the id it has just allocated,
    which is positive and was returned by no earlier call, and makes no
    handler call; a [publish] the engine refuses returns -1 and invokes
    [onError] exactly once, with the engine's code. *)
Theorem publish_both_channels (clientId : string) (handler : addr)
  (inputs : list Calls.input) (topic : string) (payload : list Byte.byte)
  (len : Z) (qos : Message.QoS) (retain : bool) (rc : Z) (h : addr) :
  Z.of_nat (length inputs) < INT64_MAX ->
  let past := Calls.run inputs (Session.new clientId handler) in
  let s := after past in
  sessionHandler s = Some h ->
  let r := publish topic payload len qos retain rc s in
  (rc = MQTTCLIENT_SUCCESS ->
   result r = nextMessageId s /\
   0 < result r /\
   (result r ∉ Calls.message_ids (result past)) /\
   filter (fun e => is_callback e = true) (trace r) = []) /\
  (rc <> MQTTCLIENT_SUCCESS ->
   result r = -1 /\
   errors (trace r) = [(rc, "Publish failed")] /\
   filter (fun e => is_callback e = true) (trace r)
     = [onError h rc "Publish failed"]).
Proof.
  intros Hlen. cbn zeta. intros Hh.
  destruct (run_counters inputs (Session.new clientId handler))
    as (_ & _ & _ & Hb & Hn & Hf & _ & _);
    [simpl; lia|simpl; lia|simpl; lia|simpl; lia|].
  set (past := Calls.run inputs (Session.new clientId handler)) in *.
  change (nextMessageId (Session.new clientId handler)) with 1 in Hb, Hf.
  rewrite publish_spec, Hh. cbn [result trace fst snd]. split; intros Hrc.
  - apply Z.eqb_eq in Hrc. rewrite Hrc. cbn [filter list_filter].
    split; [reflexivity|]. split; [lia|].
    split; [|reflexivity].
    intros Hin. rewrite Forall_forall in Hf. specialize (Hf _ Hin).
    cbn beta in Hf. lia.
  - apply Z.eqb_neq in Hrc. rewrite Hrc. repeat split.
Qed.

Lemma publish_both_channels_witness :
  let inputs := [Calls.configure (Calls.setBroker (Some "test.broker") 1883);
                 Calls.start (0, 2%positive) 0] in
  let s := after (Calls.run inputs (Session.new "client" 1%positive)) in
  Z.of_nat (length inputs) < INT64_MAX /\
  sessionHandler s = Some 1%positive /\
  result (publish "t/1" [] 5 Message.AT_LEAST_ONCE false 0 s) = 1 /\
  result (publish "t/1" [] 5 Message.AT_LEAST_ONCE false 9 s) = -1 /\
  errors (trace (publish "t/1" [] 5 Message.AT_LEAST_ONCE false 9 s))
    = [(9, "Publish failed")].
Proof.
  cbn zeta.
  split; [reflexivity|]. split; [reflexivity|].
  match goal with
  | |- result (publish ?t ?p ?l ?q ?b 0
                 (after (Calls.run ?i (Session.new ?c ?h)))) = _ /\ _ =>
      pose proof (publish_both_channels c h i t p l q b 0 1%positive
                    eq_refl eq_refl) as [Hok _];
      pose proof (publish_both_channels c h i t p l q b 9 1%positive
                    eq_refl eq_refl) as [_ Hko]
  end.
  destruct (Hok eq_refl) as (H1 & _).
  destruct Hko as (H2 & H3 & _); [discriminate|].
  split; [exact H1|]. split; [exact H2|exact H3].
Defined.

End Counters.

(** ** Sessions without a native client *)

Section Idle.
Import Session.








End Idle.

(** ** The bridge: parameter setters *)

Section BridgeSetters.

Lemma set_sessions_same (p : process) (s : addr) (impl : Session.Impl) :
  sessions p !! s = Some impl ->
  set_sessions (<[s := impl]> (sessions p)) p = p.
Proof.
  intros E. rewrite (insert_id _ _ _ E). destruct p; reflexivity.
Qed.

Lemma on_session_eq {A : Type} (s : addr) (m : Session.M A) (p : process)
  (impl : Session.Impl) :
  sessions p !! s = Some impl ->
  on_session s m p =
    Some (Session.result (m impl),
          set_sessions (<[s := Session.after (m impl)]> (sessions p)) p,
          observe p s (Session.trace (m impl))).
Proof. intros E. unfold on_session. rewrite E. reflexivity. Qed.

Lemma checked_valid {A : Type} (h s : addr) (r : mqtt_session_t)
  (invalid : A) (body : addr -> P A) (p : process) :
  handles p !! h = Some r ->
  session r = Some s ->
  Bridge.checked (Some h) invalid body p = body s p.
Proof.
  intros Eh Es. unfold Bridge.checked, mbind, P_bind, deref_handle.
  rewrite Eh, Es. destruct (body s p) as [[[a p'] l]|]; reflexivity.
Qed.

(** A setter that leaves the configuration alone leaves the process alone. *)
Lemma with_config_id (p : process) (s : addr) (impl : Session.Impl)
  (f : ConnectionConfig.Impl -> ConnectionConfig.Impl) :
  sessions p !! s = Some impl ->
  f (Session.config impl) = Session.config impl ->
  (on_session s (Session.with_config f);; mret 0) p = Some (0, p, []).
Proof.
  intros E Hf. unfold mbind, P_bind. rewrite (on_session_eq _ _ _ _ E).
  unfold Session.with_config, Session.modify, Session.after, Session.trace,
    Session.result. cbn [fst snd]. rewrite Hf, set_config_same.
  rewrite (set_sessions_same _ _ _ E). reflexivity.
Qed.

(** C8: on a valid handle, the integer setter called with the code of a
    boolean parameter (CleanSession, TlsEnabled), and the boolean setter
    called with the code of an integer parameter, return 0 and leave the
    whole process, hence every field of the configuration, as it was. *)
Theorem mismatched_setter_is_ignored (p : process) (h s : addr)
  (r : mqtt_session_t) (impl : Session.Impl) (param value : Z) :
  handles p !! h = Some r ->
  session r = Some s ->
  sessions p !! s = Some impl ->
  (param = Bridge.MQTT_PARAM_CLEAN_SESSION \/
   param = Bridge.MQTT_PARAM_TLS_ENABLED ->
   Bridge.mqtt_set_int_parameter (Some h) param value p = Some (0, p, [])) /\
  (param = Bridge.MQTT_PARAM_KEEP_ALIVE_INTERVAL \/
   param = Bridge.MQTT_PARAM_CONNECTION_TIMEOUT \/
   param = Bridge.MQTT_PARAM_MAX_INFLIGHT \/
   param = Bridge.MQTT_PARAM_MAX_QUEUED_MESSAGES \/
   param = Bridge.MQTT_PARAM_RECONNECT_DELAY ->
   Bridge.mqtt_set_bool_parameter (Some h) param value p = Some (0, p, [])).
Proof.
  intros Eh Es Ei. split; intros Hp.
  - unfold Bridge.mqtt_set_int_parameter.
    rewrite (checked_valid h s r _ _ p Eh Es).
    apply (with_config_id p s impl); [exact Ei|].
    destruct Hp as [-> | ->]; reflexivity.
  - unfold Bridge.mqtt_set_bool_parameter.
    rewrite (checked_valid h s r _ _ p Eh Es).
    apply (with_config_id p s impl); [exact Ei|].
    destruct Hp as [-> |[-> |[-> |[-> | ->]]]]; reflexivity.
Qed.

Lemma mismatched_setter_is_ignored_witness :
  handles connected_process !! 4%positive =
    Some (mk_mqtt_session_t (Some 3%positive) (Some 100%positive)
            (Some 101%positive) (Some 102%positive) None) /\
  is_Some (sessions connected_process !! 3%positive) /\
  Bridge.mqtt_set_int_parameter (Some 4%positive)
    Bridge.MQTT_PARAM_TLS_ENABLED 1 connected_process
    = Some (0, connected_process, []) /\
  Bridge.mqtt_set_bool_parameter (Some 4%positive)
    Bridge.MQTT_PARAM_KEEP_ALIVE_INTERVAL 1 connected_process
    = Some (0, connected_process, []).
Proof.
  assert (Eh : handles connected_process !! 4%positive =
    Some (mk_mqtt_session_t (Some 3%positive) (Some 100%positive)
            (Some 101%positive) (Some 102%positive) None))
    by (vm_compute; reflexivity).
  destruct (sessions connected_process !! 3%positive) as [impl|] eqn:Ei;
    [|vm_compute in Ei; discriminate].
  split; [exact Eh|]. split; [exists impl; reflexivity|].
  pose proof (mismatched_setter_is_ignored connected_process 4%positive
                3%positive _ impl Bridge.MQTT_PARAM_TLS_ENABLED 1 Eh eq_refl Ei)
    as [Hint _].
  pose proof (mismatched_setter_is_ignored connected_process 4%positive
                3%positive _ impl Bridge.MQTT_PARAM_KEEP_ALIVE_INTERVAL 1 Eh
                eq_refl Ei)
    as [_ Hbool].
  split; [apply Hint; right; reflexivity|apply Hbool; left; reflexivity].
Defined.

End BridgeSetters.

(** ** The bridge before initialisation *)

Section BridgeFactory.

Lemma keeps_ret {A : Type} (x : A) : keeps_factory (mret x).
Proof. intros p p' a l H. inversion H. reflexivity. Qed.

Lemma keeps_bind {A B : Type} (m : P A) (f : A -> P B) :
  keeps_factory m -> (forall a, keeps_factory (f a)) ->
  keeps_factory (m ≫= f).
Proof.
  intros Hm Hf p p' b l. unfold mbind, P_bind.
  destruct (m p) as [[[a p1] l1]|] eqn:E1; [|discriminate].
  destruct (f a p1) as [[[b' p2] l2]|] eqn:E2; [|discriminate].
  intros H. inversion H; subst.
  rewrite (Hf a _ _ _ _ E2). apply (Hm _ _ _ _ E1).
Qed.

Lemma keeps_fmap {A B : Type} (g : A -> B) (m : P A) :
  keeps_factory m -> keeps_factory (g <$> m).
Proof.
  intros Hm p p' b l. unfold fmap, P_fmap.
  destruct (m p) as [[[a p1] l1]|] eqn:E1; [|discriminate].
  intros H. inversion H; subst. apply (Hm _ _ _ _ E1).
Qed.

Lemma keeps_pgets {A : Type} (f : process -> A) : keeps_factory (pgets f).
Proof. intros p p' a l H. inversion H. reflexivity. Qed.

Lemma keeps_plog (l : list action) : keeps_factory (plog l).
Proof. intros p p' a l' H. inversion H. reflexivity. Qed.

Lemma keeps_pmodify (f : process -> process) :
  (forall p, g_factory (f p) = g_factory p) -> keeps_factory (pmodify f).
Proof. intros Hf p p' a l H. inversion H. apply Hf. Qed.

Lemma keeps_deref_handle (h : addr) : keeps_factory (deref_handle h).
Proof.
  intros p p' a l. unfold deref_handle.
  destruct (handles p !! h); [|discriminate].
  intros H. inversion H. reflexivity.
Qed.

Lemma keeps_on_session {A : Type} (s : addr) (m : Session.M A) :
  keeps_factory (on_session s m).
Proof.
  intros p p' a l. unfold on_session.
  destruct (sessions p !! s); [|discriminate].
  intros H. inversion H. reflexivity.
Qed.

Lemma keeps_checked {A : Type} (h : option addr) (invalid : A)
  (body : addr -> P A) :
  (forall s, keeps_factory (body s)) ->
  keeps_factory (Bridge.checked h invalid body).
Proof.
  intros Hb. unfold Bridge.checked. destruct h as [h|]; [|apply keeps_ret].
  apply keeps_bind; [apply keeps_deref_handle|].
  intros r. destruct (session r); [apply Hb|apply keeps_ret].
Qed.

Lemma keeps_destroy_session (h : option addr) :
  keeps_factory (Bridge.mqtt_destroy_session h).
Proof.
  unfold Bridge.mqtt_destroy_session. destruct h as [h|]; [|apply keeps_ret].
  apply keeps_bind; [apply keeps_deref_handle|]. intros r.
  apply keeps_bind.
  { destruct (session r); [|apply keeps_ret].
    apply keeps_bind; [apply keeps_on_session|intros ?; apply keeps_ret]. }
  intros _. apply keeps_bind.
  { unfold Bridge.erase_message_handler.
    apply keeps_bind; [apply keeps_pgets|]. intros [o|]; [|apply keeps_ret].
    repeat (apply keeps_bind; [apply keeps_pmodify; reflexivity|intros _]).
    apply keeps_plog. }
  intros _. apply keeps_bind.
  { unfold Bridge.erase_session_handler.
    apply keeps_bind; [apply keeps_pgets|]. intros [o|]; [|apply keeps_ret].
    repeat (apply keeps_bind; [apply keeps_pmodify; reflexivity|intros _]).
    apply keeps_plog. }
  intros _. apply keeps_bind; [apply keeps_pgets|]. intros f.
  apply keeps_bind.
  { destruct f; [|apply keeps_ret]. destruct (session r); [|apply keeps_ret].
    unfold APIFactory.destroySession.
    apply keeps_bind; [apply keeps_on_session|intros _].
    apply keeps_bind; [apply keeps_pmodify; reflexivity|intros _].
    apply keeps_plog. }
  intros _. apply keeps_bind; [apply keeps_pmodify; reflexivity|intros _].
  apply keeps_plog.
Qed.

Lemma create_session_without_factory (client_id : option string)
  (message_cb state_cb error_cb user_context : option addr) (p : process) :
  g_factory p = None ->
  Bridge.mqtt_create_session client_id message_cb state_cb error_cb
    user_context p = Some (None, p, []).
Proof.
  intros E. unfold Bridge.mqtt_create_session, mbind, P_bind, pgets.
  rewrite E. reflexivity.
Qed.

Lemma uninitialize_without_factory (p : process) :
  g_factory p = None -> Bridge.mqtt_uninitialize p = Some (0, p, []).
Proof.
  intros E. unfold Bridge.mqtt_uninitialize, mbind, P_bind, pgets.
  rewrite E. reflexivity.
Qed.

(** Only [mqtt_initialize] makes [g_factory] non-null. *)
Lemma step_without_initialize (c : Bridge.call) (p p' : process)
  (r : Bridge.returned) (l : list action) :
  Bridge.is_initialize c = false ->
  g_factory p = None ->
  Bridge.step c p = Some (r, p', l) ->
  g_factory p' = None.
Proof.
  intros Hc Hp Hstep. rewrite <- Hp.
  destruct c; try discriminate Hc; cbn [Bridge.step] in Hstep.
  - revert Hstep. apply keeps_fmap, keeps_checked. intros s.
    apply keeps_bind; [apply keeps_on_session|intros ?; apply keeps_ret].
  - revert Hstep. apply keeps_fmap, keeps_checked. intros s.
    apply keeps_bind; [apply keeps_on_session|intros ?; apply keeps_ret].
  - revert Hstep. apply keeps_fmap, keeps_checked. intros s.
    apply keeps_bind; [apply keeps_on_session|intros ?; apply keeps_ret].
  - revert Hstep. apply keeps_fmap, keeps_checked. intros s.
    apply keeps_bind; [apply keeps_on_session|intros ?; apply keeps_ret].
  - revert Hstep. apply keeps_fmap, keeps_checked. intros s.
    apply keeps_bind; [apply keeps_on_session|intros ?; apply keeps_ret].
  - unfold fmap, P_fmap in Hstep.
    rewrite (uninitialize_without_factory p Hp) in Hstep.
    inversion Hstep. reflexivity.
  - unfold fmap, P_fmap in Hstep.
    rewrite (create_session_without_factory _ _ _ _ _ p Hp) in Hstep.
    inversion Hstep. reflexivity.
  - revert Hstep.
    apply keeps_bind; [apply keeps_destroy_session|intros ?; apply keeps_ret].
  - revert Hstep. apply keeps_fmap, keeps_checked. intros s.
    apply keeps_fmap, keeps_on_session.
  - revert Hstep. apply keeps_fmap, keeps_checked. intros s.
    apply keeps_bind; [apply keeps_on_session|intros ?; apply keeps_ret].
  - revert Hstep. apply keeps_fmap, keeps_checked. intros s.
    apply keeps_bind; [apply keeps_on_session|intros ?; apply keeps_ret].
  - revert Hstep. apply keeps_fmap, keeps_checked. intros s.
    apply keeps_on_session.
  - revert Hstep. apply keeps_fmap, keeps_checked. intros s.
    apply keeps_bind; [apply keeps_on_session|intros ?; apply keeps_ret].
  - revert Hstep. apply keeps_fmap, keeps_checked. intros s.
    apply keeps_on_session.
Qed.

Lemma run_without_initialize (calls : list Bridge.call) (p p' : process)
  (rs : list Bridge.returned) (l : list action) :
  Forall (fun c => Bridge.is_initialize c = false) calls ->
  g_factory p = None ->
  Bridge.run calls p = Some (rs, p', l) ->
  g_factory p' = None.
Proof.
  intros Hall. revert p rs l.
  induction Hall as [|c calls Hc _ IH]; intros p rs l Hp Hrun.
  - inversion Hrun; subst. exact Hp.
  - cbn [Bridge.run] in Hrun. unfold mbind, P_bind in Hrun.
    destruct (Bridge.step c p) as [[[r p1] l1]|] eqn:E1; [|discriminate].
    destruct (Bridge.run calls p1) as [[[rs1 p2] l2]|] eqn:E2; [|discriminate].
    cbn in Hrun. inversion Hrun; subst.
    apply (IH p1 rs1 l2); [|exact E2].
    apply (step_without_initialize c p p1 r l1 Hc Hp E1).
Qed.

(** C7: in a process where [mqtt_initialize] was never called, whatever else
    was called, [mqtt_create_session] returns the null handle for every
    client id, every choice of callbacks and every user context, and leaves
    the whole process, the two registries included, as it was. *)
Theorem create_session_before_initialize (calls : list Bridge.call)
  (rs : list Bridge.returned) (p : process) (l : list action)
  (client_id : option string)
  (message_cb state_cb error_cb user_context : option addr) :
  Forall (fun c => Bridge.is_initialize c = false) calls ->
  Bridge.run calls process_start = Some (rs, p, l) ->
  Bridge.mqtt_create_session client_id message_cb state_cb error_cb
    user_context p = Some (None, p, []).
Proof.
  intros Hall Hrun.
  apply create_session_without_factory.
  apply (run_without_initialize calls process_start p rs l Hall eq_refl Hrun).
Qed.

Lemma create_session_before_initialize_witness :
  let calls :=
    [Bridge.uninitialize;
     Bridge.create_session (Some "client") None (Some 101%positive) None None;
     Bridge.session_get_state None;
     Bridge.destroy_session None] in
  exists (rs : list Bridge.returned) (p : process) (l : list action),
    Forall (fun c => Bridge.is_initialize c = false) calls /\
    Bridge.run calls process_start = Some (rs, p, l) /\
    Bridge.mqtt_create_session (Some "client") (Some 100%positive)
      (Some 101%positive) (Some 102%positive) (Some 7%positive) p
      = Some (None, p, []).
Proof.
  cbn zeta.
  assert (Hall : Forall (fun c => Bridge.is_initialize c = false)
    [Bridge.uninitialize;
     Bridge.create_session (Some "client") None (Some 101%positive) None None;
     Bridge.session_get_state None;
     Bridge.destroy_session None]) by (repeat constructor).
  exists [Bridge.returned_int 0; Bridge.returned_handle None;
          Bridge.returned_int 0; Bridge.returned_void], process_start, [].
  assert (Hrun : Bridge.run
    [Bridge.uninitialize;
     Bridge.create_session (Some "client") None (Some 101%positive) None None;
     Bridge.session_get_state None;
     Bridge.destroy_session None] process_start
    = Some ([Bridge.returned_int 0; Bridge.returned_handle None;
             Bridge.returned_int 0; Bridge.returned_void], process_start, []))
    by (vm_compute; reflexivity).
  split; [exact Hall|]. split; [exact Hrun|].
  exact (create_session_before_initialize _ _ _ _ (Some "client")
           (Some 100%positive) (Some 101%positive) (Some 102%positive)
           (Some 7%positive) Hall Hrun).
Defined.

End BridgeFactory.

(** ** The bridge: destroying a session *)

Section BridgeDestroy.

Lemma bind_eq {A B : Type} (m : P A) (f : A -> P B) (p p1 p2 : process)
  (a : A) (b : B) (l1 l2 : list action) :
  m p = Some (a, p1, l1) ->
  f a p1 = Some (b, p2, l2) ->
  (m ≫= f) p = Some (b, p2, l1 ++ l2).
Proof. intros E1 E2. unfold mbind, P_bind. rewrite E1, E2. reflexivity. Qed.

Lemma erase_message_handler_eq (h : addr) (p : process) :
  Bridge.erase_message_handler h p =
    Some (tt,
          match g_message_handlers p !! h with
          | Some o =>
              set_g_message_handlers (delete h (g_message_handlers p))
                (set_message_handlers (delete o (message_handlers p)) p)
          | None => p
          end,
          match g_message_handlers p !! h with
          | Some o => [delete_message_handler o]
          | None => []
          end).
Proof.
  unfold Bridge.erase_message_handler, mbind, P_bind, pgets.
  destruct (g_message_handlers p !! h); reflexivity.
Qed.

Lemma erase_session_handler_eq (h : addr) (p : process) :
  Bridge.erase_session_handler h p =
    Some (tt,
          match g_session_handlers p !! h with
          | Some o =>
              set_g_session_handlers (delete h (g_session_handlers p))
                (set_session_handlers (delete o (session_handlers p)) p)
          | None => p
          end,
          match g_session_handlers p !! h with
          | Some o => [delete_session_handler o]
          | None => []
          end).
Proof.
  unfold Bridge.erase_session_handler, mbind, P_bind, pgets.
  destruct (g_session_handlers p !! h); reflexivity.
Qed.

(** The destructor of a session that has no native client deletes it and
    does nothing else. *)
Lemma destroySession_stopped (s : addr) (p : process) (impl : Session.Impl) :
  sessions p !! s = Some impl ->
  Session.client impl = None ->
  APIFactory.destroySession s p =
    Some (tt, set_sessions (delete s (sessions p)) p, [delete_session s]).
Proof.
  intros E Hc. unfold APIFactory.destroySession, mbind, P_bind.
  rewrite (on_session_eq _ _ _ _ E), (stop_without_client impl Hc).
  cbn. rewrite delete_insert_eq. reflexivity.
Qed.


(** What [mqtt_destroy_session] does on a live handle, step by step. *)
Lemma destroy_session_eq (p : process) (h s : addr) (r : mqtt_session_t)
  (impl : Session.Impl) :
  handles p !! h = Some r ->
  session r = Some s ->
  sessions p !! s = Some impl ->
  exists p' : process,
    Bridge.mqtt_destroy_session (Some h) p =
      Some (tt, p',
            observe p s (Session.trace (Session.stop impl))
            ++ releases p h
            ++ match g_factory p with
               | Some _ => [delete_session s]
               | None => []
               end
            ++ [delete_handle h]) /\
    g_message_handlers p' !! h = None /\
    g_session_handlers p' !! h = None /\
    (forall a : addr,
       g_message_handlers p !! h = Some a -> message_handlers p' !! a = None) /\
    (forall a : addr,
       g_session_handlers p !! h = Some a -> session_handlers p' !! a = None) /\
    handles p' !! h = None /\
    match sessions p' !! s with
    | Some impl' => g_factory p = None /\ Session.client impl' = None
    | None => is_Some (g_factory p)
    end.
Proof.
  intros Eh Es Ei.
  pose proof (stop_leaves_idle impl) as [Hc _].
  pose proof (stop_without_client _ Hc) as Hstop2.
  unfold releases.
  destruct (g_message_handlers p !! h) as [am|] eqn:Em;
  destruct (g_session_handlers p !! h) as [ash|] eqn:Esh;
  destruct (g_factory p) as [fa|] eqn:Ef.
  all: unfold Bridge.mqtt_destroy_session, Bridge.erase_message_handler,
    Bridge.erase_session_handler, APIFactory.destroySession, on_session,
    deref_handle, pgets, pmodify, plog, mbind, P_bind, mret, P_ret.
  all: rewrite Eh, Es, Ei.
  all: repeat (progress
    (cbn -[Session.stop observe Session.after Session.trace Session.result];
     rewrite ?Em, ?Esh, ?Ef, ?lookup_insert_eq, ?Hstop2)).
  all: remember (observe p s (Session.trace (Session.stop impl))) as obs
    eqn:Hobs.
  all: remember (Session.after (Session.stop impl)) as impl1 eqn:Himpl1.
  all: clear Hobs Himpl1 Hstop2.
  all: eexists; split;
    [apply f_equal; apply f_equal2; [reflexivity|];
     rewrite app_nil_r; cbn; reflexivity|].
  all: cbn; rewrite ?lookup_delete_eq, ?lookup_insert_eq.
  all: repeat split; auto; try (intros a [= <-]; apply lookup_delete_eq);
    try discriminate; eauto.
Qed.



End BridgeDestroy.

(** ** The heap the bridge maintains *)

Section Handlers.
Import Session.

Lemma start_keeps_handler (created : Z * addr) (connected : Z) (s : Impl) :
  sessionHandler (after (start created connected s)) = sessionHandler s.
Proof.
  destruct (string_empty (ConnectionConfig.broker (config s))) eqn:E.
  { rewrite start_empty_broker by assumption. reflexivity. }
  destruct (Z.eq_dec (fst created) MQTTCLIENT_SUCCESS) as [Hc|Hc].
  2:{ rewrite start_create_failed by assumption. reflexivity. }
  destruct (Z.eq_dec connected MQTTCLIENT_SUCCESS) as [Hk|Hk].
  - rewrite start_connected by assumption. reflexivity.
  - rewrite start_connect_failed by assumption. reflexivity.
Qed.

Lemma stop_keeps_handler (s : Impl) :
  sessionHandler (after (stop s)) = sessionHandler s.
Proof.
  destruct (client s) as [c|] eqn:E.
  - rewrite (stop_with_client s c E). reflexivity.
  - rewrite (stop_without_client s E). reflexivity.
Qed.

Lemma subscribe_keeps_handler (topic : string) (qos : Message.QoS) (rc : Z)
  (s : Impl) :
  sessionHandler (after (subscribe topic qos rc s)) = sessionHandler s.
Proof.
  destruct (Z.eq_dec rc MQTTCLIENT_SUCCESS) as [Hk|Hk].
  - rewrite subscribe_succeeded by assumption. reflexivity.
  - rewrite subscribe_failed by assumption. reflexivity.
Qed.

Lemma unsubscribe_keeps_handler (handle rc : Z) (s : Impl) :
  sessionHandler (after (unsubscribe handle rc s)) = sessionHandler s.
Proof.
  destruct (subscriptions s !! handle) as [topic|] eqn:E.
  - destruct (Z.eq_dec rc MQTTCLIENT_SUCCESS) as [Hk|Hk].
    + rewrite (unsubscribe_succeeded handle rc topic s E Hk). reflexivity.
    + rewrite (unsubscribe_failed handle rc topic s E Hk). reflexivity.
  - rewrite (unsubscribe_absent handle rc s E). reflexivity.
Qed.

Lemma publish_keeps_handler (topic : string) (payload : list Byte.byte)
  (len : Z) (qos : Message.QoS) (retain : bool) (rc : Z) (s : Impl) :
  sessionHandler (after (publish topic payload len qos retain rc s))
  = sessionHandler s.
Proof. rewrite publish_spec. reflexivity. Qed.

End Handlers.

Section Updates.

Lemma updates_ret {A : Type} (x : A) : updates_one_session (mret x).
Proof. intros p p' a l H. inversion H. left. reflexivity. Qed.

Lemma updates_fmap {A B : Type} (g : A -> B) (m : P A) :
  updates_one_session m -> updates_one_session (g <$> m).
Proof.
  intros Hm p p' b l. unfold fmap, P_fmap.
  destruct (m p) as [[[a p1] l1]|] eqn:E1; [|discriminate].
  intros H. inversion H; subst. apply (Hm _ _ _ _ E1).
Qed.

Lemma updates_then_ret {A B : Type} (m : P A) (g : A -> B) :
  updates_one_session m -> updates_one_session (m ≫= fun a => mret (g a)).
Proof.
  intros Hm p p' b l. unfold mbind, P_bind.
  destruct (m p) as [[[a p1] l1]|] eqn:E1; [|discriminate].
  cbn. intros H. inversion H; subst. apply (Hm _ _ _ _ E1).
Qed.

Lemma updates_on_session {A : Type} (s : addr) (m : Session.M A) :
  (forall impl,
     Session.sessionHandler (Session.after (m impl))
     = Session.sessionHandler impl) ->
  updates_one_session (on_session s m).
Proof.
  intros Hm p p' a l. unfold on_session.
  destruct (sessions p !! s) as [impl|] eqn:E; [|discriminate].
  intros H. inversion H; subst. right.
  exists s, impl, (Session.after (m impl)). split; [exact E|].
  split; [apply Hm|reflexivity].
Qed.

Lemma updates_checked {A : Type} (h : option addr) (invalid : A)
  (body : addr -> P A) :
  (forall s, updates_one_session (body s)) ->
  updates_one_session (Bridge.checked h invalid body).
Proof.
  intros Hb. unfold Bridge.checked. destruct h as [h|]; [|apply updates_ret].
  intros p p' a l. unfold mbind, P_bind, deref_handle.
  destruct (handles p !! h) as [r|]; [|discriminate].
  destruct (session r) as [s|].
  - destruct (body s p) as [[[b p2] l2]|] eqn:E2; [|discriminate].
    intros H. inversion H; subst. apply (Hb s _ _ _ _ E2).
  - cbn. intros H. inversion H. left. reflexivity.
Qed.

End Updates.

Section WellFormed.

(** Well-formedness depends on the four maps of the heap and on [brk]. *)
Lemma well_formed_ext (p p' : process) :
  well_formed p ->
  handles p' = handles p ->
  sessions p' = sessions p ->
  session_handlers p' = session_handlers p ->
  g_session_handlers p' = g_session_handlers p ->
  (brk p <= brk p')%positive ->
  well_formed p'.
Proof.
  intros [W1 W2 W3 W4 W5 W6 W7] Eh Es Ea Eg Hb.
  constructor; rewrite ?Eh, ?Es, ?Ea, ?Eg.
  - exact W1.
  - exact W2.
  - exact W3.
  - intros h Hh. specialize (W4 h Hh). lia.
  - intros s Hs. specialize (W5 s Hs). lia.
  - intros a Ha. specialize (W6 a Ha). lia.
  - intros h a Ha. destruct (W7 h a Ha). split; lia.
Qed.

Lemma well_formed_update_session (p : process) (s : addr)
  (impl impl' : Session.Impl) :
  well_formed p ->
  sessions p !! s = Some impl ->
  Session.sessionHandler impl' = Session.sessionHandler impl ->
  well_formed (set_sessions (<[s := impl']> (sessions p)) p).
Proof.
  intros [W1 W2 W3 W4 W5 W6 W7] Es Hh.
  constructor; cbn.
  - intros h r Hr. destruct (W1 h r Hr) as (s0 & impl0 & a & H1 & H2 & H3 & H4 & H5).
    destruct (decide (s0 = s)) as [->|Hne].
    + exists s, impl', a. rewrite lookup_insert_eq.
      repeat split; try assumption. congruence.
    + exists s0, impl0, a. rewrite lookup_insert_ne by congruence.
      repeat split; assumption.
  - exact W2.
  - exact W3.
  - exact W4.
  - intros s0 Hs0. destruct (decide (s0 = s)) as [->|Hne].
    + apply W5. eauto.
    + rewrite lookup_insert_ne in Hs0 by congruence. apply W5, Hs0.
  - exact W6.
  - exact W7.
Qed.

Lemma well_formed_updates {A : Type} (m : P A) (p p' : process) (a : A)
  (l : list action) :
  updates_one_session m ->
  well_formed p ->
  m p = Some (a, p', l) ->
  well_formed p'.
Proof.
  intros Hm Hp Hrun.
  destruct (Hm p p' a l Hrun) as [->|(s & impl & impl' & Es & Hh & ->)].
  - exact Hp.
  - apply (well_formed_update_session p s impl impl' Hp Es Hh).
Qed.

Lemma well_formed_start : well_formed process_start.
Proof.
  constructor; cbn; intros *; rewrite ?lookup_empty;
    try discriminate; try (intros [? ?]; discriminate).
Qed.

Lemma well_formed_initialize (n v : option string) (d : Z)
  (f : option string) (p p' : process) (x : Z) (l : list action) :
  well_formed p ->
  Bridge.mqtt_initialize n v d f p = Some (x, p', l) ->
  well_formed p'.
Proof.
  intros Hp. unfold Bridge.mqtt_initialize, APIFactory.getInstance,
    APIFactory.initialize, alloc, pgets, pmodify, mbind, P_bind, mret, P_ret.
  destruct (g_factory p); cbn.
  { intros H. inversion H; subst. exact Hp. }
  destruct (instance_ p); cbn; intros H; inversion H; subst;
    apply (well_formed_ext p _ Hp); cbn; try reflexivity; lia.
Qed.

Lemma well_formed_uninitialize (p p' : process) (x : Z) (l : list action) :
  well_formed p ->
  Bridge.mqtt_uninitialize p = Some (x, p', l) ->
  well_formed p'.
Proof.
  intros Hp. unfold Bridge.mqtt_uninitialize, APIFactory.uninitialize,
    pgets, pmodify, mbind, P_bind, mret, P_ret.
  destruct (g_factory p); cbn.
  2:{ intros H. inversion H; subst. exact Hp. }
  destruct (_ && _); cbn; intros H; inversion H; subst;
    apply (well_formed_ext p _ Hp); cbn; try reflexivity; lia.
Qed.

End WellFormed.

Section CreateDestroy.

Lemma create_session_frame (client_id : option string)
  (mcb scb ecb ctx : option addr) (p p' : process) (res : option addr)
  (l : list action) :
  well_formed p ->
  Bridge.mqtt_create_session client_id mcb scb ecb ctx p = Some (res, p', l) ->
  res = None /\ p' = p \/
  exists impl : Session.Impl,
    let a := brk p in
    let s := Pos.succ a in
    let h := Pos.succ s in
    res = Some h /\
    handles p' = <[h := mk_mqtt_session_t (Some s) mcb scb ecb ctx]> (handles p) /\
    sessions p' = <[s := impl]> (sessions p) /\
    Session.sessionHandler impl = Some a /\
    session_handlers p'
      = <[a := mkSessionCallbackHandler scb ecb ctx]> (session_handlers p) /\
    g_session_handlers p' = <[h := a]> (g_session_handlers p) /\
    (h < brk p')%positive.
Proof.
  intros Hp.
  assert (Hfresh : g_session_handlers p !! Pos.succ (Pos.succ (brk p)) = None).
  { destruct (g_session_handlers p !! Pos.succ (Pos.succ (brk p))) as [a|] eqn:E;
      [|reflexivity].
    destruct (wf_registry_below p Hp _ _ E). lia. }
  destruct (g_message_handlers p !! Pos.succ (Pos.succ (brk p))) as [om|] eqn:Em;
  destruct (g_factory p) as [f|] eqn:Ef;
  destruct client_id as [cid|];
  destruct mcb as [mcb|].
  all: unfold Bridge.mqtt_create_session, APIFactory.createSession,
    Bridge.store_message_handler, Bridge.store_session_handler, on_session,
    alloc, undefined, pgets, pmodify, plog, mbind, P_bind, mret, P_ret.
  all: repeat (progress (cbn; rewrite ?Ef, ?Em, ?Hfresh, ?lookup_insert_eq)).
  all: try discriminate.
  all: intros H; inversion H; subst.
  all: try (left; split; reflexivity).
  all: right; eexists; cbn.
  all: (split; [reflexivity|]); (split; [reflexivity|]).
  all: (split; [try apply insert_insert_eq; reflexivity|]).
  all: (split; [reflexivity|]); (split; [reflexivity|]);
    (split; [reflexivity|]); lia.
Qed.

Lemma destroy_session_frame (p : process) (h s : addr) (r : mqtt_session_t)
  (impl : Session.Impl) :
  handles p !! h = Some r ->
  session r = Some s ->
  sessions p !! s = Some impl ->
  exists (p' : process) (l : list action),
    Bridge.mqtt_destroy_session (Some h) p = Some (tt, p', l) /\
    handles p' = delete h (handles p) /\
    sessions p' =
      match g_factory p with
      | Some _ => delete s (sessions p)
      | None => <[s := Session.after (Session.stop impl)]> (sessions p)
      end /\
    session_handlers p' =
      match g_session_handlers p !! h with
      | Some a => delete a (session_handlers p)
      | None => session_handlers p
      end /\
    g_session_handlers p' = delete h (g_session_handlers p) /\
    brk p' = brk p.
Proof.
  intros Eh Es Ei.
  pose proof (stop_leaves_idle impl) as [Hc _].
  pose proof (stop_without_client _ Hc) as Hstop2.
  destruct (g_message_handlers p !! h) as [am|] eqn:Em;
  destruct (g_session_handlers p !! h) as [ash|] eqn:Esh;
  destruct (g_factory p) as [fa|] eqn:Ef.
  all: unfold Bridge.mqtt_destroy_session, Bridge.erase_message_handler,
    Bridge.erase_session_handler, APIFactory.destroySession, on_session,
    deref_handle, pgets, pmodify, plog, mbind, P_bind, mret, P_ret.
  all: rewrite Eh, Es, Ei.
  all: repeat (progress
    (cbn -[Session.stop observe Session.after Session.trace Session.result];
     rewrite ?Em, ?Esh, ?Ef, ?lookup_insert_eq, ?Hstop2)).
  all: remember (observe p s (Session.trace (Session.stop impl))) as obs
    eqn:Hobs.
  all: remember (Session.after (Session.stop impl)) as impl1 eqn:Himpl1.
  all: clear Hobs Himpl1 Hstop2.
  all: eexists; eexists; split; [reflexivity|].
  all: cbn; rewrite ?delete_insert_eq.
  all: repeat split; try reflexivity.
  all: symmetry; apply delete_id; assumption.
Qed.

Lemma well_formed_destroy (h : option addr) (p p' : process) (x : unit)
  (l : list action) :
  well_formed p ->
  Bridge.mqtt_destroy_session h p = Some (x, p', l) ->
  well_formed p'.
Proof.
  intros Hp Hrun. destruct h as [h|].
  2:{ cbn in Hrun. inversion Hrun; subst. exact Hp. }
  destruct (handles p !! h) as [r|] eqn:Eh.
  2:{ unfold Bridge.mqtt_destroy_session, mbind, P_bind, deref_handle in Hrun.
      rewrite Eh in Hrun. discriminate. }
  destruct (wf_handle p Hp h r Eh) as (s & impl & a & Es & Ei & Ha & Eg & Hlive).
  destruct (destroy_session_frame p h s r impl Eh Es Ei)
    as (p1 & l1 & Hrun1 & Fh & Fs & Fa & Fg & Fb).
  rewrite Hrun in Hrun1. inversion Hrun1; subst p1 l1. clear Hrun1.
  rewrite Eg in Fa.
  destruct Hp as [W1 W2 W3 W4 W5 W6 W7].
  assert (Hsess : forall (s0 : addr) (i0 : Session.Impl),
            s0 <> s -> sessions p !! s0 = Some i0 ->
            sessions p' !! s0 = Some i0).
  { intros s0 i0 Hne E0. rewrite Fs. destruct (g_factory p).
    - rewrite lookup_delete_ne by congruence. exact E0.
    - rewrite lookup_insert_ne by congruence. exact E0. }
  assert (Hsub : forall s0 : addr,
            is_Some (sessions p' !! s0) -> is_Some (sessions p !! s0)).
  { intros s0. rewrite Fs. destruct (g_factory p).
    - destruct (decide (s0 = s)) as [->|Hne].
      + rewrite lookup_delete_eq. intros [? ?]. discriminate.
      + rewrite lookup_delete_ne by congruence. tauto.
    - destruct (decide (s0 = s)) as [->|Hne].
      + intros _. eauto.
      + rewrite lookup_insert_ne by congruence. tauto. }
  constructor; rewrite ?Fh, ?Fa, ?Fg, ?Fb.
  - intros h0 r0 Hr0.
    destruct (decide (h0 = h)) as [->|Hne];
      [rewrite lookup_delete_eq in Hr0; discriminate|].
    rewrite lookup_delete_ne in Hr0 by congruence.
    destruct (W1 h0 r0 Hr0) as (s0 & i0 & a0 & Q1 & Q2 & Q3 & Q4 & Q5).
    exists s0, i0, a0. split; [exact Q1|]. split.
    { apply Hsess; [|exact Q2]. intros ->.
      apply Hne. apply (W2 h0 h r0 r s Hr0 Eh Q1 Es). }
    split; [exact Q3|]. split.
    { rewrite lookup_delete_ne by congruence. exact Q4. }
    rewrite lookup_delete_ne; [exact Q5|].
    intros ->. apply Hne. apply (W3 h0 h a0 Q4 Eg).
  - intros h0 h1 r0 r1 s0 Q0 Q1.
    destruct (decide (h0 = h)) as [->|Hne0];
      [rewrite lookup_delete_eq in Q0; discriminate|].
    destruct (decide (h1 = h)) as [->|Hne1];
      [rewrite lookup_delete_eq in Q1; discriminate|].
    rewrite lookup_delete_ne in Q0 by congruence.
    rewrite lookup_delete_ne in Q1 by congruence.
    apply (W2 h0 h1 r0 r1 s0 Q0 Q1).
  - intros h0 h1 a0 Q0 Q1.
    destruct (decide (h0 = h)) as [->|Hne0];
      [rewrite lookup_delete_eq in Q0; discriminate|].
    destruct (decide (h1 = h)) as [->|Hne1];
      [rewrite lookup_delete_eq in Q1; discriminate|].
    rewrite lookup_delete_ne in Q0 by congruence.
    rewrite lookup_delete_ne in Q1 by congruence.
    apply (W3 h0 h1 a0 Q0 Q1).
  - intros h0 [r0 Q0]. apply W4.
    destruct (decide (h0 = h)) as [->|Hne0];
      [rewrite lookup_delete_eq in Q0; discriminate|].
    rewrite lookup_delete_ne in Q0 by congruence. eauto.
  - intros s0 Hs0. apply W5, Hsub, Hs0.
  - intros a0 [x0 Q0]. apply W6.
    destruct (decide (a0 = a)) as [->|Hne0];
      [rewrite lookup_delete_eq in Q0; discriminate|].
    rewrite lookup_delete_ne in Q0 by congruence. eauto.
  - intros h0 a0 Q0.
    destruct (decide (h0 = h)) as [->|Hne0];
      [rewrite lookup_delete_eq in Q0; discriminate|].
    rewrite lookup_delete_ne in Q0 by congruence. apply (W7 h0 a0 Q0).
Qed.

Lemma well_formed_create (client_id : option string)
  (mcb scb ecb ctx : option addr) (p p' : process) (res : option addr)
  (l : list action) :
  well_formed p ->
  Bridge.mqtt_create_session client_id mcb scb ecb ctx p = Some (res, p', l) ->
  well_formed p'.
Proof.
  intros Hp Hrun.
  destruct (create_session_frame _ _ _ _ _ _ _ _ _ Hp Hrun)
    as [[_ ->]|(impl & Hres & Fh & Fs & Hh & Fa & Fg & Fb)]; [exact Hp|].
  cbn zeta in *.
  set (a := brk p) in *. set (s := Pos.succ a) in *. set (h := Pos.succ s) in *.
  destruct Hp as [W1 W2 W3 W4 W5 W6 W7].
  assert (Hh_new : handles p !! h = None).
  { destruct (handles p !! h) eqn:E; [|reflexivity].
    assert (h < brk p)%positive by (apply W4; eauto). lia. }
  assert (Hs_new : sessions p !! s = None).
  { destruct (sessions p !! s) eqn:E; [|reflexivity].
    assert (s < brk p)%positive by (apply W5; eauto). lia. }
  assert (Ha_new : session_handlers p !! a = None).
  { destruct (session_handlers p !! a) eqn:E; [|reflexivity].
    assert (a < brk p)%positive by (apply W6; eauto). lia. }
  constructor; rewrite ?Fh, ?Fs, ?Fa, ?Fg.
  - intros h0 r0 Hr0. destruct (decide (h0 = h)) as [->|Hne].
    + rewrite lookup_insert_eq in Hr0. inversion Hr0; subst r0.
      exists s, impl, a. cbn. rewrite !lookup_insert_eq.
      repeat split; try assumption; eauto.
    + rewrite lookup_insert_ne in Hr0 by congruence.
      destruct (W1 h0 r0 Hr0) as (s0 & i0 & a0 & Q1 & Q2 & Q3 & Q4 & Q5).
      exists s0, i0, a0. split; [exact Q1|].
      split; [rewrite lookup_insert_ne; [exact Q2|congruence]|].
      split; [exact Q3|].
      split; [rewrite lookup_insert_ne; [exact Q4|congruence]|].
      rewrite lookup_insert_ne; [exact Q5|].
      intros <-. rewrite Ha_new in Q5. destruct Q5; discriminate.
  - intros h0 h1 r0 r1 s0 Q0 Q1 E0 E1.
    destruct (decide (h0 = h)) as [->|Hne0];
    destruct (decide (h1 = h)) as [->|Hne1]; try reflexivity.
    + rewrite lookup_insert_eq in Q0. inversion Q0; subst r0. cbn in E0.
      inversion E0; subst s0.
      rewrite lookup_insert_ne in Q1 by congruence.
      destruct (W1 h1 r1 Q1) as (s1 & i1 & _ & Q2 & Q3 & _).
      rewrite E1 in Q2. inversion Q2; subst s1. congruence.
    + rewrite lookup_insert_eq in Q1. inversion Q1; subst r1. cbn in E1.
      inversion E1; subst s0.
      rewrite lookup_insert_ne in Q0 by congruence.
      destruct (W1 h0 r0 Q0) as (s1 & i1 & _ & Q2 & Q3 & _).
      rewrite E0 in Q2. inversion Q2; subst s1. congruence.
    + rewrite lookup_insert_ne in Q0 by congruence.
      rewrite lookup_insert_ne in Q1 by congruence.
      apply (W2 h0 h1 r0 r1 s0 Q0 Q1 E0 E1).
  - intros h0 h1 a0 Q0 Q1.
    destruct (decide (h0 = h)) as [->|Hne0];
    destruct (decide (h1 = h)) as [->|Hne1]; try reflexivity.
    + rewrite lookup_insert_eq in Q0. inversion Q0; subst a0.
      rewrite lookup_insert_ne in Q1 by congruence.
      destruct (W7 h1 a Q1). lia.
    + rewrite lookup_insert_eq in Q1. inversion Q1; subst a0.
      rewrite lookup_insert_ne in Q0 by congruence.
      destruct (W7 h0 a Q0). lia.
    + rewrite lookup_insert_ne in Q0 by congruence.
      rewrite lookup_insert_ne in Q1 by congruence.
      apply (W3 h0 h1 a0 Q0 Q1).
  - intros h0 [r0 Q0]. destruct (decide (h0 = h)) as [->|Hne]; [exact Fb|].
    rewrite lookup_insert_ne in Q0 by congruence.
    assert (h0 < brk p)%positive by (apply W4; eauto). lia.
  - intros s0 [i0 Q0]. destruct (decide (s0 = s)) as [->|Hne]; [lia|].
    rewrite lookup_insert_ne in Q0 by congruence.
    assert (s0 < brk p)%positive by (apply W5; eauto). lia.
  - intros a0 [x0 Q0]. destruct (decide (a0 = a)) as [->|Hne]; [lia|].
    rewrite lookup_insert_ne in Q0 by congruence.
    assert (a0 < brk p)%positive by (apply W6; eauto). lia.
  - intros h0 a0 Q0. destruct (decide (h0 = h)) as [->|Hne].
    + rewrite lookup_insert_eq in Q0. inversion Q0; subst a0. lia.
    + rewrite lookup_insert_ne in Q0 by congruence.
      destruct (W7 h0 a0 Q0). lia.
Qed.

End CreateDestroy.

Section Reachable.

Lemma fmap_Some {A B : Type} (g : A -> B) (m : P A) (p p' : process) (b : B)
  (l : list action) :
  (g <$> m) p = Some (b, p', l) ->
  exists a : A, m p = Some (a, p', l) /\ b = g a.
Proof.
  unfold fmap, P_fmap. destruct (m p) as [[[a p1] l1]|]; [|discriminate].
  intros H. inversion H; subst. exists a. split; reflexivity.
Qed.

Lemma with_config_updates (h : option addr)
  (f : ConnectionConfig.Impl -> ConnectionConfig.Impl) :
  updates_one_session
    (Bridge.checked h (-1)
       (fun s => on_session s (Session.with_config f);; mret 0)).
Proof.
  apply updates_checked. intros s.
  apply (updates_then_ret _ (fun _ => 0)).
  apply updates_on_session. intros impl. reflexivity.
Qed.

Lemma step_well_formed (c : Bridge.call) (p p' : process)
  (r : Bridge.returned) (l : list action) :
  well_formed p ->
  Bridge.step c p = Some (r, p', l) ->
  well_formed p'.
Proof.
  intros Hp Hstep. destruct c; cbn [Bridge.step] in Hstep.
  - apply fmap_Some in Hstep as (x & Hrun & _).
    apply (well_formed_updates _ _ _ _ _ (with_config_updates _ _) Hp Hrun).
  - apply fmap_Some in Hstep as (x & Hrun & _).
    apply (well_formed_updates _ _ _ _ _ (with_config_updates _ _) Hp Hrun).
  - apply fmap_Some in Hstep as (x & Hrun & _).
    apply (well_formed_updates _ _ _ _ _ (with_config_updates _ _) Hp Hrun).
  - apply fmap_Some in Hstep as (x & Hrun & _).
    apply (well_formed_updates _ _ _ _ _ (with_config_updates _ _) Hp Hrun).
  - apply fmap_Some in Hstep as (x & Hrun & _).
    apply (well_formed_updates _ _ _ _ _ (with_config_updates _ _) Hp Hrun).
  - apply fmap_Some in Hstep as (x & Hrun & _).
    apply (well_formed_initialize _ _ _ _ _ _ _ _ Hp Hrun).
  - apply fmap_Some in Hstep as (x & Hrun & _).
    apply (well_formed_uninitialize _ _ _ _ Hp Hrun).
  - apply fmap_Some in Hstep as (x & Hrun & _).
    apply (well_formed_create _ _ _ _ _ _ _ _ _ Hp Hrun).
  - unfold mbind, P_bind in Hstep.
    destruct (Bridge.mqtt_destroy_session h p) as [[[x p1] l1]|] eqn:Hrun;
      [|discriminate].
    cbn in Hstep. inversion Hstep; subst.
    apply (well_formed_destroy _ _ _ _ _ Hp Hrun).
  - apply fmap_Some in Hstep as (x & Hrun & _).
    refine (well_formed_updates _ _ _ _ _ _ Hp Hrun).
    apply updates_checked. intros s. apply updates_fmap.
    apply updates_on_session. intros impl. reflexivity.
  - apply fmap_Some in Hstep as (x & Hrun & _).
    refine (well_formed_updates _ _ _ _ _ _ Hp Hrun).
    apply updates_checked. intros s.
    apply (updates_then_ret _ (fun ok : bool => if ok then 0 else -1)).
    apply updates_on_session. intros impl. apply start_keeps_handler.
  - apply fmap_Some in Hstep as (x & Hrun & _).
    refine (well_formed_updates _ _ _ _ _ _ Hp Hrun).
    apply updates_checked. intros s.
    apply (updates_then_ret _ (fun ok : bool => if ok then 0 else -1)).
    apply updates_on_session. intros impl. apply stop_keeps_handler.
  - apply fmap_Some in Hstep as (x & Hrun & _).
    refine (well_formed_updates _ _ _ _ _ _ Hp Hrun).
    apply updates_checked. intros s.
    apply updates_on_session. intros impl. apply subscribe_keeps_handler.
  - apply fmap_Some in Hstep as (x & Hrun & _).
    refine (well_formed_updates _ _ _ _ _ _ Hp Hrun).
    apply updates_checked. intros s.
    apply (updates_then_ret _ (fun ok : bool => if ok then 0 else -1)).
    apply updates_on_session. intros impl. apply unsubscribe_keeps_handler.
  - apply fmap_Some in Hstep as (x & Hrun & _).
    refine (well_formed_updates _ _ _ _ _ _ Hp Hrun).
    apply updates_checked. intros s.
    apply updates_on_session. intros impl. apply publish_keeps_handler.
Qed.


End Reachable.

(** ** Destroying a session, in every reachable process *)

Section Destroy.



End Destroy.

(** * Further properties of the session layer *)

(** ** What start hands to the engine *)

Section Transport.
Import Session.

(** When the broker is set and the client is created, [start] creates one
    client and makes one connect, with the URI and the options built from
    the configuration, whatever the connect answers. *)
Lemma start_engine_view (s : Impl) (created : Z * addr) (connected : Z) :
  string_empty (ConnectionConfig.broker (config s)) = false ->
  fst created = MQTTCLIENT_SUCCESS ->
  created_uris (trace (start created connected s)) = [serverURI_of (config s)]
  /\ connect_options (trace (start created connected s))
     = [conn_opts_of (config s)].
Proof.
  intros E Hc. destruct (Z.eq_dec connected MQTTCLIENT_SUCCESS) as [Hk|Hk].
  - rewrite start_connected by assumption. rewrite report_state_trace.
    destruct (sessionHandler s); split; reflexivity.
  - rewrite start_connect_failed by assumption. rewrite report_error_trace.
    destruct (sessionHandler s); split; reflexivity.
Qed.



(** X2: [start] hands the engine the user name and the password of
    [setCredentials] exactly when the user name is not empty; with a null or
    empty user name it hands over neither, so a password alone is never
    sent. *)
Theorem credentials_need_a_username (s : Impl) (user pass : option string)
  (created : Z * addr) (connected : Z) :
  string_empty (ConnectionConfig.broker (config s)) = false ->
  fst created = MQTTCLIENT_SUCCESS ->
  let s1 := after (with_config (ConnectionConfig.setCredentials user pass) s) in
  let sent :=
    (fun o => (Paho.username o, Paho.password o))
      <$> connect_options (trace (start created connected s1)) in
  (string_empty (or_empty user) = true -> sent = [(None, None)]) /\
  (string_empty (or_empty user) = false ->
   sent = [(Some (or_empty user), Some (or_empty pass))]).
Proof.
  intros E Hc. cbn zeta.
  destruct (start_engine_view
              (after (with_config
                        (ConnectionConfig.setCredentials user pass) s))
              created connected E Hc) as [_ ->].
  cbn. split; intros Hu; rewrite Hu; reflexivity.
Qed.

Lemma credentials_need_a_username_witness :
  string_empty (ConnectionConfig.broker (config scenario)) = false /\
  (fun o => (Paho.username o, Paho.password o))
    <$> connect_options
          (trace (start (0, 2%positive) 0
                    (after (with_config
                              (ConnectionConfig.setCredentials None
                                 (Some "secret")) scenario))))
  = [(None, None)].
Proof.
  split; [reflexivity|].
  pose proof (credentials_need_a_username scenario None (Some "secret")
                (0, 2%positive) 0 eq_refl eq_refl) as [H _].
  exact (H eq_refl).
Defined.

(** X3: setting [CONNECTION_TIMEOUT], [MAX_INFLIGHT] or [MAX_QUEUED_MESSAGES]
    before [start] changes neither what [start] returns nor any native call
    or notification it makes; it commutes with [start]. *)
Theorem unread_parameters_never_reach_the_engine (s : Impl)
  (param : ConnectionConfig.Param) (value : Z) (created : Z * addr)
  (connected : Z) :
  is_unread param = true ->
  let set := with_config (ConnectionConfig.set_int32 param value) in
  let r := start created connected s in
  start created connected (after (set s))
  = (result r, after (set (after r)), trace r).
Proof.
  intros Hp. cbn zeta.
  assert (Hb : ConnectionConfig.broker
                 (config (after (with_config
                                   (ConnectionConfig.set_int32 param value) s)))
               = ConnectionConfig.broker (config s))
    by (destruct param; try discriminate Hp; reflexivity).
  assert (Hu : serverURI_of
                 (config (after (with_config
                                   (ConnectionConfig.set_int32 param value) s)))
               = serverURI_of (config s))
    by (destruct param; try discriminate Hp; reflexivity).
  assert (Ho : conn_opts_of
                 (config (after (with_config
                                   (ConnectionConfig.set_int32 param value) s)))
               = conn_opts_of (config s))
    by (destruct param; try discriminate Hp; reflexivity).
  destruct (string_empty (ConnectionConfig.broker (config s))) eqn:E.
  { rewrite !start_empty_broker by (rewrite ?Hb; assumption). reflexivity. }
  destruct (Z.eq_dec (fst created) MQTTCLIENT_SUCCESS) as [Hc|Hc].
  2:{ rewrite !start_create_failed by (rewrite ?Hb; assumption).
      rewrite Hu, !report_error_trace. reflexivity. }
  destruct (Z.eq_dec connected MQTTCLIENT_SUCCESS) as [Hk|Hk].
  - rewrite !start_connected by (rewrite ?Hb; assumption).
    rewrite Hu, Ho, !report_state_trace. reflexivity.
  - rewrite !start_connect_failed by (rewrite ?Hb; assumption).
    rewrite Hu, Ho, !report_error_trace. reflexivity.
Qed.

Lemma unread_parameters_never_reach_the_engine_witness :
  is_unread ConnectionConfig.CONNECTION_TIMEOUT = true /\
  trace (start (0, 2%positive) 0
           (after (with_config
                     (ConnectionConfig.set_int32
                        ConnectionConfig.CONNECTION_TIMEOUT 5) scenario)))
  = trace (start (0, 2%positive) 0 scenario).
Proof.
  split; [reflexivity|].
  rewrite (unread_parameters_never_reach_the_engine scenario
             ConnectionConfig.CONNECTION_TIMEOUT 5 (0, 2%positive) 0 eq_refl).
  reflexivity.
Defined.

End Transport.

(** ** The life cycle of the native client *)

Section Lifecycle.
Import Session.

(** X4: after a [start] whose connect failed the session is Disconnected but
    still owns the native client it created; the next [stop] disconnects and
    destroys that client, notifies Disconnected once and leaves the session
    without a client. *)
Theorem failed_connect_client_released_by_stop (s : Impl)
  (created : Z * addr) (connected : Z) (h : addr) :
  string_empty (ConnectionConfig.broker (config s)) = false ->
  fst created = MQTTCLIENT_SUCCESS ->
  connected <> MQTTCLIENT_SUCCESS ->
  sessionHandler s = Some h ->
  let s1 := after (start created connected s) in
  currentState s1 = DISCONNECTED /\
  client s1 = Some (snd created) /\
  result (stop s1) = true /\
  trace (stop s1)
    = [MQTTClient_disconnect (Some (snd created)) 10000;
       MQTTClient_destroy (Some (snd created));
       onStateChange h DISCONNECTED] /\
  client (after (stop s1)) = None.
Proof.
  intros E Hc Hk Hh. cbn zeta.
  rewrite start_connect_failed by assumption.
  cbn [after fst snd].
  rewrite (stop_with_client
             (set_currentState DISCONNECTED
                (set_client (Some (snd created)) s)) (snd created) eq_refl).
  rewrite report_state_trace. cbn. rewrite Hh. repeat split.
Qed.

Lemma failed_connect_client_released_by_stop_witness :
  string_empty (ConnectionConfig.broker (config scenario)) = false /\
  sessionHandler scenario = Some 1%positive /\
  trace (stop (after (start (0, 2%positive) 7 scenario)))
  = [MQTTClient_disconnect (Some 2%positive) 10000;
     MQTTClient_destroy (Some 2%positive);
     onStateChange 1%positive DISCONNECTED].
Proof.
  split; [reflexivity|]. split; [reflexivity|].
  pose proof (failed_connect_client_released_by_stop scenario (0, 2%positive) 7
                1%positive eq_refl eq_refl) as H.
  destruct H as (_ & _ & _ & H & _); [discriminate|reflexivity|exact H].
Defined.

Lemma start_no_teardown (s : Impl) (created : Z * addr) (connected : Z) :
  filter (fun e => is_teardown e = true) (trace (start created connected s))
  = [].
Proof.
  destruct (string_empty (ConnectionConfig.broker (config s))) eqn:E.
  { rewrite start_empty_broker by assumption. reflexivity. }
  destruct (Z.eq_dec (fst created) MQTTCLIENT_SUCCESS) as [Hc|Hc].
  2:{ rewrite start_create_failed by assumption. rewrite report_error_trace.
      destruct (sessionHandler s); reflexivity. }
  destruct (Z.eq_dec connected MQTTCLIENT_SUCCESS) as [Hk|Hk].
  - rewrite start_connected by assumption. rewrite report_state_trace.
    destruct (sessionHandler s); reflexivity.
  - rewrite start_connect_failed by assumption. rewrite report_error_trace.
    destruct (sessionHandler s); reflexivity.
Qed.

(** X5: [start] on a session that already owns a native client disconnects and
    destroys nothing: it overwrites the client by the new one, and the
    following [stop] tears down the new client only. *)
Theorem second_start_abandons_the_client (s : Impl) (c0 : addr)
  (created : Z * addr) (connected : Z) :
  client s = Some c0 ->
  string_empty (ConnectionConfig.broker (config s)) = false ->
  fst created = MQTTCLIENT_SUCCESS ->
  let r := start created connected s in
  filter (fun e => is_teardown e = true) (trace r) = [] /\
  client (after r) = Some (snd created) /\
  filter (fun e => is_teardown e = true) (trace (stop (after r)))
    = [MQTTClient_disconnect (Some (snd created)) 10000;
       MQTTClient_destroy (Some (snd created))] /\
  client (after (stop (after r))) = None.
Proof.
  intros _ E Hc. cbn zeta. split; [apply start_no_teardown|].
  assert (Hclient : client (after (start created connected s))
                    = Some (snd created)).
  { destruct (Z.eq_dec connected MQTTCLIENT_SUCCESS) as [Hk|Hk].
    - rewrite start_connected by assumption. reflexivity.
    - rewrite start_connect_failed by assumption. reflexivity. }
  split; [exact Hclient|].
  rewrite (stop_with_client _ (snd created) Hclient), report_state_trace.
  split; [|reflexivity].
  destruct (sessionHandler (after (start created connected s))); reflexivity.
Qed.

Lemma second_start_abandons_the_client_witness :
  let s := after (start (0, 2%positive) 0 scenario) in
  client s = Some 2%positive /\
  string_empty (ConnectionConfig.broker (config s)) = false /\
  destroyed (trace (start (0, 3%positive) 0 s)) = [] /\
  filter (fun e => is_teardown e = true)
    (trace (stop (after (start (0, 3%positive) 0 s))))
  = [MQTTClient_disconnect (Some 3%positive) 10000;
     MQTTClient_destroy (Some 3%positive)].
Proof.
  cbn zeta. split; [reflexivity|]. split; [reflexivity|].
  split; [reflexivity|].
  pose proof (second_start_abandons_the_client
                (after (start (0, 2%positive) 0 scenario)) 2%positive
                (0, 3%positive) 0 eq_refl eq_refl eq_refl) as (_ & _ & H & _).
  exact H.
Defined.

(** What an input other than [start], [stop] and the connection-lost
    callback leaves alone. *)
Lemma step_not_lifecycle (i : Calls.input) (s : Impl) :
  is_lifecycle i = false ->
  client (after (Calls.step i s)) = client s /\
  currentState (after (Calls.step i s)) = currentState s /\
  state_changes (trace (Calls.step i s)) = [] /\
  filter (fun e => is_teardown e = true) (trace (Calls.step i s)) = [].
Proof.
  intros Hi.
  destruct i as [created connected| |topic qos rc|handle rc
                |topic payload len qos retain rc| |f|h|h|cause|tn tl m];
    try discriminate Hi.
  - unfold Calls.step, fmap, M_fmap. cbn zeta.
    destruct (Z.eq_dec rc MQTTCLIENT_SUCCESS) as [Hk|Hk].
    + rewrite subscribe_succeeded by assumption. repeat split.
    + rewrite subscribe_failed by assumption. rewrite report_error_trace.
      destruct (sessionHandler s); repeat split.
  - unfold Calls.step, fmap, M_fmap. cbn zeta.
    destruct (subscriptions s !! handle) as [topic|] eqn:E.
    + destruct (Z.eq_dec rc MQTTCLIENT_SUCCESS) as [Hk|Hk].
      * rewrite (unsubscribe_succeeded handle rc topic s E Hk). repeat split.
      * rewrite (unsubscribe_failed handle rc topic s E Hk).
        rewrite report_error_trace. destruct (sessionHandler s); repeat split.
    + rewrite (unsubscribe_absent handle rc s E). repeat split.
  - unfold Calls.step, fmap, M_fmap. cbn zeta. rewrite publish_spec.
    destruct (rc =? MQTTCLIENT_SUCCESS), (sessionHandler s); repeat split.
  - repeat split.
  - repeat split.
  - repeat split.
  - repeat split.
  - unfold Calls.step, onMessageCallback, fmap, M_fmap, mbind, M_bind, gets.
    simpl. destruct (client s) eqn:Ec; unfold after, trace; simpl;
      [|rewrite Ec; repeat split].
    destruct (msgHandler s); simpl; rewrite Ec; repeat split.
Qed.

Lemma run_cons_trace (i : Calls.input) (inputs : list Calls.input) (s : Impl) :
  trace (Calls.run (i :: inputs) s) =
    trace (Calls.step i s) ++ trace (Calls.run inputs (after (Calls.step i s))).
Proof.
  cbn [Calls.run]. unfold mbind, M_bind, trace. cbn [fst snd].
  unfold mret, M_ret. cbn [fst snd]. rewrite app_nil_r. reflexivity.
Qed.

(** X6: a sequence of calls that contains no [start], no [stop] and no
    connection-lost callback leaves the native client and the state of the
    session as they were, notifies no state change and tears down no
    connection, whatever the engine answers. *)
Theorem only_lifecycle_inputs_move_the_state (inputs : list Calls.input)
  (s : Impl) :
  Forall (fun i => is_lifecycle i = false) inputs ->
  let r := Calls.run inputs s in
  client (after r) = client s /\
  currentState (after r) = currentState s /\
  state_changes (trace r) = [] /\
  filter (fun e => is_teardown e = true) (trace r) = [].
Proof.
  cbn zeta. intros Hall. revert s.
  induction Hall as [|i inputs Hi Hall IH]; intros s.
  - repeat split.
  - destruct (run_cons i inputs s) as [_ ->]. rewrite run_cons_trace.
    destruct (step_not_lifecycle i s Hi) as (Hc & Hs & Hn & Ht).
    destruct (IH (after (Calls.step i s))) as (Hc' & Hs' & Hn' & Ht').
    split; [congruence|]. split; [congruence|].
    split.
    + unfold state_changes in *. rewrite omap_app, Hn, Hn'. reflexivity.
    + rewrite filter_app, Ht, Ht'. reflexivity.
Qed.

Lemma only_lifecycle_inputs_move_the_state_witness :
  let s := after (start (0, 2%positive) 0 scenario) in
  let inputs :=
    [Calls.publish "t/1" [] 0 Message.AT_LEAST_ONCE false 9;
     Calls.subscribe "t/2" Message.AT_MOST_ONCE 0;
     Calls.unsubscribe 1 3] in
  Forall (fun i => is_lifecycle i = false) inputs /\
  currentState (after (Calls.run inputs s)) = CONNECTED /\
  client (after (Calls.run inputs s)) = Some 2%positive.
Proof.
  cbn zeta.
  assert (Hall : Forall (fun i => is_lifecycle i = false)
                   [Calls.publish "t/1" [] 0 Message.AT_LEAST_ONCE false 9;
                    Calls.subscribe "t/2" Message.AT_MOST_ONCE 0;
                    Calls.unsubscribe 1 3])
    by (repeat constructor).
  split; [exact Hall|].
  pose proof (only_lifecycle_inputs_move_the_state _
                (after (start (0, 2%positive) 0 scenario)) Hall)
    as (Hc & Hs & _).
  split; [rewrite Hs; reflexivity|rewrite Hc; reflexivity].
Defined.



End Lifecycle.

(** ** The subscription table *)

Section Table.
Import Session.

(** What one input does to the subscription table and the handle counter. *)
Lemma step_table (i : Calls.input) (s : Impl) :
  let r := Calls.step i s in
  subscriptions (after r) = subscriptions s /\
  nextSubHandle (after r) = nextSubHandle s
  \/
  (exists (topic : string) (qos : Message.QoS),
     i = Calls.subscribe topic qos MQTTCLIENT_SUCCESS /\
     result r = Calls.returned_int (nextSubHandle s) /\
     subscriptions (after r) = <[nextSubHandle s := topic]> (subscriptions s) /\
     nextSubHandle (after r) = to_int64 (nextSubHandle s + 1))
  \/
  (exists handle rc : Z,
     i = Calls.unsubscribe handle rc /\
     subscriptions (after r) = delete handle (subscriptions s) /\
     nextSubHandle (after r) = nextSubHandle s).
Proof.
  destruct i as [created connected| |topic qos rc|handle rc
                |topic payload len qos retain rc| |f|h|h|cause|tn tl m];
    cbn zeta.
  - left. unfold Calls.step, fmap, M_fmap. cbn zeta.
    destruct (string_empty (ConnectionConfig.broker (config s))) eqn:E.
    { rewrite start_empty_broker by assumption. split; reflexivity. }
    destruct (Z.eq_dec (fst created) MQTTCLIENT_SUCCESS) as [Hc|Hc].
    2:{ rewrite start_create_failed by assumption. split; reflexivity. }
    destruct (Z.eq_dec connected MQTTCLIENT_SUCCESS) as [Hk|Hk].
    + rewrite start_connected by assumption. split; reflexivity.
    + rewrite start_connect_failed by assumption. split; reflexivity.
  - left. unfold Calls.step, fmap, M_fmap. cbn zeta.
    destruct (client s) as [c|] eqn:E.
    + rewrite (stop_with_client s c E). split; reflexivity.
    + rewrite (stop_without_client s E). split; reflexivity.
  - unfold Calls.step, fmap, M_fmap. cbn zeta.
    destruct (Z.eq_dec rc MQTTCLIENT_SUCCESS) as [Hk|Hk].
    + right. left. exists topic, qos. subst rc.
      rewrite subscribe_succeeded by reflexivity. repeat split.
    + left. rewrite subscribe_failed by assumption. split; reflexivity.
  - unfold Calls.step, fmap, M_fmap. cbn zeta.
    destruct (subscriptions s !! handle) as [topic|] eqn:E.
    + destruct (Z.eq_dec rc MQTTCLIENT_SUCCESS) as [Hk|Hk].
      * right. right. exists handle, rc.
        rewrite (unsubscribe_succeeded handle rc topic s E Hk). repeat split.
      * left. rewrite (unsubscribe_failed handle rc topic s E Hk).
        split; reflexivity.
    + left. rewrite (unsubscribe_absent handle rc s E). split; reflexivity.
  - left. unfold Calls.step, fmap, M_fmap. cbn zeta. rewrite publish_spec.
    split; reflexivity.
  - left. split; reflexivity.
  - left. split; reflexivity.
  - left. split; reflexivity.
  - left. split; reflexivity.
  - left. unfold Calls.step, onConnectionLost, mbind, M_bind, gets, modify.
    simpl. destruct (client s); simpl; [|split; reflexivity].
    destruct (sessionHandler s); split; reflexivity.
  - left. unfold Calls.step, onMessageCallback, fmap, M_fmap, mbind, M_bind,
      gets. simpl. destruct (client s); simpl; [|split; reflexivity].
    destruct (msgHandler s); split; reflexivity.
Qed.

(** Every entry of the table after a run was in it before or was recorded by
    a successful [subscribe] of the run that returned its key. *)
Lemma run_table_provenance (inputs : list Calls.input) (s : Impl) (k : Z)
  (topic : string) :
  subscriptions (after (Calls.run inputs s)) !! k = Some topic ->
  subscriptions s !! k = Some topic \/
  exists qos : Message.QoS,
    (Calls.subscribe topic qos MQTTCLIENT_SUCCESS, Calls.returned_int k)
      ∈ result (Calls.run inputs s).
Proof.
  revert s. induction inputs as [|i inputs IH]; intros s Hk; [left; exact Hk|].
  destruct (run_cons i inputs s) as [Hres Haft]. rewrite Haft in Hk.
  rewrite Hres.
  destruct (IH _ Hk) as [Hin|(qos & Hin)].
  2:{ right. exists qos. apply elem_of_cons. right. exact Hin. }
  destruct (step_table i s) as [[E _]|[(t & q & -> & Hr & E & _)
                                      |(handle & rc & _ & E & _)]];
    cbn zeta in *; rewrite E in Hin.
  - left. exact Hin.
  - destruct (decide (k = nextSubHandle s)) as [->|Hne].
    + rewrite lookup_insert_eq in Hin. inversion Hin; subst t.
      right. exists q. apply elem_of_cons. left. rewrite Hr. reflexivity.
    + rewrite lookup_insert_ne in Hin by congruence. left. exact Hin.
  - destruct (decide (k = handle)) as [->|Hne].
    + rewrite lookup_delete_eq in Hin. discriminate.
    + rewrite lookup_delete_ne in Hin by congruence. left. exact Hin.
Qed.

(** X8: along every sequence of calls on a new session, a handle of the
    subscription table maps to the topic of a [subscribe] call of the
    sequence that succeeded and returned that handle. *)
Theorem table_entries_come_from_subscribe (clientId : string) (handler : addr)
  (inputs : list Calls.input) (k : Z) (topic : string) :
  let r := Calls.run inputs (Session.new clientId handler) in
  subscriptions (after r) !! k = Some topic ->
  exists qos : Message.QoS,
    (Calls.subscribe topic qos MQTTCLIENT_SUCCESS, Calls.returned_int k)
      ∈ result r.
Proof.
  cbn zeta. intros Hk.
  destruct (run_table_provenance inputs _ k topic Hk) as [Hin|Hin];
    [|exact Hin].
  cbn in Hin. rewrite lookup_empty in Hin. discriminate.
Qed.

Lemma table_entries_come_from_subscribe_witness :
  let inputs :=
    [Calls.subscribe "a" Message.AT_MOST_ONCE 0;
     Calls.subscribe "b" Message.EXACTLY_ONCE 0;
     Calls.unsubscribe 1 0] in
  let r := Calls.run inputs (Session.new "client" 1%positive) in
  subscriptions (after r) !! 2 = Some "b" /\
  exists qos : Message.QoS,
    (Calls.subscribe "b" qos MQTTCLIENT_SUCCESS, Calls.returned_int 2)
      ∈ result r.
Proof.
  cbn zeta. split; [reflexivity|].
  exact (table_entries_come_from_subscribe "client" 1%positive
           [Calls.subscribe "a" Message.AT_MOST_ONCE 0;
            Calls.subscribe "b" Message.EXACTLY_ONCE 0;
            Calls.unsubscribe 1 0] 2 "b" eq_refl).
Defined.

(** Along a run that stays in the range of [int64_t], every key of the table
    lies below the handle counter. *)
Lemma run_table_below (inputs : list Calls.input) (s : Impl) :
  1 <= nextSubHandle s ->
  nextSubHandle s + Z.of_nat (length inputs) <= INT64_MAX ->
  (forall k : Z, is_Some (subscriptions s !! k) -> k < nextSubHandle s) ->
  1 <= nextSubHandle (after (Calls.run inputs s)) /\
  nextSubHandle (after (Calls.run inputs s))
    <= nextSubHandle s + Z.of_nat (length inputs) /\
  forall k : Z,
    is_Some (subscriptions (after (Calls.run inputs s)) !! k) ->
    k < nextSubHandle (after (Calls.run inputs s)).
Proof.
  revert s. induction inputs as [|i inputs IH]; intros s Ha HA Hbelow.
  - cbn. split; [exact Ha|]. split; [lia|exact Hbelow].
  - destruct (run_cons i inputs s) as [_ ->]. cbn [length] in *.
    assert (Ea : to_int64 (nextSubHandle s + 1) = nextSubHandle s + 1)
      by (apply to_int64_succ; unfold INT64_MIN; lia).
    destruct (step_table i s) as [[E En]|[(t & q & _ & _ & E & En)
                                        |(handle & rc & _ & E & En)]];
      cbn zeta in *.
    + destruct (IH (after (Calls.step i s))) as (H1 & H2 & H3);
        rewrite ?En, ?E; try assumption; try lia.
      split; [exact H1|]. split; [rewrite En in H2; lia|exact H3].
    + rewrite Ea in En.
      destruct (IH (after (Calls.step i s))) as (H1 & H2 & H3);
        rewrite ?En, ?E; try lia.
      { intros k [x Hk]. destruct (decide (k = nextSubHandle s)) as [->|Hne];
          [lia|].
        rewrite lookup_insert_ne in Hk by congruence.
        assert (k < nextSubHandle s) by (apply Hbelow; eauto). lia. }
      split; [exact H1|]. split; [rewrite En in H2; lia|exact H3].
    + destruct (IH (after (Calls.step i s))) as (H1 & H2 & H3);
        rewrite ?En, ?E; try assumption; try lia.
      { intros k [x Hk]. destruct (decide (k = handle)) as [->|Hne];
          [rewrite lookup_delete_eq in Hk; discriminate|].
        rewrite lookup_delete_ne in Hk by congruence. apply Hbelow. eauto. }
      split; [exact H1|]. split; [rewrite En in H2; lia|exact H3].
Qed.

(** X9: after any sequence of calls on a new session that stays in the range of
    [int64_t], a successful [subscribe] returns a handle that was not in the
    table, and a successful [unsubscribe] of that handle unsubscribes the
    topic from the engine and restores the table; unsubscribing the handle
    again returns false and calls nothing. *)
Theorem subscribe_unsubscribe_round_trip (clientId : string) (handler : addr)
  (inputs : list Calls.input) (topic : string) (qos : Message.QoS) :
  Z.of_nat (length inputs) < INT64_MAX ->
  let s := after (Calls.run inputs (Session.new clientId handler)) in
  let r1 := subscribe topic qos MQTTCLIENT_SUCCESS s in
  let r2 := unsubscribe (result r1) MQTTCLIENT_SUCCESS (after r1) in
  subscriptions s !! result r1 = None /\
  subscriptions (after r1) !! result r1 = Some topic /\
  result r2 = true /\
  trace r2 = [MQTTClient_unsubscribe (client s) topic] /\
  subscriptions (after r2) = subscriptions s /\
  unsubscribe (result r1) MQTTCLIENT_SUCCESS (after r2)
    = (false, after r2, []).
Proof.
  intros Hlen. cbn zeta.
  set (s := after (Calls.run inputs (Session.new clientId handler))).
  destruct (run_table_below inputs (Session.new clientId handler))
    as (_ & _ & Hbelow).
  { cbn. lia. }
  { cbn. lia. }
  { intros k [x Hk]. cbn in Hk. rewrite lookup_empty in Hk. discriminate. }
  fold s in Hbelow.
  assert (Hfresh : subscriptions s !! nextSubHandle s = None).
  { destruct (subscriptions s !! nextSubHandle s) eqn:E; [|reflexivity].
    assert (nextSubHandle s < nextSubHandle s) by (apply Hbelow; eauto). lia. }
  rewrite subscribe_succeeded by reflexivity. cbn [result after fst snd].
  assert (Hlook :
    subscriptions
      (set_subscriptions (<[nextSubHandle s := topic]> (subscriptions s))
         (set_nextSubHandle (to_int64 (nextSubHandle s + 1)) s))
    !! nextSubHandle s = Some topic) by (cbn; apply lookup_insert_eq).
  rewrite (unsubscribe_succeeded _ _ topic _ Hlook eq_refl).
  cbn [result after trace fst snd].
  split; [exact Hfresh|]. split; [exact Hlook|]. split; [reflexivity|].
  split; [reflexivity|].
  assert (Hback :
    delete (nextSubHandle s) (<[nextSubHandle s := topic]> (subscriptions s))
    = subscriptions s)
    by (rewrite delete_insert_eq; apply delete_id; exact Hfresh).
  split.
  - cbn. exact Hback.
  - apply unsubscribe_absent. cbn. rewrite Hback. exact Hfresh.
Qed.

Lemma subscribe_unsubscribe_round_trip_witness :
  let inputs := [Calls.subscribe "a" Message.AT_MOST_ONCE 0] in
  let s := after (Calls.run inputs (Session.new "client" 1%positive)) in
  let r1 := subscribe "b" Message.AT_LEAST_ONCE MQTTCLIENT_SUCCESS s in
  Z.of_nat (length inputs) < INT64_MAX /\
  result r1 = 2 /\
  subscriptions
    (after (unsubscribe (result r1) MQTTCLIENT_SUCCESS (after r1)))
  = subscriptions s.
Proof.
  cbn zeta. split; [reflexivity|]. split; [reflexivity|].
  pose proof (subscribe_unsubscribe_round_trip "client" 1%positive
                [Calls.subscribe "a" Message.AT_MOST_ONCE 0] "b"
                Message.AT_LEAST_ONCE eq_refl) as (_ & _ & _ & _ & H & _).
  exact H.
Defined.

End Table.

(** ** What publish hands to the engine *)

Section PublishTag.
Import Session.

Lemma to_int_range (z : Z) : - 2 ^ 31 <= to_int z < 2 ^ 31.
Proof.
  unfold to_int, wrap_signed.
  assert (0 <= (z + 2 ^ (32 - 1)) mod 2 ^ 32 < 2 ^ 32)
    by (apply Z.mod_pos_bound; lia).
  change (2 ^ (32 - 1)) with (2 ^ 31) in *.
  change (2 ^ 32) with (2 * 2 ^ 31) in *. lia.
Qed.

Lemma to_int_id (z : Z) : - 2 ^ 31 <= z < 2 ^ 31 -> to_int z = z.
Proof.
  intros Hz. unfold to_int, wrap_signed.
  change (2 ^ (32 - 1)) with (2 ^ 31).
  rewrite Z.mod_small; [lia|]. change (2 ^ 32) with (2 * 2 ^ 31). lia.
Qed.

(** X10: [publish] hands the engine the message id and the payload length
    converted to [int]: each is the value itself exactly when the value is at
    most [INT_MAX], and wraps around otherwise. *)
Theorem publish_tag_is_the_id_truncated (s : Impl) (topic : string)
  (payload : list Byte.byte) (len : Z) (qos : Message.QoS) (retain : bool)
  (rc : Z) :
  0 < nextMessageId s ->
  0 <= len ->
  let r := publish topic payload len qos retain rc s in
  published_tags (trace r) = [to_int (nextMessageId s)] /\
  published_lengths (trace r) = [to_int len] /\
  (to_int (nextMessageId s) = nextMessageId s <-> nextMessageId s <= INT_MAX) /\
  (to_int len = len <-> len <= INT_MAX).
Proof.
  intros Hid Hlen. cbn zeta. rewrite publish_spec. cbn [trace snd].
  assert (Hwrap : forall z : Z, 0 <= z -> (to_int z = z <-> z <= INT_MAX)).
  { intros z Hz. unfold INT_MAX. split.
    - intros E. pose proof (to_int_range z). lia.
    - intros Hle. apply to_int_id. lia. }
  split; [|split; [|split; [apply Hwrap; lia|apply Hwrap; exact Hlen]]].
  - destruct (rc =? MQTTCLIENT_SUCCESS); [reflexivity|].
    destruct (sessionHandler s); reflexivity.
  - destruct (rc =? MQTTCLIENT_SUCCESS); [reflexivity|].
    destruct (sessionHandler s); reflexivity.
Qed.

Lemma publish_tag_is_the_id_truncated_witness :
  0 < nextMessageId scenario /\
  published_tags
    (trace (publish "t/1" [] 5 Message.AT_LEAST_ONCE false 0 scenario)) = [1]
  /\ published_lengths
       (trace (publish "t/1" [] (2 ^ 31) Message.AT_LEAST_ONCE false 0
                 scenario)) = [- 2 ^ 31].
Proof.
  split; [reflexivity|].
  pose proof (publish_tag_is_the_id_truncated scenario "t/1" [] 5
                Message.AT_LEAST_ONCE false 0 eq_refl) as (H1 & _);
    [discriminate|].
  pose proof (publish_tag_is_the_id_truncated scenario "t/1" [] (2 ^ 31)
                Message.AT_LEAST_ONCE false 0 eq_refl) as (_ & H2 & _);
    [discriminate|].
  split; [exact H1|exact H2].
Defined.

End PublishTag.

(** * Further properties of the bridge *)

(** ** Handles the check refuses *)

Section Refused.

(** X11: every bridge function that begins with the check of its handle, called
    on a null handle or on a record whose session is null, returns
    [MQTT_STATE_DISCONNECTED] for [mqtt_session_get_state] and [-1]
    otherwise, changes nothing in the process and calls nothing. *)
Theorem refused_handle_changes_nothing (c : Bridge.call) (h : option addr)
  (p : process) :
  checked_handle c = Some h ->
  refused p h ->
  Bridge.step c p = Some (rejected c, p, []).
Proof.
  intros Hc Hh.
  assert (Hchecked : forall (A : Type) (invalid : A) (body : addr -> P A),
            Bridge.checked h invalid body p = Some (invalid, p, [])).
  { intros A invalid body. unfold Bridge.checked.
    destruct h as [a|]; [|reflexivity].
    destruct Hh as (r & Er & Es).
    unfold mbind, P_bind, deref_handle. rewrite Er, Es. reflexivity. }
  destruct c; cbn in Hc; try discriminate Hc; inversion Hc; subst;
    cbn [Bridge.step rejected]; unfold fmap, P_fmap.
  - unfold Bridge.mqtt_set_int_parameter. rewrite Hchecked. reflexivity.
  - unfold Bridge.mqtt_set_bool_parameter. rewrite Hchecked. reflexivity.
  - unfold Bridge.mqtt_set_broker. rewrite Hchecked. reflexivity.
  - unfold Bridge.mqtt_set_credentials. rewrite Hchecked. reflexivity.
  - unfold Bridge.mqtt_set_tls_certificates. rewrite Hchecked. reflexivity.
  - unfold Bridge.mqtt_session_get_state. rewrite Hchecked. reflexivity.
  - unfold Bridge.mqtt_session_start. rewrite Hchecked. reflexivity.
  - unfold Bridge.mqtt_session_stop. rewrite Hchecked. reflexivity.
  - unfold Bridge.mqtt_subscribe. rewrite Hchecked. reflexivity.
  - unfold Bridge.mqtt_unsubscribe. rewrite Hchecked. reflexivity.
  - unfold Bridge.mqtt_publish. rewrite Hchecked. reflexivity.
Qed.

Lemma refused_handle_changes_nothing_witness :
  let p :=
    set_handles {[ 1%positive := mk_mqtt_session_t None None None None None ]}
      connected_process in
  refused p (Some 1%positive) /\
  refused p None /\
  Bridge.step (Bridge.publish (Some 1%positive) "t" [] 0 Message.AT_MOST_ONCE
                 0 0) p
  = Some (Bridge.returned_int (-1), p, []) /\
  Bridge.step (Bridge.session_get_state None) p
  = Some (Bridge.returned_int 0, p, []).
Proof.
  cbn zeta.
  assert (H1 : refused
                 (set_handles
                    {[ 1%positive :=
                         mk_mqtt_session_t None None None None None ]}
                    connected_process) (Some 1%positive)).
  { eexists. split; [apply lookup_singleton_eq|reflexivity]. }
  split; [exact H1|]. split; [exact I|].
  split.
  - exact (refused_handle_changes_nothing
             (Bridge.publish (Some 1%positive) "t" [] 0 Message.AT_MOST_ONCE
                0 0) (Some 1%positive) _ eq_refl H1).
  - exact (refused_handle_changes_nothing
             (Bridge.session_get_state None) None _ eq_refl I).
Defined.

Lemma cast_Parameter_out_of_range (param : Z) :
  param < 0 \/ 6 < param -> Bridge.cast_Parameter param = None.
Proof.
  intros Hp. unfold Bridge.cast_Parameter.
  repeat match goal with
         | |- context [?a =? ?b] =>
             destruct (Z.eqb_spec a b); [lia|]
         end.
  reflexivity.
Qed.

(** X12: [mqtt_set_int_parameter] and [mqtt_set_bool_parameter] with a parameter
    code outside [0..6] on a live handle return [0] and change nothing. *)
Theorem unknown_parameter_code_is_ignored (p : process) (h s : addr)
  (r : mqtt_session_t) (impl : Session.Impl) (param value : Z) :
  handles p !! h = Some r ->
  session r = Some s ->
  sessions p !! s = Some impl ->
  param < 0 \/ 6 < param ->
  Bridge.mqtt_set_int_parameter (Some h) param value p = Some (0, p, []) /\
  Bridge.mqtt_set_bool_parameter (Some h) param value p = Some (0, p, []).
Proof.
  intros Eh Es Ei Hp.
  pose proof (cast_Parameter_out_of_range param Hp) as Hcast.
  split.
  - unfold Bridge.mqtt_set_int_parameter.
    rewrite (checked_valid h s r _ _ p Eh Es).
    apply (with_config_id p s impl); [exact Ei|]. rewrite Hcast. reflexivity.
  - unfold Bridge.mqtt_set_bool_parameter.
    rewrite (checked_valid h s r _ _ p Eh Es).
    apply (with_config_id p s impl); [exact Ei|]. rewrite Hcast. reflexivity.
Qed.

Lemma unknown_parameter_code_is_ignored_witness :
  is_Some (handles connected_process !! 4%positive) /\
  Bridge.mqtt_set_int_parameter (Some 4%positive) 7 30 connected_process
    = Some (0, connected_process, []) /\
  Bridge.mqtt_set_bool_parameter (Some 4%positive) (-1) 1 connected_process
    = Some (0, connected_process, []).
Proof.
  assert (Eh : handles connected_process !! 4%positive =
    Some (mk_mqtt_session_t (Some 3%positive) (Some 100%positive)
            (Some 101%positive) (Some 102%positive) None))
    by (vm_compute; reflexivity).
  destruct (sessions connected_process !! 3%positive) as [impl|] eqn:Ei;
    [|vm_compute in Ei; discriminate].
  split; [rewrite Eh; eexists; reflexivity|].
  pose proof (unknown_parameter_code_is_ignored connected_process 4%positive
                3%positive _ impl 7 30 Eh eq_refl Ei) as [Hint _];
    [right; reflexivity|].
  pose proof (unknown_parameter_code_is_ignored connected_process 4%positive
                3%positive _ impl (-1) 1 Eh eq_refl Ei) as [_ Hbool];
    [left; reflexivity|].
  split; [exact Hint|exact Hbool].
Defined.

End Refused.

(** ** What creating and destroying a session change *)

Section Frames.

(** Every field of the process after [mqtt_create_session], when the factory
    is set, the client id is not null and the message registry holds nothing
    for the address of the new handle. *)
Lemma create_session_full (cid : string) (mcb scb ecb ctx : option addr)
  (p : process) (f : addr) :
  well_formed p ->
  g_factory p = Some f ->
  g_message_handlers p !! Pos.succ (Pos.succ (brk p)) = None ->
  let a := brk p in
  let s := Pos.succ a in
  let h := Pos.succ s in
  let ma := Pos.succ h in
  exists p' : process,
    Bridge.mqtt_create_session (Some cid) mcb scb ecb ctx p
      = Some (Some h, p', []) /\
    instance_ p' = instance_ p /\
    refCount_ p' = refCount_ p /\
    g_factory p' = g_factory p /\
    handles p' = <[h := mk_mqtt_session_t (Some s) mcb scb ecb ctx]> (handles p) /\
    sessions p' =
      <[s := Session.set_msgHandler
               (match mcb with Some _ => Some ma | None => None end)
               (Session.new cid a)]> (sessions p) /\
    session_handlers p'
      = <[a := mkSessionCallbackHandler scb ecb ctx]> (session_handlers p) /\
    g_session_handlers p' = <[h := a]> (g_session_handlers p) /\
    g_message_handlers p' =
      match mcb with
      | Some _ => <[h := ma]> (g_message_handlers p)
      | None => g_message_handlers p
      end /\
    message_handlers p' =
      match mcb with
      | Some _ => <[ma := mkMessageCallbackHandler mcb ctx]> (message_handlers p)
      | None => message_handlers p
      end /\
    brk p' = match mcb with Some _ => Pos.succ ma | None => ma end.
Proof.
  intros Hp Ef Em.
  assert (Hfresh : g_session_handlers p !! Pos.succ (Pos.succ (brk p)) = None).
  { destruct (g_session_handlers p !! Pos.succ (Pos.succ (brk p))) as [a|] eqn:E;
      [|reflexivity].
    destruct (wf_registry_below p Hp _ _ E). lia. }
  cbn zeta.
  destruct mcb as [mcb|].
  all: unfold Bridge.mqtt_create_session, APIFactory.createSession,
    Bridge.store_message_handler, Bridge.store_session_handler, on_session,
    alloc, undefined, pgets, pmodify, plog, mbind, P_bind, mret, P_ret.
  all: repeat (progress (cbn; rewrite ?Ef, ?Em, ?Hfresh, ?lookup_insert_eq)).
  all: eexists; split; [reflexivity|]; cbn.
  all: rewrite ?insert_insert_eq.
  all: repeat split; first [reflexivity | exact Ef].
Qed.

(** Every field of the process after [mqtt_destroy_session] on a live
    handle whose record points to a live session. *)
Lemma destroy_session_full (p : process) (h s : addr) (r : mqtt_session_t)
  (impl : Session.Impl) :
  handles p !! h = Some r ->
  session r = Some s ->
  sessions p !! s = Some impl ->
  exists (p' : process) (l : list action),
    Bridge.mqtt_destroy_session (Some h) p = Some (tt, p', l) /\
    instance_ p' = instance_ p /\
    refCount_ p' = refCount_ p /\
    g_factory p' = g_factory p /\
    handles p' = delete h (handles p) /\
    sessions p' =
      match g_factory p with
      | Some _ => delete s (sessions p)
      | None => <[s := Session.after (Session.stop impl)]> (sessions p)
      end /\
    session_handlers p' =
      match g_session_handlers p !! h with
      | Some a => delete a (session_handlers p)
      | None => session_handlers p
      end /\
    g_session_handlers p' = delete h (g_session_handlers p) /\
    g_message_handlers p' = delete h (g_message_handlers p) /\
    message_handlers p' =
      match g_message_handlers p !! h with
      | Some a => delete a (message_handlers p)
      | None => message_handlers p
      end /\
    brk p' = brk p.
Proof.
  intros Eh Es Ei.
  pose proof (stop_leaves_idle impl) as [Hc _].
  pose proof (stop_without_client _ Hc) as Hstop2.
  destruct (g_message_handlers p !! h) as [am|] eqn:Em;
  destruct (g_session_handlers p !! h) as [ash|] eqn:Esh;
  destruct (g_factory p) as [fa|] eqn:Ef.
  all: unfold Bridge.mqtt_destroy_session, Bridge.erase_message_handler,
    Bridge.erase_session_handler, APIFactory.destroySession, on_session,
    deref_handle, pgets, pmodify, plog, mbind, P_bind, mret, P_ret.
  all: rewrite Eh, Es, Ei.
  all: repeat (progress
    (cbn -[Session.stop observe Session.after Session.trace Session.result];
     rewrite ?Em, ?Esh, ?Ef, ?lookup_insert_eq, ?Hstop2)).
  all: remember (observe p s (Session.trace (Session.stop impl))) as obs
    eqn:Hobs.
  all: remember (Session.after (Session.stop impl)) as impl1 eqn:Himpl1.
  all: clear Hobs Himpl1 Hstop2.
  all: eexists; eexists; split; [reflexivity|].
  all: cbn; rewrite ?delete_insert_eq.
  all: repeat split; try reflexivity; try assumption.
  all: symmetry; apply delete_id; assumption.
Qed.

End Frames.

(** ** Session calls keep the message handler *)

Section MessageHandlers.
Import Session.

Lemma start_keeps_msgHandler (created : Z * addr) (connected : Z) (s : Impl) :
  msgHandler (after (start created connected s)) = msgHandler s.
Proof.
  destruct (string_empty (ConnectionConfig.broker (config s))) eqn:E.
  { rewrite start_empty_broker by assumption. reflexivity. }
  destruct (Z.eq_dec (fst created) MQTTCLIENT_SUCCESS) as [Hc|Hc].
  2:{ rewrite start_create_failed by assumption. reflexivity. }
  destruct (Z.eq_dec connected MQTTCLIENT_SUCCESS) as [Hk|Hk].
  - rewrite start_connected by assumption. reflexivity.
  - rewrite start_connect_failed by assumption. reflexivity.
Qed.

Lemma stop_keeps_msgHandler (s : Impl) :
  msgHandler (after (stop s)) = msgHandler s.
Proof.
  destruct (client s) as [c|] eqn:E.
  - rewrite (stop_with_client s c E). reflexivity.
  - rewrite (stop_without_client s E). reflexivity.
Qed.

Lemma subscribe_keeps_msgHandler (topic : string) (qos : Message.QoS) (rc : Z)
  (s : Impl) :
  msgHandler (after (subscribe topic qos rc s)) = msgHandler s.
Proof.
  destruct (Z.eq_dec rc MQTTCLIENT_SUCCESS) as [Hk|Hk].
  - rewrite subscribe_succeeded by assumption. reflexivity.
  - rewrite subscribe_failed by assumption. reflexivity.
Qed.

Lemma unsubscribe_keeps_msgHandler (handle rc : Z) (s : Impl) :
  msgHandler (after (unsubscribe handle rc s)) = msgHandler s.
Proof.
  destruct (subscriptions s !! handle) as [topic|] eqn:E.
  - destruct (Z.eq_dec rc MQTTCLIENT_SUCCESS) as [Hk|Hk].
    + rewrite (unsubscribe_succeeded handle rc topic s E Hk). reflexivity.
    + rewrite (unsubscribe_failed handle rc topic s E Hk). reflexivity.
  - rewrite (unsubscribe_absent handle rc s E). reflexivity.
Qed.

Lemma publish_keeps_msgHandler (topic : string) (payload : list Byte.byte)
  (len : Z) (qos : Message.QoS) (retain : bool) (rc : Z) (s : Impl) :
  msgHandler (after (publish topic payload len qos retain rc s))
  = msgHandler s.
Proof. rewrite publish_spec. reflexivity. Qed.

End MessageHandlers.

Section Amends.

Lemma amends_ret {A : Type} (x : A) : amends_one_session (mret x).
Proof. intros p p' a l H. inversion H. left. reflexivity. Qed.

Lemma amends_fmap {A B : Type} (g : A -> B) (m : P A) :
  amends_one_session m -> amends_one_session (g <$> m).
Proof.
  intros Hm p p' b l. unfold fmap, P_fmap.
  destruct (m p) as [[[a p1] l1]|] eqn:E1; [|discriminate].
  intros H. inversion H; subst. apply (Hm _ _ _ _ E1).
Qed.

Lemma amends_then_ret {A B : Type} (m : P A) (g : A -> B) :
  amends_one_session m -> amends_one_session (m ≫= fun a => mret (g a)).
Proof.
  intros Hm p p' b l. unfold mbind, P_bind.
  destruct (m p) as [[[a p1] l1]|] eqn:E1; [|discriminate].
  cbn. intros H. inversion H; subst. apply (Hm _ _ _ _ E1).
Qed.

Lemma amends_on_session {A : Type} (s : addr) (m : Session.M A) :
  (forall impl,
     Session.sessionHandler (Session.after (m impl))
     = Session.sessionHandler impl) ->
  (forall impl,
     Session.msgHandler (Session.after (m impl)) = Session.msgHandler impl) ->
  amends_one_session (on_session s m).
Proof.
  intros Hm Hg p p' a l. unfold on_session.
  destruct (sessions p !! s) as [impl|] eqn:E; [|discriminate].
  intros H. inversion H; subst. right.
  exists s, impl, (Session.after (m impl)). split; [exact E|].
  split; [apply Hm|]. split; [apply Hg|reflexivity].
Qed.

Lemma amends_checked {A : Type} (h : option addr) (invalid : A)
  (body : addr -> P A) :
  (forall s, amends_one_session (body s)) ->
  amends_one_session (Bridge.checked h invalid body).
Proof.
  intros Hb. unfold Bridge.checked. destruct h as [h|]; [|apply amends_ret].
  intros p p' a l. unfold mbind, P_bind, deref_handle.
  destruct (handles p !! h) as [r|]; [|discriminate].
  destruct (session r) as [s|].
  - destruct (body s p) as [[[b p2] l2]|] eqn:E2; [|discriminate].
    intros H. inversion H; subst. apply (Hb s _ _ _ _ E2).
  - cbn. intros H. inversion H. left. reflexivity.
Qed.

Lemma with_config_amends (h : option addr)
  (f : ConnectionConfig.Impl -> ConnectionConfig.Impl) :
  amends_one_session
    (Bridge.checked h (-1)
       (fun s => on_session s (Session.with_config f);; mret 0)).
Proof.
  apply amends_checked. intros s.
  apply (amends_then_ret _ (fun _ => 0)).
  apply amends_on_session; intros impl; reflexivity.
Qed.

End Amends.

(** ** What the bridge maintains *)

Section Coherent.

Lemma coherent_update_session (p : process) (s : addr)
  (impl impl' : Session.Impl) :
  coherent p ->
  sessions p !! s = Some impl ->
  Session.msgHandler impl' = Session.msgHandler impl ->
  coherent (set_sessions (<[s := impl']> (sessions p)) p).
Proof.
  intros [C1 C2 C3 C4 C5 C6] Es Hm.
  constructor; cbn.
  - exact C1.
  - exact C2.
  - exact C3.
  - exact C4.
  - exact C5.
  - intros h r s0 impl0 Q1 Q2.
    destruct (decide (s0 = s)) as [->|Hne].
    + rewrite lookup_insert_eq. intros Q3. inversion Q3; subst impl0.
      rewrite Hm. apply (C6 h r s impl Q1 Q2 Es).
    + rewrite lookup_insert_ne by congruence. apply (C6 h r s0 impl0 Q1 Q2).
Qed.

Lemma coherent_amends {A : Type} (m : P A) (p p' : process) (a : A)
  (l : list action) :
  amends_one_session m ->
  coherent p ->
  m p = Some (a, p', l) ->
  coherent p'.
Proof.
  intros Hm Hp Hrun.
  destruct (Hm p p' a l Hrun) as [->|(s & impl & impl' & Es & _ & Hg & ->)].
  - exact Hp.
  - apply (coherent_update_session p s impl impl' Hp Es Hg).
Qed.

Lemma coherent_start : coherent process_start.
Proof.
  constructor; cbn.
  - left. repeat split.
  - intros h a. rewrite lookup_empty. discriminate.
  - intros a [x Hx]. rewrite lookup_empty in Hx. discriminate.
  - intros h h' a. rewrite lookup_empty. discriminate.
  - intros h r a this. rewrite lookup_empty. discriminate.
  - intros h r s impl. rewrite lookup_empty. discriminate.
Qed.

(** What [mqtt_initialize] does in a coherent process. *)
Lemma initialize_eq (n v : option string) (d : Z) (f : option string)
  (p : process) :
  coherent p ->
  Bridge.mqtt_initialize n v d f p =
    Some (0,
          match g_factory p with
          | Some _ => p
          | None =>
              set_g_factory (Some (brk p))
                (set_refCount_ 1
                   (set_instance_ (Some (brk p))
                      (set_brk (Pos.succ (brk p)) p)))
          end, []).
Proof.
  intros [C1 _ _ _ _ _].
  unfold Bridge.mqtt_initialize, APIFactory.getInstance,
    APIFactory.initialize, alloc, pgets, pmodify, mbind, P_bind, mret, P_ret.
  destruct C1 as [(Ef & Ei & Er)|(a & Ef & Ei & Er)]; rewrite Ef; cbn;
    [|reflexivity].
  rewrite Ei. cbn. rewrite Er. reflexivity.
Qed.

(** What [mqtt_uninitialize] does in a coherent process. *)
Lemma uninitialize_eq (p : process) :
  coherent p ->
  Bridge.mqtt_uninitialize p =
    Some (0,
          match g_factory p with
          | Some _ =>
              set_g_factory None (set_instance_ None (set_refCount_ 0 p))
          | None => p
          end, []).
Proof.
  intros [C1 _ _ _ _ _].
  unfold Bridge.mqtt_uninitialize, APIFactory.uninitialize,
    pgets, pmodify, mbind, P_bind, mret, P_ret.
  destruct C1 as [(Ef & Ei & Er)|(a & Ef & Ei & Er)]; rewrite Ef; cbn;
    [reflexivity|].
  rewrite Ei, Er. reflexivity.
Qed.

Lemma coherent_initialize (n v : option string) (d : Z) (f : option string)
  (p p' : process) (x : Z) (l : list action) :
  coherent p ->
  Bridge.mqtt_initialize n v d f p = Some (x, p', l) ->
  coherent p'.
Proof.
  intros Hp Hrun. rewrite (initialize_eq n v d f p Hp) in Hrun.
  inversion Hrun; subst. clear Hrun.
  destruct (g_factory p) eqn:Ef; [exact Hp|].
  destruct Hp as [C1 C2 C3 C4 C5 C6].
  constructor; cbn.
  - right. exists (brk p). repeat split.
  - intros h a Ha. destruct (C2 h a Ha). split; lia.
  - intros a Ha. specialize (C3 a Ha). lia.
  - exact C4.
  - exact C5.
  - exact C6.
Qed.

Lemma coherent_uninitialize (p p' : process) (x : Z) (l : list action) :
  coherent p ->
  Bridge.mqtt_uninitialize p = Some (x, p', l) ->
  coherent p'.
Proof.
  intros Hp Hrun. rewrite (uninitialize_eq p Hp) in Hrun.
  inversion Hrun; subst. clear Hrun.
  destruct (g_factory p) eqn:Ef; [|exact Hp].
  destruct Hp as [C1 C2 C3 C4 C5 C6].
  constructor; cbn.
  - left. repeat split.
  - exact C2.
  - exact C3.
  - exact C4.
  - exact C5.
  - exact C6.
Qed.

Lemma coherent_create (client_id : option string)
  (mcb scb ecb ctx : option addr) (p p' : process) (res : option addr)
  (l : list action) :
  well_formed p ->
  coherent p ->
  Bridge.mqtt_create_session client_id mcb scb ecb ctx p = Some (res, p', l) ->
  coherent p'.
Proof.
  intros Hw Hp Hrun.
  destruct (g_factory p) as [f|] eqn:Ef.
  2:{ rewrite (create_session_without_factory _ _ _ _ _ p Ef) in Hrun.
      inversion Hrun; subst. exact Hp. }
  destruct client_id as [cid|].
  2:{ unfold Bridge.mqtt_create_session, APIFactory.createSession, alloc,
        undefined, pgets, pmodify, mbind, P_bind in Hrun.
      rewrite Ef in Hrun. cbn in Hrun. discriminate. }
  assert (Em : g_message_handlers p !! Pos.succ (Pos.succ (brk p)) = None).
  { destruct (g_message_handlers p !! Pos.succ (Pos.succ (brk p))) eqn:E;
      [|reflexivity].
    destruct (co_message_registry_below p Hp _ _ E). lia. }
  destruct (create_session_full cid mcb scb ecb ctx p f Hw Ef Em)
    as (p1 & Hrun1 & Fi & Fr & Ff & Fh & Fs & Fa & Fg & Fgm & Fm & Fb).
  cbn zeta in *.
  rewrite Hrun in Hrun1. inversion Hrun1; subst res p1 l. clear Hrun1.
  destruct Hw as [W1 W2 W3 W4 W5 W6 W7].
  destruct Hp as [C1 C2 C3 C4 C5 C6].
  assert (Hbrk : (brk p <= brk p')%positive)
    by (rewrite Fb; destruct mcb; lia).
  constructor; rewrite ?Fi, ?Fr, ?Ff.
  - exact C1.
  - intros h a. rewrite Fgm. destruct mcb.
    + destruct (decide (h = Pos.succ (Pos.succ (brk p)))) as [->|Hne].
      * rewrite lookup_insert_eq. intros Q. inversion Q; subst a.
        rewrite Fb. split; lia.
      * rewrite lookup_insert_ne by congruence.
        intros Ha. destruct (C2 h a Ha). split; lia.
    + intros Ha. destruct (C2 h a Ha). split; lia.
  - intros a. rewrite Fm. destruct mcb.
    + destruct
        (decide (a = Pos.succ (Pos.succ (Pos.succ (brk p))))) as [->|Hne].
      * intros _. rewrite Fb. lia.
      * rewrite lookup_insert_ne by congruence.
        intros Ha. specialize (C3 a Ha). lia.
    + intros Ha. specialize (C3 a Ha). lia.
  - intros h h' a. rewrite Fgm. destruct mcb; [|apply C4].
    destruct (decide (h = Pos.succ (Pos.succ (brk p)))) as [->|Hne];
    destruct (decide (h' = Pos.succ (Pos.succ (brk p)))) as [->|Hne'];
      rewrite ?lookup_insert_eq;
      rewrite ?(lookup_insert_ne _ (Pos.succ (Pos.succ (brk p)))) by congruence.
    + reflexivity.
    + intros Q1 Q2. inversion Q1; subst a. destruct (C2 h' _ Q2). lia.
    + intros Q1 Q2. inversion Q2; subst a. destruct (C2 h _ Q1). lia.
    + apply C4.
  - intros h r a this. rewrite Fh, Fg, Fa.
    destruct (decide (h = Pos.succ (Pos.succ (brk p)))) as [->|Hne].
    + rewrite !lookup_insert_eq. intros Q1 Q2. inversion Q1; subst r.
      inversion Q2; subst a. rewrite lookup_insert_eq. intros Q3.
      inversion Q3. reflexivity.
    + rewrite !(lookup_insert_ne _ (Pos.succ (Pos.succ (brk p)))) by congruence.
      intros Q1 Q2. destruct (W7 h a Q2) as [_ Ha].
      rewrite lookup_insert_ne by lia. apply (C5 h r a this Q1 Q2).
  - intros h r s impl. rewrite Fh, Fs, Fgm, Fm.
    destruct (decide (h = Pos.succ (Pos.succ (brk p)))) as [->|Hne].
    + rewrite lookup_insert_eq. intros Q1. inversion Q1; subst r. cbn.
      intros Q2. inversion Q2; subst s. rewrite lookup_insert_eq.
      intros Q3. inversion Q3; subst impl.
      destruct mcb as [cb|]; cbn.
      * eexists. split; [reflexivity|]. rewrite !lookup_insert_eq.
        split; reflexivity.
      * split; [reflexivity|exact Em].
    + rewrite lookup_insert_ne by congruence. intros Q1 Q2.
      destruct (W1 h r Q1) as (s1 & impl1 & a1 & R1 & R2 & _).
      rewrite Q2 in R1. inversion R1; subst s1.
      assert (Hs : (s < brk p)%positive) by (apply W5; eauto).
      rewrite lookup_insert_ne by lia. intros Q3.
      specialize (C6 h r s impl Q1 Q2 Q3).
      destruct (message_cb r) as [cb|].
      * destruct C6 as (ma & M1 & M2 & M3). exists ma.
        split; [exact M1|].
        destruct (C2 h ma M2) as [_ Hma].
        destruct mcb.
        -- rewrite !lookup_insert_ne by (congruence || lia).
           split; assumption.
        -- split; assumption.
      * destruct C6 as [M1 M2]. split; [exact M1|].
        destruct mcb; [rewrite lookup_insert_ne by congruence|]; exact M2.
Qed.

Lemma coherent_destroy (h : option addr) (p p' : process) (x : unit)
  (l : list action) :
  well_formed p ->
  coherent p ->
  Bridge.mqtt_destroy_session h p = Some (x, p', l) ->
  coherent p'.
Proof.
  intros Hw Hp Hrun. destruct h as [h|].
  2:{ cbn in Hrun. inversion Hrun; subst. exact Hp. }
  destruct (handles p !! h) as [r|] eqn:Eh.
  2:{ unfold Bridge.mqtt_destroy_session, mbind, P_bind, deref_handle in Hrun.
      rewrite Eh in Hrun. discriminate. }
  destruct (wf_handle p Hw h r Eh) as (s & impl & a & Es & Ei & Ha & Eg & Hlive).
  destruct (destroy_session_full p h s r impl Eh Es Ei)
    as (p1 & l1 & Hrun1 & Fi & Fr & Ff & Fh & Fs & Fa & Fg & Fgm & Fm & Fb).
  rewrite Hrun in Hrun1. inversion Hrun1; subst p1 l1. clear Hrun1.
  rewrite Eg in Fa.
  pose proof (wf_session_owner p Hw) as W2.
  destruct Hp as [C1 C2 C3 C4 C5 C6].
  constructor; rewrite ?Fi, ?Fr, ?Ff, ?Fb.
  - exact C1.
  - intros h0 a0. rewrite Fgm.
    destruct (decide (h0 = h)) as [->|Hne];
      [rewrite lookup_delete_eq; discriminate|].
    rewrite lookup_delete_ne by congruence. apply C2.
  - intros a0 [x0 Q0]. apply C3. rewrite Fm in Q0.
    destruct (g_message_handlers p !! h) as [am|]; [|eauto].
    destruct (decide (a0 = am)) as [->|Hne];
      [rewrite lookup_delete_eq in Q0; discriminate|].
    rewrite lookup_delete_ne in Q0 by congruence. eauto.
  - intros h0 h1 a0. rewrite Fgm.
    destruct (decide (h0 = h)) as [->|Hne];
      [rewrite lookup_delete_eq; discriminate|].
    destruct (decide (h1 = h)) as [->|Hne1];
      [rewrite (lookup_delete_eq _ h); discriminate|].
    rewrite !lookup_delete_ne by congruence. apply C4.
  - intros h0 r0 a0 this. rewrite Fh, Fg, Fa.
    destruct (decide (h0 = h)) as [->|Hne];
      [rewrite lookup_delete_eq; discriminate|].
    rewrite !(lookup_delete_ne _ h) by congruence.
    intros Q1 Q2.
    destruct (decide (a0 = a)) as [->|Hna];
      [rewrite lookup_delete_eq; discriminate|].
    rewrite lookup_delete_ne by congruence. apply (C5 h0 r0 a0 this Q1 Q2).
  - intros h0 r0 s0 impl0. rewrite Fh, Fs, Fgm, Fm.
    destruct (decide (h0 = h)) as [->|Hne];
      [rewrite lookup_delete_eq; discriminate|].
    rewrite !(lookup_delete_ne _ h) by congruence.
    intros Q1 Q2.
    assert (Hs : s0 <> s).
    { intros ->. apply Hne. apply (W2 h0 h r0 r s Q1 Eh Q2 Es). }
    intros Q3.
    assert (Q4 : sessions p !! s0 = Some impl0).
    { destruct (g_factory p);
        [rewrite lookup_delete_ne in Q3 by congruence
        |rewrite lookup_insert_ne in Q3 by congruence]; exact Q3. }
    specialize (C6 h0 r0 s0 impl0 Q1 Q2 Q4).
    destruct (message_cb r0) as [cb|]; [|exact C6].
    destruct C6 as (ma & M1 & M2 & M3). exists ma.
    split; [exact M1|]. split; [exact M2|].
    destruct (g_message_handlers p !! h) as [am|] eqn:Eam; [|exact M3].
    rewrite lookup_delete_ne; [exact M3|].
    intros ->. apply Hne. apply (C4 h0 h ma M2 Eam).
Qed.

Lemma step_coherent (c : Bridge.call) (p p' : process)
  (r : Bridge.returned) (l : list action) :
  well_formed p ->
  coherent p ->
  Bridge.step c p = Some (r, p', l) ->
  coherent p'.
Proof.
  intros Hw Hp Hstep.
  destruct c as
    [h prm v|h prm v|h url port|h user pass|h ca cert key|n v d lf| |cid mcb scb ecb ctx|h|h|h created connected|h|h topic qos rc|h handle rc|h topic payload len qos retain rc];
    cbn [Bridge.step] in Hstep.
  - apply fmap_Some in Hstep as (x & Hrun & _).
    apply (coherent_amends _ _ _ _ _ (with_config_amends _ _) Hp Hrun).
  - apply fmap_Some in Hstep as (x & Hrun & _).
    apply (coherent_amends _ _ _ _ _ (with_config_amends _ _) Hp Hrun).
  - apply fmap_Some in Hstep as (x & Hrun & _).
    apply (coherent_amends _ _ _ _ _ (with_config_amends _ _) Hp Hrun).
  - apply fmap_Some in Hstep as (x & Hrun & _).
    apply (coherent_amends _ _ _ _ _ (with_config_amends _ _) Hp Hrun).
  - apply fmap_Some in Hstep as (x & Hrun & _).
    apply (coherent_amends _ _ _ _ _ (with_config_amends _ _) Hp Hrun).
  - apply fmap_Some in Hstep as (x & Hrun & _).
    apply (coherent_initialize _ _ _ _ _ _ _ _ Hp Hrun).
  - apply fmap_Some in Hstep as (x & Hrun & _).
    apply (coherent_uninitialize _ _ _ _ Hp Hrun).
  - apply fmap_Some in Hstep as (x & Hrun & _).
    apply (coherent_create _ _ _ _ _ _ _ _ _ Hw Hp Hrun).
  - unfold mbind, P_bind in Hstep.
    destruct (Bridge.mqtt_destroy_session h p) as [[[x p1] l1]|] eqn:Hrun;
      [|discriminate].
    cbn in Hstep. inversion Hstep; subst.
    apply (coherent_destroy _ _ _ _ _ Hw Hp Hrun).
  - apply fmap_Some in Hstep as (x & Hrun & _).
    refine (coherent_amends _ _ _ _ _ _ Hp Hrun).
    apply amends_checked. intros s. apply amends_fmap.
    apply amends_on_session; intros impl; reflexivity.
  - apply fmap_Some in Hstep as (x & Hrun & _).
    refine (coherent_amends _ _ _ _ _ _ Hp Hrun).
    apply amends_checked. intros s.
    apply (amends_then_ret _ (fun ok : bool => if ok then 0 else -1)).
    apply amends_on_session; intros impl;
      [apply start_keeps_handler|apply start_keeps_msgHandler].
  - apply fmap_Some in Hstep as (x & Hrun & _).
    refine (coherent_amends _ _ _ _ _ _ Hp Hrun).
    apply amends_checked. intros s.
    apply (amends_then_ret _ (fun ok : bool => if ok then 0 else -1)).
    apply amends_on_session; intros impl;
      [apply stop_keeps_handler|apply stop_keeps_msgHandler].
  - apply fmap_Some in Hstep as (x & Hrun & _).
    refine (coherent_amends _ _ _ _ _ _ Hp Hrun).
    apply amends_checked. intros s.
    apply amends_on_session; intros impl;
      [apply subscribe_keeps_handler|apply subscribe_keeps_msgHandler].
  - apply fmap_Some in Hstep as (x & Hrun & _).
    refine (coherent_amends _ _ _ _ _ _ Hp Hrun).
    apply amends_checked. intros s.
    apply (amends_then_ret _ (fun ok : bool => if ok then 0 else -1)).
    apply amends_on_session; intros impl;
      [apply unsubscribe_keeps_handler|apply unsubscribe_keeps_msgHandler].
  - apply fmap_Some in Hstep as (x & Hrun & _).
    refine (coherent_amends _ _ _ _ _ _ Hp Hrun).
    apply amends_checked. intros s.
    apply amends_on_session; intros impl;
      [apply publish_keeps_handler|apply publish_keeps_msgHandler].
Qed.

(** Every process reached through the bridge is well formed and coherent. *)
Lemma run_invariants (calls : list Bridge.call) (p p' : process)
  (rs : list Bridge.returned) (l : list action) :
  well_formed p ->
  coherent p ->
  Bridge.run calls p = Some (rs, p', l) ->
  well_formed p' /\ coherent p'.
Proof.
  revert p rs l. induction calls as [|c calls IH]; intros p rs l Hw Hp Hrun.
  - inversion Hrun; subst. split; assumption.
  - cbn [Bridge.run] in Hrun. unfold mbind, P_bind in Hrun.
    destruct (Bridge.step c p) as [[[r p1] l1]|] eqn:E1; [|discriminate].
    destruct (Bridge.run calls p1) as [[[rs1 p2] l2]|] eqn:E2; [|discriminate].
    cbn in Hrun. inversion Hrun; subst.
    apply (IH p1 rs1 l2); [| |exact E2].
    + apply (step_well_formed c p p1 r l1 Hw E1).
    + apply (step_coherent c p p1 r l1 Hw Hp E1).
Qed.

Lemma reachable_invariants (calls : list Bridge.call) (p : process)
  (rs : list Bridge.returned) (l : list action) :
  Bridge.run calls process_start = Some (rs, p, l) ->
  well_formed p /\ coherent p.
Proof.
  apply run_invariants; [apply well_formed_start|apply coherent_start].
Qed.

End Coherent.

(** ** The bridge on the processes it reaches *)

Section BridgeReached.

Lemma connected_process_reached :
  exists (rs : list Bridge.returned) (l : list action),
    Bridge.run
      [Bridge.initialize (Some "app") (Some "1.0") 0 None;
       Bridge.create_session (Some "client") (Some 100%positive)
         (Some 101%positive) (Some 102%positive) None;
       Bridge.set_broker (Some 4%positive) (Some "test.broker") 1883;
       Bridge.session_start (Some 4%positive) (0, 9%positive) 0]
      process_start = Some (rs, connected_process, l).
Proof.
  destruct (Bridge.run
    [Bridge.initialize (Some "app") (Some "1.0") 0 None;
     Bridge.create_session (Some "client") (Some 100%positive)
       (Some 101%positive) (Some 102%positive) None;
     Bridge.set_broker (Some 4%positive) (Some "test.broker") 1883;
     Bridge.session_start (Some 4%positive) (0, 9%positive) 0]
    process_start) as [[[rs p] l]|] eqn:Erun;
    [|vm_compute in Erun; discriminate].
  assert (Hp : connected_process = p)
    by (unfold connected_process; rewrite Erun; reflexivity).
  rewrite Hp. exists rs, l. reflexivity.
Qed.

(** The session and the session adapter behind a live handle. *)
Lemma live_handle (p : process) (h : addr) (r : mqtt_session_t) :
  well_formed p ->
  coherent p ->
  handles p !! h = Some r ->
  exists (s : addr) (impl : Session.Impl) (a : addr),
    session r = Some s /\
    sessions p !! s = Some impl /\
    Session.sessionHandler impl = Some a /\
    session_handlers p !! a
      = Some (mkSessionCallbackHandler (state_cb r) (error_cb r)
                (user_context r)).
Proof.
  intros Hw Hc Eh.
  destruct (wf_handle p Hw h r Eh) as (s & impl & a & Es & Ei & Ha & Eg & [x Hx]).
  exists s, impl, a. repeat split; try assumption.
  rewrite Hx. f_equal. apply (co_adapter_forwards p Hc h r a x Eh Eg Hx).
Qed.

Lemma get_state_eq (p : process) (h s : addr) (r : mqtt_session_t)
  (impl : Session.Impl) :
  handles p !! h = Some r ->
  session r = Some s ->
  sessions p !! s = Some impl ->
  Bridge.mqtt_session_get_state (Some h) p
    = Some (SessionState_to_int (Session.currentState impl), p, []).
Proof.
  intros Eh Es Ei. unfold Bridge.mqtt_session_get_state.
  rewrite (checked_valid h s r _ _ p Eh Es).
  unfold fmap, P_fmap. rewrite (on_session_eq _ _ _ _ Ei).
  rewrite getState_spec. unfold Session.after, Session.result, Session.trace.
  cbn [fst snd]. rewrite (set_sessions_same _ _ _ Ei). reflexivity.
Qed.

(** X13: in every process reached through the bridge [mqtt_initialize] returns
    [0] whatever its arguments, leaves the factory set with a reference count
    of one, touches no handle and no session, does nothing when the factory
    was set already, and does nothing when called again. *)
Theorem initialize_takes_one_reference (calls : list Bridge.call)
  (rs : list Bridge.returned) (p : process) (l : list action)
  (n v : option string) (d : Z) (f : option string) :
  Bridge.run calls process_start = Some (rs, p, l) ->
  exists p1 : process,
    Bridge.mqtt_initialize n v d f p = Some (0, p1, []) /\
    is_Some (g_factory p1) /\
    instance_ p1 = g_factory p1 /\
    refCount_ p1 = 1 /\
    handles p1 = handles p /\
    sessions p1 = sessions p /\
    (is_Some (g_factory p) -> p1 = p) /\
    forall (n' v' : option string) (d' : Z) (f' : option string),
      Bridge.mqtt_initialize n' v' d' f' p1 = Some (0, p1, []).
Proof.
  intros Hrun.
  destruct (reachable_invariants calls p rs l Hrun) as [Hw Hc].
  pose proof (initialize_eq n v d f p Hc) as Hinit.
  destruct (g_factory p) as [a|] eqn:Ef.
  - exists p. split; [exact Hinit|].
    destruct (co_statics p Hc) as [(Q1 & _)|(a' & Q1 & Q2 & Q3)];
      [congruence|].
    rewrite Ef. split; [eauto|]. split; [congruence|]. split; [exact Q3|].
    split; [reflexivity|]. split; [reflexivity|]. split; [reflexivity|].
    intros n' v' d' f'. rewrite (initialize_eq n' v' d' f' p Hc), Ef.
    reflexivity.
  - eexists. split; [exact Hinit|]. cbn.
    split; [eauto|]. split; [reflexivity|]. split; [reflexivity|].
    split; [reflexivity|]. split; [reflexivity|].
    split; [intros [x Hx]; discriminate|].
    intros n' v' d' f'.
    unfold Bridge.mqtt_initialize, mbind, P_bind, pgets. reflexivity.
Qed.

Lemma initialize_takes_one_reference_witness :
  exists p1 : process,
    Bridge.mqtt_initialize (Some "again") None 1 None connected_process
      = Some (0, p1, []) /\
    refCount_ p1 = 1.
Proof.
  destruct connected_process_reached as (rs & l & Hrun).
  destruct (initialize_takes_one_reference _ rs connected_process l
              (Some "again") None 1 None Hrun)
    as (p1 & H1 & _ & _ & H2 & _).
  exists p1. split; [exact H1|exact H2].
Defined.

(** X14: in every process reached through the bridge [mqtt_uninitialize] returns
    [0], leaves the factory and its instance null with a reference count of
    zero, and releases no handle, no session and no adapter; afterwards
    [mqtt_create_session] returns null and changes nothing. *)
Theorem uninitialize_releases_the_factory_only (calls : list Bridge.call)
  (rs : list Bridge.returned) (p : process) (l : list action) :
  Bridge.run calls process_start = Some (rs, p, l) ->
  exists p1 : process,
    Bridge.mqtt_uninitialize p = Some (0, p1, []) /\
    g_factory p1 = None /\
    instance_ p1 = None /\
    refCount_ p1 = 0 /\
    handles p1 = handles p /\
    sessions p1 = sessions p /\
    session_handlers p1 = session_handlers p /\
    message_handlers p1 = message_handlers p /\
    g_session_handlers p1 = g_session_handlers p /\
    g_message_handlers p1 = g_message_handlers p /\
    forall (cid : option string) (mcb scb ecb ctx : option addr),
      Bridge.mqtt_create_session cid mcb scb ecb ctx p1 = Some (None, p1, []).
Proof.
  intros Hrun.
  destruct (reachable_invariants calls p rs l Hrun) as [Hw Hc].
  pose proof (uninitialize_eq p Hc) as Hun.
  destruct (g_factory p) as [a|] eqn:Ef.
  - eexists. split; [exact Hun|]. cbn. repeat split.
  - exists p. split; [exact Hun|].
    destruct (co_statics p Hc) as [(Q1 & Q2 & Q3)|(a' & Q1 & _)];
      [|congruence].
    repeat split; try assumption.
    intros cid mcb scb ecb ctx.
    apply (create_session_without_factory _ _ _ _ _ p Ef).
Qed.

Lemma uninitialize_releases_the_factory_only_witness :
  exists p1 : process,
    Bridge.mqtt_uninitialize connected_process = Some (0, p1, []) /\
    g_factory p1 = None /\
    handles p1 = handles connected_process.
Proof.
  destruct connected_process_reached as (rs & l & Hrun).
  destruct (uninitialize_releases_the_factory_only _ rs connected_process l
              Hrun)
    as (p1 & H1 & H2 & _ & _ & H3 & _).
  exists p1. split; [exact H1|]. split; [exact H2|exact H3].
Defined.

(** X15: in every process reached through the bridge in which the factory is
    set, [mqtt_create_session] with a client id returns a handle that was not
    alive, calls nothing, keeps every handle and every session that was
    alive, and the new handle reports [MQTT_STATE_DISCONNECTED]; the message
    registry holds an adapter for the handle exactly when a message callback
    was given. *)
Theorem created_session_is_fresh_and_disconnected (calls : list Bridge.call)
  (rs : list Bridge.returned) (p : process) (l : list action)
  (cid : string) (mcb scb ecb ctx : option addr) :
  Bridge.run calls process_start = Some (rs, p, l) ->
  is_Some (g_factory p) ->
  exists (h : addr) (p' : process),
    Bridge.mqtt_create_session (Some cid) mcb scb ecb ctx p
      = Some (Some h, p', []) /\
    handles p !! h = None /\
    handles p' !! h
      = Some (mk_mqtt_session_t (Some (Pos.pred h)) mcb scb ecb ctx) /\
    (forall (h0 : addr) (r0 : mqtt_session_t),
       handles p !! h0 = Some r0 -> handles p' !! h0 = Some r0) /\
    (forall (s0 : addr) (impl0 : Session.Impl),
       sessions p !! s0 = Some impl0 -> sessions p' !! s0 = Some impl0) /\
    Bridge.mqtt_session_get_state (Some h) p'
      = Some (Bridge.MQTT_STATE_DISCONNECTED, p', []) /\
    (is_Some (g_message_handlers p' !! h) <-> is_Some mcb).
Proof.
  intros Hrun [f Ef].
  destruct (reachable_invariants calls p rs l Hrun) as [Hw Hc].
  assert (Em : g_message_handlers p !! Pos.succ (Pos.succ (brk p)) = None).
  { destruct (g_message_handlers p !! Pos.succ (Pos.succ (brk p))) eqn:E;
      [|reflexivity].
    destruct (co_message_registry_below p Hc _ _ E). lia. }
  destruct (create_session_full cid mcb scb ecb ctx p f Hw Ef Em)
    as (p' & Hcreate & _ & _ & _ & Fh & Fs & _ & _ & Fgm & _).
  cbn zeta in *.
  assert (Hfresh : handles p !! Pos.succ (Pos.succ (brk p)) = None).
  { destruct (handles p !! Pos.succ (Pos.succ (brk p))) eqn:E; [|reflexivity].
    assert ((Pos.succ (Pos.succ (brk p)) < brk p)%positive)
      by (apply (wf_handles_below p Hw); eauto).
    lia. }
  exists (Pos.succ (Pos.succ (brk p))), p'.
  split; [exact Hcreate|]. split; [exact Hfresh|].
  rewrite Pos.pred_succ.
  split; [rewrite Fh; apply lookup_insert_eq|].
  split.
  { intros h0 r0 Q. rewrite Fh. rewrite lookup_insert_ne; [exact Q|].
    intros <-. congruence. }
  split.
  { intros s0 impl0 Q. rewrite Fs. rewrite lookup_insert_ne; [exact Q|].
    intros <-.
    assert ((Pos.succ (brk p) < brk p)%positive)
      by (apply (wf_sessions_below p Hw); eauto).
    lia. }
  split.
  { assert (Eh1 : handles p' !! Pos.succ (Pos.succ (brk p))
                  = Some (mk_mqtt_session_t (Some (Pos.succ (brk p))) mcb scb
                            ecb ctx))
      by (rewrite Fh; apply lookup_insert_eq).
    assert (Es1 : sessions p' !! Pos.succ (brk p)
                  = Some (Session.set_msgHandler
                            match mcb with
                            | Some _ =>
                                Some (Pos.succ (Pos.succ (Pos.succ (brk p))))
                            | None => None
                            end (Session.new cid (brk p))))
      by (rewrite Fs; apply lookup_insert_eq).
    rewrite (get_state_eq p' _ _ _ _ Eh1 eq_refl Es1). reflexivity. }
  rewrite Fgm. destruct mcb as [cb|].
  - rewrite lookup_insert_eq. split; eauto.
  - rewrite Em. split; intros [x Hx]; discriminate.
Qed.

Lemma created_session_is_fresh_and_disconnected_witness :
  exists (h : addr) (p' : process),
    Bridge.mqtt_create_session (Some "second") None (Some 201%positive) None
      None connected_process = Some (Some h, p', []) /\
    Bridge.mqtt_session_get_state (Some h) p'
      = Some (Bridge.MQTT_STATE_DISCONNECTED, p', []).
Proof.
  destruct connected_process_reached as (rs & l & Hrun).
  assert (Hf : is_Some (g_factory connected_process))
    by (vm_compute; eauto).
  destruct (created_session_is_fresh_and_disconnected _ rs connected_process l
              "second" None (Some 201%positive) None None Hrun Hf)
    as (h & p' & H1 & _ & _ & _ & _ & H2 & _).
  exists h, p'. split; [exact H1|exact H2].
Defined.

(** X16: in every process reached through the bridge in which the factory is
    set, [mqtt_create_session] followed by [mqtt_destroy_session] of the
    handle it returned runs no session and no callback and restores the
    handles, the sessions, the adapters, both registries and the factory
    statics. *)
Theorem create_then_destroy_restores_the_heap (calls : list Bridge.call)
  (rs : list Bridge.returned) (p : process) (l : list action)
  (cid : string) (mcb scb ecb ctx : option addr) :
  Bridge.run calls process_start = Some (rs, p, l) ->
  is_Some (g_factory p) ->
  exists (h : addr) (p1 p2 : process) (l2 : list action),
    Bridge.mqtt_create_session (Some cid) mcb scb ecb ctx p
      = Some (Some h, p1, []) /\
    Bridge.mqtt_destroy_session (Some h) p1 = Some (tt, p2, l2) /\
    Forall (fun a => is_activity a = false) l2 /\
    handles p2 = handles p /\
    sessions p2 = sessions p /\
    session_handlers p2 = session_handlers p /\
    message_handlers p2 = message_handlers p /\
    g_session_handlers p2 = g_session_handlers p /\
    g_message_handlers p2 = g_message_handlers p /\
    g_factory p2 = g_factory p /\
    instance_ p2 = instance_ p /\
    refCount_ p2 = refCount_ p.
Proof.
  intros Hrun [f Ef].
  destruct (reachable_invariants calls p rs l Hrun) as [Hw Hc].
  assert (Em : g_message_handlers p !! Pos.succ (Pos.succ (brk p)) = None).
  { destruct (g_message_handlers p !! Pos.succ (Pos.succ (brk p))) eqn:E;
      [|reflexivity].
    destruct (co_message_registry_below p Hc _ _ E). lia. }
  assert (Eg : g_session_handlers p !! Pos.succ (Pos.succ (brk p)) = None).
  { destruct (g_session_handlers p !! Pos.succ (Pos.succ (brk p))) eqn:E;
      [|reflexivity].
    destruct (wf_registry_below p Hw _ _ E). lia. }
  assert (Eh : handles p !! Pos.succ (Pos.succ (brk p)) = None).
  { destruct (handles p !! Pos.succ (Pos.succ (brk p))) eqn:E; [|reflexivity].
    assert ((Pos.succ (Pos.succ (brk p)) < brk p)%positive)
      by (apply (wf_handles_below p Hw); eauto).
    lia. }
  assert (Es : sessions p !! Pos.succ (brk p) = None).
  { destruct (sessions p !! Pos.succ (brk p)) eqn:E; [|reflexivity].
    assert ((Pos.succ (brk p) < brk p)%positive)
      by (apply (wf_sessions_below p Hw); eauto).
    lia. }
  assert (Ea : session_handlers p !! brk p = None).
  { destruct (session_handlers p !! brk p) eqn:E; [|reflexivity].
    assert ((brk p < brk p)%positive)
      by (apply (wf_adapters_below p Hw); eauto).
    lia. }
  assert (Ema : message_handlers p !! Pos.succ (Pos.succ (Pos.succ (brk p)))
                = None).
  { destruct (message_handlers p !! Pos.succ (Pos.succ (Pos.succ (brk p))))
      eqn:E; [|reflexivity].
    assert ((Pos.succ (Pos.succ (Pos.succ (brk p))) < brk p)%positive)
      by (apply (co_message_adapters_below p Hc); eauto).
    lia. }
  destruct (create_session_full cid mcb scb ecb ctx p f Hw Ef Em)
    as (p1 & Hcreate & Fi & Fr & Ff & Fh & Fs & Fa & Fg & Fgm & Fm & Fb).
  cbn zeta in *.
  assert (Eh1 : handles p1 !! Pos.succ (Pos.succ (brk p))
                = Some (mk_mqtt_session_t (Some (Pos.succ (brk p))) mcb scb ecb
                          ctx))
    by (rewrite Fh; apply lookup_insert_eq).
  assert (Es1 : sessions p1 !! Pos.succ (brk p)
                = Some (Session.set_msgHandler
                          match mcb with
                          | Some _ =>
                              Some (Pos.succ (Pos.succ (Pos.succ (brk p))))
                          | None => None
                          end (Session.new cid (brk p))))
    by (rewrite Fs; apply lookup_insert_eq).
  destruct (destroy_session_eq p1 _ _ _ _ Eh1 eq_refl Es1)
    as (p2' & Hdestroy' & _).
  destruct (destroy_session_full p1 _ _ _ _ Eh1 eq_refl Es1)
    as (p2 & l2 & Hdestroy & Gi & Gr & Gf & Gh & Gs & Ga & Gg & Ggm & Gm & Gb).
  rewrite Hdestroy in Hdestroy'.
  assert (Hl2 : l2 =
    observe p1 (Pos.succ (brk p))
      (Session.trace
         (Session.stop
            (Session.set_msgHandler
               match mcb with
               | Some _ => Some (Pos.succ (Pos.succ (Pos.succ (brk p))))
               | None => None
               end (Session.new cid (brk p)))))
    ++ releases p1 (Pos.succ (Pos.succ (brk p)))
    ++ match g_factory p1 with
       | Some _ => [delete_session (Pos.succ (brk p))]
       | None => []
       end
    ++ [delete_handle (Pos.succ (Pos.succ (brk p)))])
    by congruence.
  clear Hdestroy' p2'.
  exists (Pos.succ (Pos.succ (brk p))), p1, p2, l2.
  split; [exact Hcreate|]. split; [exact Hdestroy|].
  split.
  { rewrite Hl2. rewrite stop_without_client by (destruct mcb; reflexivity).
    unfold Session.trace, releases. cbn [snd observe mbind].
    rewrite Ff, Ef.
    destruct (g_message_handlers p1 !! Pos.succ (Pos.succ (brk p)));
    destruct (g_session_handlers p1 !! Pos.succ (Pos.succ (brk p)));
      cbn; repeat constructor. }
  clear Hl2.
  rewrite Gh, Gs, Ga, Gg, Gm, Ggm, Gi, Gr, Gf.
  rewrite Fh, Ff, Ef, Fs, Fg, Fa, Fgm, Fm.
  rewrite lookup_insert_eq.
  rewrite !delete_insert_eq.
  split; [apply delete_id; exact Eh|].
  split; [apply delete_id; exact Es|].
  split; [apply delete_id; exact Ea|].
  split.
  { destruct mcb; [|rewrite Em; reflexivity].
    rewrite lookup_insert_eq, delete_insert_eq. apply delete_id; exact Ema. }
  split; [apply delete_id; exact Eg|].
  split.
  { destruct mcb; [rewrite delete_insert_eq|]; apply delete_id; exact Em. }
  rewrite Fi, Fr. repeat split; assumption || reflexivity.
Qed.

Lemma create_then_destroy_restores_the_heap_witness :
  exists (h : addr) (p1 p2 : process) (l2 : list action),
    Bridge.mqtt_create_session (Some "second") (Some 200%positive) None None
      None connected_process = Some (Some h, p1, []) /\
    Bridge.mqtt_destroy_session (Some h) p1 = Some (tt, p2, l2) /\
    handles p2 = handles connected_process /\
    sessions p2 = sessions connected_process.
Proof.
  destruct connected_process_reached as (rs & l & Hrun).
  assert (Hf : is_Some (g_factory connected_process))
    by (vm_compute; eauto).
  destruct (create_then_destroy_restores_the_heap _ rs connected_process l
              "second" (Some 200%positive) None None None Hrun Hf)
    as (h & p1 & p2 & l2 & H1 & H2 & _ & H3 & H4 & _).
  exists h, p1, p2, l2.
  split; [exact H1|]. split; [exact H2|]. split; [exact H3|exact H4].
Defined.

End BridgeReached.

(** ** From the session to the C callbacks *)

Section Callbacks.

Lemma c_callbacks_app (l1 l2 : list action) :
  c_callbacks (l1 ++ l2) = c_callbacks l1 ++ c_callbacks l2.
Proof. apply filter_app. Qed.

Lemma observe_app (p : process) (s : addr) (t1 t2 : list event) :
  observe p s (t1 ++ t2) = observe p s t1 ++ observe p s t2.
Proof. unfold observe. apply bind_app. Qed.

Lemma c_callbacks_observe_cons (p : process) (s : addr) (e : event)
  (t : list event) :
  c_callbacks (observe p s (e :: t))
  = c_callbacks (forward p e) ++ c_callbacks (observe p s t).
Proof.
  change (observe p s (e :: t))
    with (in_session s e :: (forward p e ++ observe p s t)).
  unfold c_callbacks at 1. rewrite filter_cons_False by (cbn; discriminate).
  apply filter_app.
Qed.

Lemma c_callbacks_state (p : process) (a : addr) (r : mqtt_session_t)
  (st : SessionState) :
  session_handlers p !! a
    = Some (mkSessionCallbackHandler (state_cb r) (error_cb r)
              (user_context r)) ->
  c_callbacks (forward p (onStateChange a st))
  = state_callback r (SessionState_to_int st).
Proof.
  intros Ea. unfold state_callback. cbn. rewrite Ea.
  unfold SessionCallbackHandler_onStateChange. cbn.
  destruct (state_cb r); reflexivity.
Qed.

Lemma c_callbacks_error (p : process) (a : addr) (r : mqtt_session_t)
  (code : Z) (msg : string) :
  session_handlers p !! a
    = Some (mkSessionCallbackHandler (state_cb r) (error_cb r)
              (user_context r)) ->
  c_callbacks (forward p (onError a code msg)) = error_callback r code msg.
Proof.
  intros Ea. unfold error_callback. cbn. rewrite Ea.
  unfold SessionCallbackHandler_onError. cbn.
  destruct (error_cb r); reflexivity.
Qed.

(** X17: [mqtt_session_start] on a live handle of a process reached through the
    bridge returns [0] and calls the state callback of the handle record once
    with [MQTT_STATE_CONNECTED] and the user context when the engine creates
    and connects the client; it returns [-1] and calls the error callback
    once with the engine's code and the message of the step that failed when
    the engine refuses; with an empty broker it returns [-1] and calls
    nothing.  A callback that is null is skipped.  [mqtt_session_get_state]
    then reports the state [start] left. *)
Theorem start_reaches_the_c_callbacks (calls : list Bridge.call)
  (rs : list Bridge.returned) (p : process) (l : list action) (h : addr)
  (r : mqtt_session_t) (created : Z * addr) (connected : Z) :
  Bridge.run calls process_start = Some (rs, p, l) ->
  handles p !! h = Some r ->
  exists (s : addr) (impl : Session.Impl) (ret : Z) (p' : process)
         (l' : list action),
    session r = Some s /\
    sessions p !! s = Some impl /\
    Bridge.mqtt_session_start (Some h) created connected p
      = Some (ret, p', l') /\
    (ret, c_callbacks l') =
      (if string_empty (ConnectionConfig.broker (Session.config impl))
       then (-1, [])
       else if fst created =? MQTTCLIENT_SUCCESS
       then if connected =? MQTTCLIENT_SUCCESS
            then (0, state_callback r (SessionState_to_int CONNECTED))
            else (-1, error_callback r connected "Connection failed")
       else (-1, error_callback r (fst created) "Failed to create client")) /\
    Bridge.mqtt_session_get_state (Some h) p'
      = Some (if ret =? 0 then (SessionState_to_int CONNECTED)
              else if string_empty
                        (ConnectionConfig.broker (Session.config impl))
                      || negb (fst created =? MQTTCLIENT_SUCCESS)
                   then SessionState_to_int (Session.currentState impl)
                   else Bridge.MQTT_STATE_DISCONNECTED,
              p', []).
Proof.
  intros Hrun Eh.
  destruct (reachable_invariants calls p rs l Hrun) as [Hw Hc].
  destruct (live_handle p h r Hw Hc Eh) as (s & impl & a & Es & Ei & Ha & Ead).
  exists s, impl.
  unfold Bridge.mqtt_session_start.
  rewrite (checked_valid h s r _ _ p Eh Es).
  unfold mbind, P_bind. rewrite (on_session_eq _ _ _ _ Ei).
  cbn [mret P_ret].
  set (p1 := set_sessions
               (<[s := Session.after (Session.start created connected impl)]>
                  (sessions p)) p).
  assert (Eh1 : handles p1 !! h = Some r) by exact Eh.
  assert (Es1 : sessions p1 !! s
                = Some (Session.after (Session.start created connected impl)))
    by (apply lookup_insert_eq).
  pose proof (get_state_eq p1 h s r _ Eh1 Es Es1) as Hget.
  do 3 eexists.
  split; [exact Es|]. split; [exact Ei|]. split; [reflexivity|].
  rewrite app_nil_r. rewrite Hget. clear Hget Eh1 Es1. subst p1.
  destruct (string_empty (ConnectionConfig.broker (Session.config impl)))
    eqn:Eb.
  { rewrite start_empty_broker by exact Eb.
    unfold Session.result, Session.trace, Session.after. cbn.
    split; reflexivity. }
  destruct (Z.eq_dec (fst created) MQTTCLIENT_SUCCESS) as [Hk|Hk].
  2:{ rewrite start_create_failed by assumption.
      rewrite report_error_trace, Ha.
      apply Z.eqb_neq in Hk. rewrite Hk.
      unfold Session.result, Session.trace, Session.after. cbn [fst snd].
      rewrite !c_callbacks_observe_cons.
      rewrite (c_callbacks_error p a r _ _ Ead).
      split; [rewrite app_nil_r|]; reflexivity. }
  destruct (Z.eq_dec connected MQTTCLIENT_SUCCESS) as [Hn|Hn].
  - rewrite start_connected by assumption.
    rewrite report_state_trace, Ha.
    apply Z.eqb_eq in Hk, Hn. rewrite Hk, Hn.
    unfold Session.result, Session.trace, Session.after. cbn [fst snd app].
    rewrite !c_callbacks_observe_cons.
    rewrite (c_callbacks_state p a r _ Ead).
    split; [rewrite app_nil_r|]; reflexivity.
  - rewrite start_connect_failed by assumption.
    rewrite report_error_trace, Ha.
    apply Z.eqb_eq in Hk. apply Z.eqb_neq in Hn. rewrite Hk, Hn.
    unfold Session.result, Session.trace, Session.after. cbn [fst snd app].
    rewrite !c_callbacks_observe_cons.
    rewrite (c_callbacks_error p a r _ _ Ead).
    split; [rewrite app_nil_r|]; reflexivity.
Qed.

Lemma start_reaches_the_c_callbacks_witness :
  exists (ret : Z) (p' : process) (l' : list action),
    Bridge.mqtt_session_start (Some 4%positive) (0, 10%positive) 0
      connected_process = Some (ret, p', l').
Proof.
  destruct connected_process_reached as (rs & l & Hrun).
  destruct (handles connected_process !! 4%positive) as [r|] eqn:Eh;
    [|vm_compute in Eh; discriminate].
  destruct (start_reaches_the_c_callbacks _ rs connected_process l 4%positive
              r (0, 10%positive) 0 Hrun Eh)
    as (s & impl & ret & p' & l' & _ & _ & H & _).
  exists ret, p', l'. exact H.
Defined.

(** X18: [mqtt_set_broker] with a null or empty URL on a live handle of a process
    reached through the bridge returns [0]; the following
    [mqtt_session_start] returns [-1], writes the usage message to the error
    stream, calls neither the engine nor a callback and changes nothing. *)
Theorem null_broker_refuses_start (calls : list Bridge.call)
  (rs : list Bridge.returned) (p : process) (l : list action) (h : addr)
  (r : mqtt_session_t) (url : option string) (port : Z) (created : Z * addr)
  (connected : Z) :
  Bridge.run calls process_start = Some (rs, p, l) ->
  handles p !! h = Some r ->
  string_empty (or_empty url) = true ->
  exists (s : addr) (p1 : process),
    session r = Some s /\
    Bridge.mqtt_set_broker (Some h) url port p = Some (0, p1, []) /\
    Bridge.mqtt_session_start (Some h) created connected p1
      = Some (-1, p1, [in_session s (cerr "Broker URL not set")]).
Proof.
  intros Hrun Eh Hu.
  destruct (reachable_invariants calls p rs l Hrun) as [Hw Hc].
  destruct (live_handle p h r Hw Hc Eh) as (s & impl & a & Es & Ei & Ha & Ead).
  exists s.
  set (impl1 := Session.after
                  (Session.with_config (ConnectionConfig.setBroker url port)
                     impl)).
  set (p1 := set_sessions (<[s := impl1]> (sessions p)) p).
  exists p1.
  assert (Eh1 : handles p1 !! h = Some r) by exact Eh.
  assert (Ei1 : sessions p1 !! s = Some impl1) by (apply lookup_insert_eq).
  split; [exact Es|].
  split.
  { unfold Bridge.mqtt_set_broker.
    rewrite (checked_valid h s r _ _ p Eh Es).
    unfold mbind, P_bind. rewrite (on_session_eq _ _ _ _ Ei). reflexivity. }
  unfold Bridge.mqtt_session_start.
  rewrite (checked_valid h s r _ _ p1 Eh1 Es).
  unfold mbind, P_bind. rewrite (on_session_eq _ _ _ _ Ei1).
  rewrite (start_empty_broker created connected impl1 Hu).
  unfold Session.result, Session.after, Session.trace. cbn [fst snd].
  rewrite (set_sessions_same _ _ _ Ei1). reflexivity.
Qed.

Lemma null_broker_refuses_start_witness :
  exists (s : addr) (p1 : process),
    Bridge.mqtt_set_broker (Some 4%positive) None 1883 connected_process
      = Some (0, p1, []) /\
    Bridge.mqtt_session_start (Some 4%positive) (0, 10%positive) 0 p1
      = Some (-1, p1, [in_session s (cerr "Broker URL not set")]).
Proof.
  destruct connected_process_reached as (rs & l & Hrun).
  destruct (handles connected_process !! 4%positive) as [r|] eqn:Eh;
    [|vm_compute in Eh; discriminate].
  destruct (null_broker_refuses_start _ rs connected_process l 4%positive r
              None 1883 (0, 10%positive) 0 Hrun Eh eq_refl)
    as (s & p1 & _ & H1 & H2).
  exists s, p1. split; [exact H1|exact H2].
Defined.

(** X19: [mqtt_publish] on a live handle of a process reached through the bridge
    hands the engine one message, with the retain flag normalised to 0 or 1;
    it returns the message id when the engine accepts, and [-1] after one
    call of the error callback of the handle record with the engine's code,
    the message [Publish failed] and the user context when it refuses.  No
    call lands on a released adapter. *)
Theorem publish_reaches_the_error_callback (calls : list Bridge.call)
  (rs : list Bridge.returned) (p : process) (l : list action) (h : addr)
  (r : mqtt_session_t) (topic : string) (payload : list Byte.byte)
  (len : Z) (qos : Message.QoS) (retain rc : Z) :
  Bridge.run calls process_start = Some (rs, p, l) ->
  handles p !! h = Some r ->
  exists (s : addr) (impl : Session.Impl) (p' : process) (rest : list action),
    session r = Some s /\
    sessions p !! s = Some impl /\
    Bridge.mqtt_publish (Some h) topic payload len qos retain rc p
      = Some ((if rc =? MQTTCLIENT_SUCCESS then Session.nextMessageId impl
               else -1),
              p',
              in_session s
                (MQTTClient_publishMessage (Session.client impl) topic
                   {| Paho.payload := payload;
                      Paho.payloadlen := to_int len;
                      Paho.qos := Message.QoS_to_int qos;
                      Paho.retained := if retain =? 0 then 0 else 1;
                      Paho.msgid := to_int (Session.nextMessageId impl) |})
                :: rest) /\
    c_callbacks rest =
      (if rc =? MQTTCLIENT_SUCCESS then []
       else error_callback r rc "Publish failed") /\
    Forall (fun a => is_call_on_released a = false) rest.
Proof.
  intros Hrun Eh.
  destruct (reachable_invariants calls p rs l Hrun) as [Hw Hc].
  destruct (live_handle p h r Hw Hc Eh) as (s & impl & a & Es & Ei & Ha & Ead).
  exists s, impl.
  unfold Bridge.mqtt_publish.
  rewrite (checked_valid h s r _ _ p Eh Es).
  rewrite (on_session_eq _ _ _ _ Ei).
  rewrite publish_spec, Ha.
  unfold Session.result, Session.trace, Session.after. cbn [fst snd].
  change (observe p s (?e :: ?t))
    with (in_session s e :: (forward p e ++ observe p s t)).
  cbn [forward app].
  assert (Hr : of_bool (negb (retain =? 0)) = if retain =? 0 then 0 else 1)
    by (destruct (retain =? 0); reflexivity).
  rewrite Hr.
  do 2 eexists.
  split; [exact Es|]. split; [exact Ei|]. split; [reflexivity|].
  destruct (rc =? MQTTCLIENT_SUCCESS).
  - split; [reflexivity|constructor].
  - rewrite c_callbacks_observe_cons, (c_callbacks_error p a r _ _ Ead).
    split; [apply app_nil_r|].
    unfold observe. cbn. rewrite Ead.
    unfold SessionCallbackHandler_onError. cbn.
    destruct (error_cb r); repeat constructor.
Qed.

Lemma publish_reaches_the_error_callback_witness :
  exists (ret : Z) (p' : process) (l' : list action),
    Bridge.mqtt_publish (Some 4%positive) "t/1" [] 0 Message.AT_LEAST_ONCE 1
      (-3) connected_process = Some (ret, p', l').
Proof.
  destruct connected_process_reached as (rs & l & Hrun).
  destruct (handles connected_process !! 4%positive) as [r|] eqn:Eh;
    [|vm_compute in Eh; discriminate].
  destruct (publish_reaches_the_error_callback _ rs connected_process l
              4%positive r "t/1" [] 0 Message.AT_LEAST_ONCE 1 (-3) Hrun Eh)
    as (s & impl & p' & rest & _ & _ & H & _).
  eexists _, p', _. exact H.
Defined.

(** X20: when the engine reports a lost connection for the session of a live
    handle, the state callback of the handle record is called with
    [MQTT_STATE_RECONNECTING], then the error callback with [-1] and the
    cause, or [Connection lost] when the cause is null; afterwards
    [mqtt_session_get_state] reports [MQTT_STATE_RECONNECTING]. *)
Theorem connection_lost_reaches_both_callbacks (calls : list Bridge.call)
  (rs : list Bridge.returned) (p : process) (l : list action) (h : addr)
  (r : mqtt_session_t) (cause : option string) :
  Bridge.run calls process_start = Some (rs, p, l) ->
  handles p !! h = Some r ->
  exists (s : addr) (p' : process) (l' : list action),
    session r = Some s /\
    on_session s (Session.onConnectionLost cause) p = Some (tt, p', l') /\
    c_callbacks l' =
      state_callback r (SessionState_to_int RECONNECTING)
      ++ error_callback r (-1)
           (match cause with Some c => c | None => "Connection lost" end) /\
    Forall (fun a => is_call_on_released a = false) l' /\
    Bridge.mqtt_session_get_state (Some h) p'
      = Some (SessionState_to_int RECONNECTING, p', []).
Proof.
  intros Hrun Eh.
  destruct (reachable_invariants calls p rs l Hrun) as [Hw Hc].
  destruct (live_handle p h r Hw Hc Eh) as (s & impl & a & Es & Ei & Ha & Ead).
  exists s.
  rewrite (on_session_eq _ _ _ _ Ei).
  assert (Hlost : Session.onConnectionLost cause impl =
    (tt, Session.set_currentState RECONNECTING impl,
     [onStateChange a RECONNECTING;
      onError a (-1)
        (match cause with Some c => c | None => "Connection lost" end)])).
  { unfold Session.onConnectionLost, Session.modify, Session.gets,
      Session.emit, mbind, Session.M_bind. cbn. rewrite Ha. reflexivity. }
  rewrite Hlost.
  unfold Session.result, Session.trace, Session.after. cbn [fst snd].
  set (p1 := set_sessions
               (<[s := Session.set_currentState RECONNECTING impl]>
                  (sessions p)) p).
  assert (Eh1 : handles p1 !! h = Some r) by exact Eh.
  assert (Es1 : sessions p1 !! s
                = Some (Session.set_currentState RECONNECTING impl))
    by (apply lookup_insert_eq).
  do 2 eexists.
  split; [exact Es|]. split; [reflexivity|].
  split.
  { rewrite !c_callbacks_observe_cons.
    rewrite (c_callbacks_state p a r _ Ead), (c_callbacks_error p a r _ _ Ead).
    rewrite app_nil_r. reflexivity. }
  split.
  { unfold observe. cbn. rewrite Ead.
    unfold SessionCallbackHandler_onStateChange, SessionCallbackHandler_onError.
    cbn. destruct (state_cb r); destruct (error_cb r); repeat constructor. }
  rewrite (get_state_eq p1 h s r _ Eh1 Es Es1). reflexivity.
Qed.

Lemma connection_lost_reaches_both_callbacks_witness :
  exists (s : addr) (p' : process) (l' : list action),
    on_session s (Session.onConnectionLost None) connected_process
      = Some (tt, p', l') /\
    Bridge.mqtt_session_get_state (Some 4%positive) p'
      = Some (SessionState_to_int RECONNECTING, p', []).
Proof.
  destruct connected_process_reached as (rs & l & Hrun).
  destruct (handles connected_process !! 4%positive) as [r|] eqn:Eh;
    [|vm_compute in Eh; discriminate].
  destruct (connection_lost_reaches_both_callbacks _ rs connected_process l
              4%positive r None Hrun Eh)
    as (s & p' & l' & _ & H1 & _ & _ & H2).
  exists s, p', l'. split; [exact H1|exact H2].
Defined.

(** X21: when the engine delivers a message whose length fits its buffer to the
    session of a live handle, the message callback of the handle record is
    called once with the topic, the payload, its length, the QoS, the
    retained flag normalised to 0 or 1, the message id and the user context;
    without a message callback nothing is delivered.  The engine's message
    and topic are freed after the callback, the callback returns [1] and the
    process is unchanged. *)
Theorem inbound_message_reaches_the_message_callback
  (calls : list Bridge.call) (rs : list Bridge.returned) (p : process)
  (l : list action) (h : addr) (r : mqtt_session_t)
  (topicName : option string) (topicLen : Z) (message : Paho.message) :
  Bridge.run calls process_start = Some (rs, p, l) ->
  handles p !! h = Some r ->
  0 <= Paho.payloadlen message
    <= Z.of_nat (length (Paho.payload message)) ->
  exists (s : addr) (delivery : list action),
    session r = Some s /\
    on_session s (Session.onMessageCallback topicName topicLen message) p
      = Some (1, p,
              delivery
              ++ [in_session s MQTTClient_freeMessage;
                  in_session s MQTTClient_free]) /\
    c_callbacks delivery =
      message_callback r
        {| topic := or_empty topicName;
           payload :=
             take (Z.to_nat (Paho.payloadlen message)) (Paho.payload message);
           payload_length := Paho.payloadlen message;
           qos := Paho.qos message;
           retained := if Paho.retained message =? 0 then 0 else 1;
           message_id := Paho.msgid message |} /\
    (message_cb r = None -> delivery = []) /\
    Forall (fun a => is_call_on_released a = false) delivery.
Proof.
  intros Hrun Eh Hlen.
  destruct (reachable_invariants calls p rs l Hrun) as [Hw Hc].
  destruct (live_handle p h r Hw Hc Eh) as (s & impl & a & Es & Ei & Ha & Ead).
  pose proof (co_message_forwards p Hc h r s impl Eh Es Ei) as Hm.
  exists s.
  rewrite (on_session_eq _ _ _ _ Ei).
  assert (Hplen :
    Z.of_nat
      (length (take (Z.to_nat (Paho.payloadlen message))
                 (Paho.payload message)))
    = Paho.payloadlen message).
  { rewrite length_take. lia. }
  unfold message_callback.
  destruct (message_cb r) as [cb|] eqn:Ecb.
  - destruct Hm as (ma & M1 & M2 & M3).
    unfold Session.onMessageCallback, Session.gets, Session.emit, mbind,
      Session.M_bind, mret, Session.M_ret, Session.result, Session.after,
      Session.trace.
    cbn [fst snd]. rewrite M1. cbn [fst snd app].
    rewrite (set_sessions_same _ _ _ Ei).
    unfold observe. cbn [mbind list_bind forward app].
    rewrite M3. unfold MessageCallbackHandler_onMessage.
    cbn [cb_ message_context_].
    unfold Message.getTopic, Message.getPayload, Message.getPayloadLength,
      Message.getQoS, Message.isRetained, Message.getMessageId.
    cbn [Message.topic Message.payload Message.qos Message.retained
         Message.messageId].
    rewrite Hplen.
    assert (Hr : of_bool (negb (Paho.retained message =? 0))
                 = if Paho.retained message =? 0 then 0 else 1)
      by (destruct (Paho.retained message =? 0); reflexivity).
    rewrite Hr.
    eexists. split; [exact Es|].
    split.
    { instantiate (1 := [_; _]). reflexivity. }
    split; [reflexivity|]. split; [discriminate|repeat constructor].
  - destruct Hm as [M1 M2].
    unfold Session.onMessageCallback, Session.gets, Session.emit, mbind,
      Session.M_bind, mret, Session.M_ret, Session.result, Session.after,
      Session.trace.
    cbn [fst snd]. rewrite M1. cbn [fst snd app].
    rewrite (set_sessions_same _ _ _ Ei).
    exists []. split; [exact Es|]. split; [reflexivity|].
    split; [reflexivity|]. split; [reflexivity|constructor].
Qed.

Lemma inbound_message_reaches_the_message_callback_witness :
  exists (s : addr) (delivery : list action),
    on_session s
      (Session.onMessageCallback (Some "t/1") 3
         {| Paho.payload := [Byte.x68; Byte.x69]; Paho.payloadlen := 2;
            Paho.qos := 1; Paho.retained := 5; Paho.msgid := 7 |})
      connected_process
    = Some (1, connected_process,
            delivery
            ++ [in_session s MQTTClient_freeMessage;
                in_session s MQTTClient_free]).
Proof.
  destruct connected_process_reached as (rs & l & Hrun).
  destruct (handles connected_process !! 4%positive) as [r|] eqn:Eh;
    [|vm_compute in Eh; discriminate].
  assert (Hlen : 0 <= 2 <= Z.of_nat (length [Byte.x68; Byte.x69]))
    by (cbn; lia).
  destruct (inbound_message_reaches_the_message_callback _ rs
              connected_process l 4%positive r (Some "t/1") 3
              {| Paho.payload := [Byte.x68; Byte.x69]; Paho.payloadlen := 2;
                 Paho.qos := 1; Paho.retained := 5; Paho.msgid := 7 |}
              Hrun Eh Hlen)
    as (s & delivery & _ & H & _).
  exists s, delivery. exact H.
Defined.

End Callbacks.

(** ** Whose callbacks a call runs *)

Section Ownership.
Import Session.

Lemma start_calls_only (created : Z * addr) (connected : Z) (s : Impl) :
  Forall (calls_only (sessionHandler s)) (trace (start created connected s)).
Proof.
  destruct (string_empty (ConnectionConfig.broker (config s))) eqn:E.
  { rewrite start_empty_broker by assumption. repeat constructor. }
  destruct (Z.eq_dec (fst created) MQTTCLIENT_SUCCESS) as [Hc|Hc].
  2:{ rewrite start_create_failed by assumption. rewrite report_error_trace.
      unfold trace. cbn [snd].
      destruct (sessionHandler s); repeat constructor. }
  destruct (Z.eq_dec connected MQTTCLIENT_SUCCESS) as [Hk|Hk].
  - rewrite start_connected by assumption. rewrite report_state_trace.
    unfold trace. cbn [snd app].
    destruct (sessionHandler s); repeat constructor.
  - rewrite start_connect_failed by assumption. rewrite report_error_trace.
    unfold trace. cbn [snd app].
    destruct (sessionHandler s); repeat constructor.
Qed.

Lemma stop_calls_only (s : Impl) :
  Forall (calls_only (sessionHandler s)) (trace (stop s)).
Proof.
  destruct (client s) as [c|] eqn:E.
  - rewrite (stop_with_client s c E). rewrite report_state_trace.
    unfold trace. cbn [snd app].
    destruct (sessionHandler s); repeat constructor.
  - rewrite (stop_without_client s E). constructor.
Qed.

Lemma subscribe_calls_only (topic : string) (qos : Message.QoS) (rc : Z)
  (s : Impl) :
  Forall (calls_only (sessionHandler s)) (trace (subscribe topic qos rc s)).
Proof.
  destruct (Z.eq_dec rc MQTTCLIENT_SUCCESS) as [Hk|Hk].
  - rewrite subscribe_succeeded by assumption. repeat constructor.
  - rewrite subscribe_failed by assumption. rewrite report_error_trace.
    unfold trace. cbn [snd].
    destruct (sessionHandler s); repeat constructor.
Qed.

Lemma unsubscribe_calls_only (handle rc : Z) (s : Impl) :
  Forall (calls_only (sessionHandler s)) (trace (unsubscribe handle rc s)).
Proof.
  destruct (subscriptions s !! handle) as [topic|] eqn:E.
  - destruct (Z.eq_dec rc MQTTCLIENT_SUCCESS) as [Hk|Hk].
    + rewrite (unsubscribe_succeeded handle rc topic s E Hk).
      repeat constructor.
    + rewrite (unsubscribe_failed handle rc topic s E Hk).
      rewrite report_error_trace. unfold trace. cbn [snd].
      destruct (sessionHandler s); repeat constructor.
  - rewrite (unsubscribe_absent handle rc s E). constructor.
Qed.

Lemma publish_calls_only (topic : string) (payload : list Byte.byte)
  (len : Z) (qos : Message.QoS) (retain : bool) (rc : Z) (s : Impl) :
  Forall (calls_only (sessionHandler s))
    (trace (publish topic payload len qos retain rc s)).
Proof.
  rewrite publish_spec. unfold trace. cbn [snd].
  destruct (rc =? MQTTCLIENT_SUCCESS); destruct (sessionHandler s);
    repeat constructor.
Qed.

Lemma observe_belongs (p : process) (s a : addr) (r : mqtt_session_t)
  (t : list event) :
  session r = Some s ->
  session_handlers p !! a
    = Some (mkSessionCallbackHandler (state_cb r) (error_cb r)
              (user_context r)) ->
  Forall (calls_only (Some a)) t ->
  Forall (belongs_to r) (observe p s t).
Proof.
  intros Es Ea Ht. induction Ht as [|e t He Ht IH]; [constructor|].
  change (observe p s (e :: t))
    with (in_session s e :: (forward p e ++ observe p s t)).
  constructor; [exact Es|]. apply Forall_app. split; [|exact IH].
  destruct e; cbn in He |- *; try constructor; try contradiction.
  - inversion He; subst. rewrite Ea.
    unfold SessionCallbackHandler_onStateChange. cbn.
    destruct (state_cb r) eqn:E; repeat constructor. exact E.
  - inversion He; subst. rewrite Ea.
    unfold SessionCallbackHandler_onError. cbn.
    destruct (error_cb r) eqn:E; repeat constructor. exact E.
Qed.

(** The three shapes of the body of a checked bridge function. *)
Lemma on_session_actions {A : Type} (s : addr) (m : M A) (p p' : process)
  (x : A) (l : list action) :
  on_session s m p = Some (x, p', l) ->
  exists impl : Impl,
    sessions p !! s = Some impl /\ l = observe p s (trace (m impl)).
Proof.
  unfold on_session. destruct (sessions p !! s) as [impl|]; [|discriminate].
  intros H. inversion H; subst. exists impl. split; reflexivity.
Qed.

Lemma then_ret_actions {A B : Type} (m : P A) (g : A -> B) (p p' : process)
  (x : B) (l : list action) :
  (m ≫= fun a => mret (g a)) p = Some (x, p', l) ->
  exists a : A, m p = Some (a, p', l).
Proof.
  unfold mbind, P_bind. destruct (m p) as [[[a p1] l1]|]; [|discriminate].
  cbn. intros H. inversion H; subst. rewrite app_nil_r. exists a. reflexivity.
Qed.

Lemma checked_belongs {A B : Type} (p p' : process) (h : option addr)
  (invalid : A) (m : M B) (body : addr -> P A) (x : A) (l : list action) :
  well_formed p ->
  coherent p ->
  (forall (s : addr) (q q' : process) (y : A) (k : list action),
     body s q = Some (y, q', k) ->
     exists impl : Impl,
       sessions q !! s = Some impl /\ k = observe q s (trace (m impl))) ->
  (forall impl : Impl, Forall (calls_only (sessionHandler impl)) (trace (m impl))) ->
  Bridge.checked h invalid body p = Some (x, p', l) ->
  match h with
  | Some h => exists r, handles p !! h = Some r /\ Forall (belongs_to r) l
  | None => l = []
  end.
Proof.
  intros Hw Hc Hbody Hm. unfold Bridge.checked.
  destruct h as [h|]; [|intros H; inversion H; reflexivity].
  unfold mbind, P_bind, deref_handle.
  destruct (handles p !! h) as [r|] eqn:Eh; [|discriminate].
  intros H. exists r. split; [reflexivity|].
  destruct (live_handle p h r Hw Hc Eh) as (s & impl & a & Es & Ei & Ha & Ead).
  rewrite Es in H.
  destruct (body s p) as [[[y q'] k]|] eqn:Eb; [|discriminate].
  cbn in H. inversion H; subst.
  destruct (Hbody s p p' x l Eb) as (impl' & Ei' & ->).
  rewrite Ei in Ei'. inversion Ei'; subst impl'.
  apply (observe_belongs p s a r _ Es Ead). rewrite <- Ha. apply Hm.
Qed.

(** X22: in every process reached through the bridge, a call that takes no
    handle or a null handle does nothing observable, and a call on a handle
    runs only the session of that handle and calls only the callbacks of its
    record, with the user context of its record, and never an adapter that
    was released. *)
Theorem callbacks_stay_with_their_handle (calls : list Bridge.call)
  (rs : list Bridge.returned) (p : process) (l : list action)
  (c : Bridge.call) (ret : Bridge.returned) (p' : process)
  (l' : list action) :
  Bridge.run calls process_start = Some (rs, p, l) ->
  Bridge.step c p = Some (ret, p', l') ->
  match call_handle c with
  | Some h =>
      exists r : mqtt_session_t,
        handles p !! h = Some r /\ Forall (belongs_to r) l'
  | None => l' = []
  end.
Proof.
  intros Hrun Hstep.
  destruct (reachable_invariants calls p rs l Hrun) as [Hw Hc].
  destruct c as
    [h prm v|h prm v|h url port|h user pass|h ca cert key|n v d lf| |cid mcb scb ecb ctx|h|h|h created connected|h|h topic qos rc|h handle rc|h topic payload len qos retain rc];
    cbn [Bridge.step] in Hstep; cbn [call_handle checked_handle].
  - apply fmap_Some in Hstep as (x & Hstep & _).
    refine (checked_belongs p p' h _ (with_config _) _ x l' Hw Hc _ _ Hstep).
    + intros s q q' y k Hk. apply then_ret_actions in Hk as (a & Hk).
      apply (on_session_actions _ _ _ _ _ _ Hk).
    + intros impl. constructor.
  - apply fmap_Some in Hstep as (x & Hstep & _).
    refine (checked_belongs p p' h _ (with_config _) _ x l' Hw Hc _ _ Hstep).
    + intros s q q' y k Hk. apply then_ret_actions in Hk as (a & Hk).
      apply (on_session_actions _ _ _ _ _ _ Hk).
    + intros impl. constructor.
  - apply fmap_Some in Hstep as (x & Hstep & _).
    refine (checked_belongs p p' h _ (with_config _) _ x l' Hw Hc _ _ Hstep).
    + intros s q q' y k Hk. apply then_ret_actions in Hk as (a & Hk).
      apply (on_session_actions _ _ _ _ _ _ Hk).
    + intros impl. constructor.
  - apply fmap_Some in Hstep as (x & Hstep & _).
    refine (checked_belongs p p' h _ (with_config _) _ x l' Hw Hc _ _ Hstep).
    + intros s q q' y k Hk. apply then_ret_actions in Hk as (a & Hk).
      apply (on_session_actions _ _ _ _ _ _ Hk).
    + intros impl. constructor.
  - apply fmap_Some in Hstep as (x & Hstep & _).
    refine (checked_belongs p p' h _ (with_config _) _ x l' Hw Hc _ _ Hstep).
    + intros s q q' y k Hk. apply then_ret_actions in Hk as (a & Hk).
      apply (on_session_actions _ _ _ _ _ _ Hk).
    + intros impl. constructor.
  - apply fmap_Some in Hstep as (x & Hstep & _).
    rewrite (initialize_eq _ _ _ _ p Hc) in Hstep.
    inversion Hstep. reflexivity.
  - apply fmap_Some in Hstep as (x & Hstep & _).
    rewrite (uninitialize_eq p Hc) in Hstep.
    inversion Hstep. reflexivity.
  - apply fmap_Some in Hstep as (x & Hstep & _).
    destruct (g_factory p) as [f|] eqn:Ef.
    2:{ rewrite (create_session_without_factory _ _ _ _ _ p Ef) in Hstep.
        inversion Hstep. reflexivity. }
    destruct cid as [cid|].
    2:{ unfold Bridge.mqtt_create_session, APIFactory.createSession, alloc,
          undefined, pgets, pmodify, mbind, P_bind in Hstep.
        rewrite Ef in Hstep. cbn in Hstep. discriminate. }
    assert (Em : g_message_handlers p !! Pos.succ (Pos.succ (brk p)) = None).
    { destruct (g_message_handlers p !! Pos.succ (Pos.succ (brk p))) eqn:E;
        [|reflexivity].
      destruct (co_message_registry_below p Hc _ _ E). lia. }
    destruct (create_session_full cid mcb scb ecb ctx p f Hw Ef Em)
      as (p1 & Hcreate & _).
    cbn zeta in Hcreate. rewrite Hstep in Hcreate.
    inversion Hcreate. reflexivity.
  - unfold mbind, P_bind in Hstep.
    destruct (Bridge.mqtt_destroy_session h p) as [[[x p1] l1]|] eqn:Hd;
      [|discriminate].
    cbn in Hstep. inversion Hstep; subst. rewrite app_nil_r. clear Hstep.
    destruct h as [h|]; [|cbn in Hd; inversion Hd; reflexivity].
    destruct (handles p !! h) as [r|] eqn:Eh.
    2:{ unfold Bridge.mqtt_destroy_session, mbind, P_bind, deref_handle in Hd.
        rewrite Eh in Hd. discriminate. }
    exists r. split; [reflexivity|].
    destruct (live_handle p h r Hw Hc Eh)
      as (s & impl & a & Es & Ei & Ha & Ead).
    destruct (destroy_session_eq p h s r impl Eh Es Ei) as (p2 & Hd2 & _).
    rewrite Hd in Hd2. inversion Hd2; subst.
    apply Forall_app. split.
    { apply (observe_belongs p s a r _ Es Ead). rewrite <- Ha.
      apply stop_calls_only. }
    unfold releases.
    destruct (g_message_handlers p !! h); destruct (g_session_handlers p !! h);
      destruct (g_factory p); cbn; repeat constructor.
  - apply fmap_Some in Hstep as (x & Hstep & _).
    refine (checked_belongs p p' h _ getState _ x l' Hw Hc _ _ Hstep).
    + intros s q q' y k Hk. apply fmap_Some in Hk as (a & Hk & _).
      apply (on_session_actions _ _ _ _ _ _ Hk).
    + intros impl. constructor.
  - apply fmap_Some in Hstep as (x & Hstep & _).
    refine (checked_belongs p p' h _ (start created connected) _ x l' Hw Hc
              _ _ Hstep).
    + intros s q q' y k Hk. apply then_ret_actions in Hk as (a & Hk).
      apply (on_session_actions _ _ _ _ _ _ Hk).
    + intros impl. apply start_calls_only.
  - apply fmap_Some in Hstep as (x & Hstep & _).
    refine (checked_belongs p p' h _ stop _ x l' Hw Hc _ _ Hstep).
    + intros s q q' y k Hk. apply then_ret_actions in Hk as (a & Hk).
      apply (on_session_actions _ _ _ _ _ _ Hk).
    + intros impl. apply stop_calls_only.
  - apply fmap_Some in Hstep as (x & Hstep & _).
    refine (checked_belongs p p' h _ (subscribe topic qos rc) _ x l' Hw Hc
              _ _ Hstep).
    + intros s q q' y k Hk. apply (on_session_actions _ _ _ _ _ _ Hk).
    + intros impl. apply subscribe_calls_only.
  - apply fmap_Some in Hstep as (x & Hstep & _).
    refine (checked_belongs p p' h _ (unsubscribe handle rc) _ x l' Hw Hc
              _ _ Hstep).
    + intros s q q' y k Hk. apply then_ret_actions in Hk as (a & Hk).
      apply (on_session_actions _ _ _ _ _ _ Hk).
    + intros impl. apply unsubscribe_calls_only.
  - apply fmap_Some in Hstep as (x & Hstep & _).
    refine (checked_belongs p p' h _
              (publish topic payload len qos (negb (retain =? 0)) rc) _ x
              l' Hw Hc _ _ Hstep).
    + intros s q q' y k Hk. apply (on_session_actions _ _ _ _ _ _ Hk).
    + intros impl. apply publish_calls_only.
Qed.

Lemma callbacks_stay_with_their_handle_witness :
  exists (ret : Bridge.returned) (p' : process) (l' : list action)
         (r : mqtt_session_t),
    Bridge.step
      (Bridge.publish (Some 4%positive) "t/1" [] 0 Message.AT_MOST_ONCE 0 (-3))
      connected_process = Some (ret, p', l') /\
    handles connected_process !! 4%positive = Some r /\
    Forall (belongs_to r) l'.
Proof.
  destruct connected_process_reached as (rs & l & Hrun).
  destruct (Bridge.step
    (Bridge.publish (Some 4%positive) "t/1" [] 0 Message.AT_MOST_ONCE 0 (-3))
    connected_process) as [[[ret p'] l']|] eqn:Hstep;
    [|vm_compute in Hstep; discriminate].
  destruct (callbacks_stay_with_their_handle _ rs connected_process l _ ret p'
              l' Hrun Hstep) as (r & H1 & H2).
  exists ret, p', l', r. split; [reflexivity|]. split; [exact H1|exact H2].
Defined.

End Ownership.

(** ** Calls that are defined *)

Section Definedness.








End Definedness.
